(** * AI Moving-Cost Estimator: pricing, fallback staffing, model-text parsing,
      the two stages and their endpoints, embedded from [src/move.py] and
      [src/main.py], and the grouping of the inventory page of
      [src/streamlit.py].

    Python values are embedded as they are at run time: [int] is an unbounded
    [Z], [float] is an IEEE-754 binary64 (the kernel's primitive [float]),
    [str] is a [string], [list] a [list], [dict] an association list in
    insertion order.  Exceptions are an explicit result type, and a function
    body is a sequence of assignments in a small monad that records, in order,
    the staffing and pricing locals ([ai_estimate], [volume], ... [cost_max])
    bound by the time the function returns or raises.  The inference service,
    the operating system and the Python library ([json.loads], [json.dumps],
    the [repr] of a float) are parameters. *)

From Stdlib Require Import ZArith List String Ascii Bool Floats Lia DecimalString.
From stdpp Require Import base gmap sets strings.
Import ListNotations.

#[local] Set Warnings "-inexact-float,-register-all,-clear-no-such-hyp".
#[local] Open Scope string_scope.
#[local] Open Scope Z_scope.

(** ** Exceptions and results *)

Inductive pynum : Type :=
| PyInt (z : Z)
| PyFloat (f : float).

Inductive pyval : Type :=
| PNone
| PBool (b : bool)
| PNum (n : pynum)
| PStr (s : string)
| PList (l : list pyval)
| PDict (d : list (string * pyval)).

(** The exception classes the embedded statements can raise.  [ServiceError]
    stands for whatever the inference client raises; [HTTPException] is the
    one the endpoints raise themselves. *)
Inductive exn : Type :=
| KeyError (key : pyval)
| TypeError
| ValueError
| AttributeError
| OverflowError
| ZeroDivisionError
| JSONDecodeError
| IndexError
| OSError
| ServiceError
| HTTPException (status : Z).

Inductive result (A : Type) : Type :=
| Ok (a : A)
| Raise (e : exn).
Arguments Ok {A} a.
Arguments Raise {A} e.

Definition rbind {A B : Type} (r : result A) (k : A -> result B) : result B :=
  match r with
  | Ok a => k a
  | Raise e => Raise e
  end.

Declare Scope py_scope.
Delimit Scope py_scope with py.
Notation "x <-! r ;; k" := (rbind r (fun x => k))
  (at level 100, r at next level, right associativity) : py_scope.
#[local] Open Scope py_scope.

(** ** Python floats

    [+], [*] and [/] on two floats are the IEEE operations of [PrimFloat]; what
    Python adds is the conversion from [int], the true division of two ints,
    mixed comparison and [round(x, ndigits)]. *)

(** The least magnitude that no longer rounds to a finite double:
    [2^1024 - 2^970], half an ulp above the largest double. *)
Definition float_overflow_bound : Z := 2 ^ 1024 - 2 ^ 970.

(** The double nearest to [n / d] (ties to even), for [d > 0]: the quotient is
    taken with at least 64 significant bits and a sticky bit for the remainder,
    then rounded once by [binary_normalize]. *)
Definition ratio_to_SF (n d : Z) : spec_float :=
  let a := Z.abs n in
  let k := Z.max 0 (64 + Z.log2 d - Z.log2 a) in
  let q := (a * 2 ^ k) / d in
  let r := (a * 2 ^ k) mod d in
  let m := 2 * q + (if r =? 0 then 0 else 1) in
  binary_normalize prec emax (if n <? 0 then - m else m) (- (k + 1)) (n <? 0).

(** The double nearest to an integer (ties to even). *)
Definition nearest_float (z : Z) : float :=
  SF2Prim (binary_normalize prec emax z 0 false).

(** [float(z)]: correctly rounded, [OverflowError] when out of range. *)
Definition float_of_Z (z : Z) : result float :=
  if Z.abs z <? float_overflow_bound
  then Ok (nearest_float z)
  else Raise OverflowError.

(** [a / b] on two ints: the correctly rounded quotient. *)
Definition int_truediv (a b : Z) : result float :=
  if b =? 0 then Raise ZeroDivisionError
  else
    let n := if b <? 0 then - a else a in
    let d := Z.abs b in
    if Z.abs n <? d * float_overflow_bound
    then Ok (if n =? 0
             then (if (a <? 0) || (b <? 0) then neg_zero else zero)
             else SF2Prim (ratio_to_SF n d))
    else Raise OverflowError.

Definition round_half_even (n d : Z) : Z :=
  let q := n / d in
  let r := n mod d in
  match 2 * r ?= d with
  | Lt => q
  | Gt => q + 1
  | Eq => if Z.even q then q else q + 1
  end.

(** [round(x, nd)] on a float, [0 <= nd]: the exact binary value of [x] is
    rounded half-even to [nd] decimals, and that decimal is converted back to
    the nearest double; infinities and NaN round to themselves. *)
Definition float_round (x : float) (nd : Z) : float :=
  match Prim2SF x with
  | S754_finite s m e =>
      let num := Zpos m * 10 ^ nd * 2 ^ (Z.max e 0) in
      let den := 2 ^ (Z.max (- e) 0) in
      let N := round_half_even num den in
      if N =? 0 then (if s then neg_zero else zero)
      else SF2Prim (ratio_to_SF (if s then - N else N) (10 ^ nd))
  | _ => x
  end.

(** [f < z] for a float and an int: Python compares the exact values. *)
Definition float_ltb_Z (f : float) (z : Z) : bool :=
  match Prim2SF f with
  | S754_nan => false
  | S754_infinity s => s
  | S754_zero _ => 0 <? z
  | S754_finite s m e =>
      let v := if s then Zneg m else Zpos m in
      if 0 <=? e then v * 2 ^ e <? z else v <? z * 2 ^ (- e)
  end.

Definition Z_ltb_float (z : Z) (f : float) : bool :=
  match Prim2SF f with
  | S754_nan => false
  | S754_infinity s => negb s
  | S754_zero _ => z <? 0
  | S754_finite s m e =>
      let v := if s then Zneg m else Zpos m in
      if 0 <=? e then z <? v * 2 ^ e else z * 2 ^ (- e) <? v
  end.

(** ** Arithmetic on Python numbers *)

Definition to_float (n : pynum) : result float :=
  match n with
  | PyInt z => float_of_Z z
  | PyFloat f => Ok f
  end.

Definition num_add (a b : pynum) : result pynum :=
  match a, b with
  | PyInt x, PyInt y => Ok (PyInt (x + y))
  | _, _ => x <-! to_float a ;; y <-! to_float b ;; Ok (PyFloat (x + y)%float)
  end.

Definition num_mul (a b : pynum) : result pynum :=
  match a, b with
  | PyInt x, PyInt y => Ok (PyInt (x * y))
  | _, _ => x <-! to_float a ;; y <-! to_float b ;; Ok (PyFloat (x * y)%float)
  end.

Definition num_truediv (a b : pynum) : result pynum :=
  match a, b with
  | PyInt x, PyInt y => q <-! int_truediv x y ;; Ok (PyFloat q)
  | _, _ =>
      x <-! to_float a ;;
      y <-! to_float b ;;
      if (y =? 0)%float then Raise ZeroDivisionError else Ok (PyFloat (x / y)%float)
  end.

Definition num_ltb (a b : pynum) : bool :=
  match a, b with
  | PyInt x, PyInt y => x <? y
  | PyFloat x, PyFloat y => (x <? y)%float
  | PyFloat x, PyInt y => float_ltb_Z x y
  | PyInt x, PyFloat y => Z_ltb_float x y
  end.

(** [round(n, nd)] with [nd >= 0]: an int is returned unchanged. *)
Definition num_round (n : pynum) (nd : Z) : pynum :=
  match n with
  | PyInt z => PyInt z
  | PyFloat f => PyFloat (float_round f nd)
  end.

(** A value used as an operand of [+], [*], [/] or [<] against a number:
    [bool] is a subclass of [int]; anything else raises [TypeError]. *)
Definition as_num (v : pyval) : result pynum :=
  match v with
  | PNum n => Ok n
  | PBool b => Ok (PyInt (if b then 1 else 0))
  | _ => Raise TypeError
  end.

Definition py_add (a b : pyval) : result pynum :=
  x <-! as_num a ;; y <-! as_num b ;; num_add x y.
Definition py_mul (a b : pyval) : result pynum :=
  x <-! as_num a ;; y <-! as_num b ;; num_mul x y.
Definition py_truediv (a b : pyval) : result pynum :=
  x <-! as_num a ;; y <-! as_num b ;; num_truediv x y.
Definition py_lt (a b : pyval) : result bool :=
  x <-! as_num a ;; y <-! as_num b ;; Ok (num_ltb x y).

(** [len(v)] *)
Definition py_len (v : pyval) : result Z :=
  match v with
  | PStr s => Ok (Z.of_nat (String.length s))
  | PList l => Ok (Z.of_nat (List.length l))
  | PDict d => Ok (Z.of_nat (List.length d))
  | _ => Raise TypeError
  end.

(** ** Python strings

    A [str] is embedded as a [string] of code points below 256; the model's
    answers and [json.dumps] output are ASCII. *)

(** [c.isspace()] on code points below 256. *)
Definition is_space (c : ascii) : bool :=
  let n := N_of_ascii c in
  (((9 <=? n) && (n <=? 13)) || ((28 <=? n) && (n <=? 32))
   || (n =? 133) || (n =? 160))%N.

Fixpoint lstrip (s : string) : string :=
  match s with
  | String c s' => if is_space c then lstrip s' else s
  | EmptyString => EmptyString
  end.

Fixpoint rstrip (s : string) : string :=
  match s with
  | String c s' =>
      match rstrip s' with
      | EmptyString => if is_space c then EmptyString else String c EmptyString
      | r => String c r
      end
  | EmptyString => EmptyString
  end.

(** [s.strip()] *)
Definition strip (s : string) : string := rstrip (lstrip s).

(** [s.startswith(p)] *)
Definition startswith (s p : string) : bool := String.prefix p s.

(** [s[n:]] *)
Fixpoint slice_from (n : nat) (s : string) : string :=
  match n, s with
  | S k, String _ s' => slice_from k s'
  | _, _ => s
  end.

(** [s.split(sep)] for a non-empty [sep]: a left-to-right scan for
    non-overlapping occurrences.  [skip] counts the characters of a matched
    separator still to be passed over; [cur] is the piece being built. *)
Fixpoint split_go (sep : string) (skip : nat) (cur s : string) : list string :=
  match s with
  | EmptyString => [cur]
  | String c s' =>
      match skip with
      | S k => split_go sep k cur s'
      | O =>
          if String.prefix sep s
          then cur :: split_go sep (String.length sep - 1) EmptyString s'
          else split_go sep 0 (cur ++ String c EmptyString) s'
      end
  end.

Definition split (s sep : string) : list string := split_go sep 0 EmptyString s.

(** [l[i]] on a list of strings, [i >= 0]. *)
Definition list_getitem (l : list string) (i : nat) : result string :=
  match nth_error l i with
  | Some x => Ok x
  | None => Raise IndexError
  end.

(** ** Formatting values into text

    What an f-string makes of the values it interpolates: a [str] goes in as
    it is, a [bool] as True or False, an [int] as its decimal digits, which
    CPython refuses to produce, with a [ValueError], for more digits than
    [sys.get_int_max_str_digits()] (4300 unless reconfigured).  The [repr] of a
    [float] is library code and a parameter. *)

Definition newline : string := String "010"%char EmptyString.

Definition quote_mark : string := String "034"%char EmptyString.

Definition quoted (s : string) : string := quote_mark ++ s ++ quote_mark.

Definition int_max_str_digits : Z := 4300.

(** The least magnitude with more digits than that, [10 ^ 4300], evaluated
    once. *)
Definition int_str_bound : Z := Eval vm_compute in 10 ^ int_max_str_digits.

(** [str(z)] *)
Definition int_str (z : Z) : result string :=
  if Z.abs z <? int_str_bound
  then Ok (NilZero.string_of_int (Z.to_int z))
  else Raise ValueError.

(** [str(b)] *)
Definition bool_str (b : bool) : string := if b then "True" else "False".

(** [format(n, '')] of a number. *)
Definition format_num (float_repr : float -> string) (n : pynum) : result string :=
  match n with
  | PyInt z => int_str z
  | PyFloat f => Ok (float_repr f)
  end.

(** [format(v, '')] of any value; the [repr] of a list or of a dict is
    library code and a parameter. *)
Definition format_value (float_repr : float -> string)
    (container_repr : pyval -> result string) (v : pyval) : result string :=
  match v with
  | PNone => Ok "None"
  | PBool b => Ok (bool_str b)
  | PNum n => format_num float_repr n
  | PStr s => Ok s
  | PList _ | PDict _ => container_repr v
  end.

(** The lines of a text, each followed by a line break. *)
Fixpoint text_of_lines (lines : list string) : string :=
  match lines with
  | [] => EmptyString
  | line :: lines' => line ++ newline ++ text_of_lines lines'
  end.

(** ** The prompts

    Each function opens with its prompt, an f-string, before its [try]: the
    fields are formatted from left to right, and an exception of a field is
    an exception of the function. *)

(** The Stage 1 prompt ([src/move.py] 104-128 and 189-213, [src/main.py]
    34-58), over the texts of its two fields. *)
Definition video_prompt_text
    (home_type room_count : string) : string :=
  newline ++ text_of_lines
    ["Analyze this home moving video and create an inventory list.";
     EmptyString;
     "Context:";
     "- Home type: " ++ home_type;
     "- Number of rooms: " ++ room_count;
     EmptyString;
     "Instructions:";
     "1. Identify ALL furniture, appliances, and household items visible in the video";
     "2. Count the quantity of each item";
     "3. Categorize size as: large, medium, or small";
     "4. Categorize type as: furniture, appliance, box, or other";
     "5. Estimate total volume in cubic feet";
     "6. Flag any items needing special handling (piano, large wardrobe, fragile electronics, etc.)";
     EmptyString;
     "Return ONLY a valid JSON object in this exact format (no markdown, no explanation):";
     "{";
     "  " ++ quoted "items" ++ ": [";
     "    {" ++ quoted "name" ++ ": " ++ quoted "sofa" ++ ", " ++ quoted "quantity" ++ ": 1, " ++ quoted "size" ++ ": " ++ quoted "large" ++ ", " ++ quoted "category" ++ ": " ++ quoted "furniture" ++ "},";
     "    {" ++ quoted "name" ++ ": " ++ quoted "dining table" ++ ", " ++ quoted "quantity" ++ ": 1, " ++ quoted "size" ++ ": " ++ quoted "large" ++ ", " ++ quoted "category" ++ ": " ++ quoted "furniture" ++ "}";
     "  ],";
     "  " ++ quoted "total_volume_cubic_feet" ++ ": 800,";
     "  " ++ quoted "needs_special_handling" ++ ": [" ++ quoted "piano" ++ ", " ++ quoted "large_wardrobe" ++ "]";
     "}"].

(** The Stage 2 prompt ([src/move.py] 248-272, [src/main.py] 172-196), over the
    texts of its six fields. *)
Definition cost_prompt_text
    (inventory distance_km origin_floor has_elevator_origin destination_floor has_elevator_destination : string) : string :=
  newline ++ text_of_lines
    ["Analyze this moving inventory and provide intelligent estimates.";
     EmptyString;
     "Inventory:";
     inventory;
     EmptyString;
     "Move Details:";
     "- Distance: " ++ distance_km ++ " km";
     "- Origin floor: " ++ origin_floor ++ " (Elevator: " ++ has_elevator_origin ++ ")";
     "- Destination floor: " ++ destination_floor ++ " (Elevator: " ++ has_elevator_destination ++ ")";
     EmptyString;
     "Based on the items, especially heavy/special items, provide:";
     "1. Recommended number of movers (2-6 people)";
     "2. Truck type needed: small (up to 400 cubic feet), medium (400-900), large (900+)";
     "3. Additional hours needed beyond base time due to item complexity";
     "4. Any special handling notes";
     EmptyString;
     "Return ONLY a valid JSON object:";
     "{";
     "  " ++ quoted "recommended_movers" ++ ": 3,";
     "  " ++ quoted "truck_type" ++ ": " ++ quoted "medium" ++ ",";
     "  " ++ quoted "complexity_hours_add" ++ ": 1.5,";
     "  " ++ quoted "special_notes" ++ ": " ++ quoted "Piano requires extra care and time";
     "}"].

(** The prompt of [analyze_video_file], [analyze_youtube_video] and
    [analyze_video] for a [str] and an [int]. *)
Definition video_prompt (home_type : string) (room_count : Z) : result string :=
  room_count <-! int_str room_count ;;
  Ok (video_prompt_text home_type room_count).

(** ** Reading the model's answer

    The same statements appear after every inference call of both files
    ([src/move.py] 171-179, 228-236, 280-287; [src/main.py] 117-126, 205-212):
    strip, drop a code fence if the text starts with one, drop a leading
    [json] tag, strip again, then [json.loads].  [json.loads] belongs to the
    Python standard library and is a parameter here. *)

Definition fence_mark : string := "```".

Section ModelText.
Context {V : Type}.
Variable json_loads : string -> result V.

Definition unfence (text : string) : result string :=
  let result_text := strip text in
  if startswith result_text fence_mark then
    result_text <-! list_getitem (split result_text fence_mark) 1 ;;
    let result_text :=
      if startswith result_text "json" then slice_from 4 result_text
      else result_text in
    Ok (strip result_text)
  else Ok result_text.

Definition parse_model_text (text : string) : result V :=
  result_text <-! unfence text ;; json_loads result_text.
End ModelText.

(** ** Dictionaries and subscripting *)

Definition pydict : Type := list (string * pyval).

Fixpoint dict_lookup (d : pydict) (k : string) : option pyval :=
  match d with
  | [] => None
  | (k', v) :: d' => if String.eqb k' k then Some v else dict_lookup d' k
  end.

(** [d.get(k, default)] on a dict. *)
Definition dict_get (d : pydict) (k : string) (default : pyval) : pyval :=
  match dict_lookup d k with
  | Some v => v
  | None => default
  end.

(** [o[k]] with a string key, on any value. *)
Definition py_getitem (o : pyval) (k : string) : result pyval :=
  match o with
  | PDict d =>
      match dict_lookup d k with
      | Some v => Ok v
      | None => Raise (KeyError (PStr k))
      end
  | _ => Raise TypeError
  end.

(** [o.get(k, default)] on any value. *)
Definition py_get (o : pyval) (k : string) (default : pyval) : result pyval :=
  match o with
  | PDict d => Ok (dict_get d k default)
  | _ => Raise AttributeError
  end.

(** ** The prompt of Stage 2

    [json.dumps(inventory, indent=2)] is library code and a parameter; it is
    evaluated first, then the distance, the floors and the two flags. *)

Section CostPrompt.
Variable json_dumps : pyval -> result string.
Variable float_repr : float -> string.

Definition cost_prompt (inventory : pyval) (distance_km : pynum)
    (origin_floor destination_floor : Z)
    (has_elevator_origin has_elevator_destination : bool) : result string :=
  inventory <-! json_dumps inventory ;;
  distance_km <-! format_num float_repr distance_km ;;
  origin_floor <-! int_str origin_floor ;;
  destination_floor <-! int_str destination_floor ;;
  Ok (cost_prompt_text inventory distance_km
        origin_floor (bool_str has_elevator_origin)
        destination_floor (bool_str has_elevator_destination)).
End CostPrompt.

(** ** Function bodies: assignments in order, with the locals bound so far *)

Definition locals : Type := list (string * pyval).

Definition M (A : Type) : Type := (locals * result A)%type.

Definition mret {A : Type} (a : A) : M A := ([], Ok a).

Definition mbind {A B : Type} (m : M A) (k : A -> M B) : M B :=
  match m with
  | (l1, Ok a) => let (l2, r) := k a in ((l1 ++ l2)%list, r)
  | (l1, Raise e) => (l1, Raise e)
  end.

Notation "x <- m ;; k" := (mbind m (fun x => k))
  (at level 100, m at next level, right associativity) : py_scope.

(** [x = e]: evaluate [e]; if it raises, nothing is bound. *)
Definition assign (x : string) (e : result pyval) : M pyval :=
  match e with
  | Ok v => ([(x, v)], Ok v)
  | Raise ex => ([], Raise ex)
  end.

Definition assign_num (x : string) (e : result pynum) : M pynum :=
  match e with
  | Ok n => ([(x, PNum n)], Ok n)
  | Raise ex => ([], Raise ex)
  end.

(** [try: body except Exception: handler]; what [body] bound stays bound. *)
Definition try_except {A : Type} (body : M A) (handler : exn -> M A) : M A :=
  match body with
  | (l1, Ok a) => (l1, Ok a)
  | (l1, Raise e) => let (l2, r) := handler e in ((l1 ++ l2)%list, r)
  end.

(** Whether a local of that name has been bound. *)
Definition bound (x : string) (l : locals) : bool :=
  existsb (fun b => String.eqb (fst b) x) l.

(** ** The pricing table and the returned estimate *)

Record pricing_config : Type := {
  labor_rate_per_hour : pynum;
  truck_rates : list (string * pynum);
  fuel_cost_per_km : pynum;
  stairs_fee_per_floor : pynum;
  packing_material_per_cubic_feet : pynum;
  base_hours : pynum;
  hour_per_100_cubic_feet : pynum
}.

Fixpoint rate_lookup (t : list (string * pynum)) (k : string) : option pynum :=
  match t with
  | [] => None
  | (k', v) :: t' => if String.eqb k' k then Some v else rate_lookup t' k
  end.

(** [table[key]] on the truck-rate dict, whose keys are strings: a list or a
    dict is unhashable, any other key that is absent is a [KeyError]. *)
Definition rates_getitem (t : list (string * pynum)) (key : pyval) : result pynum :=
  match key with
  | PStr k =>
      match rate_lookup t k with
      | Some v => Ok v
      | None => Raise (KeyError key)
      end
  | PList _ | PDict _ => Raise TypeError
  | _ => Raise (KeyError key)
  end.

Record cost_breakdown : Type := {
  labor : pynum;
  truck : pynum;
  fuel : pynum;
  materials : pynum;
  stairs_fee : pynum;
  other : pynum
}.

Record cost_estimate : Type := {
  total_cost : pynum;
  cost_range : list pynum;
  movers_needed : pyval;
  truck_type : pyval;
  estimated_hours : pynum;
  breakdown : cost_breakdown;
  special_notes : pyval
}.

(** ** Stage 2 of [src/move.py]: [calculate_cost] *)

Module Move.

Definition PRICING_CONFIG : pricing_config := {|
  labor_rate_per_hour := PyInt 35;
  truck_rates := [("small", PyInt 75); ("medium", PyInt 120); ("large", PyInt 180)];
  fuel_cost_per_km := PyFloat 0.5;
  stairs_fee_per_floor := PyInt 25;
  packing_material_per_cubic_feet := PyFloat 0.20;
  base_hours := PyInt 4;
  hour_per_100_cubic_feet := PyFloat 0.5
|}.

(** The [except] block (lines 290-297): the staffing synthesised from the
    inventory alone. *)
Definition fallback (inventory : pydict) : M pyval :=
  volume <- assign "volume"
    (Ok (dict_get inventory "total_volume_cubic_feet" (PNum (PyInt 500)))) ;;
  assign "ai_estimate"
    (recommended_movers <-!
       (lt400 <-! py_lt volume (PNum (PyInt 400)) ;;
        if lt400 : bool then Ok 2
        else lt800 <-! py_lt volume (PNum (PyInt 800)) ;;
             Ok (if lt800 : bool then 3 else 4)) ;;
     truck_type <-!
       (lt400 <-! py_lt volume (PNum (PyInt 400)) ;;
        if lt400 : bool then Ok "small"
        else lt900 <-! py_lt volume (PNum (PyInt 900)) ;;
             Ok (if lt900 : bool then "medium" else "large")) ;;
     complexity_hours_add <-!
       (n <-! py_len (dict_get inventory "needs_special_handling" (PList [])) ;;
        num_mul (PyInt n) (PyFloat 0.5)) ;;
     Ok (PDict [("recommended_movers", PNum (PyInt recommended_movers));
                ("truck_type", PStr truck_type);
                ("complexity_hours_add", PNum complexity_hours_add);
                ("special_notes", PStr "")])).

Section CalculateCost.
(** [json.loads], [json.dumps(..., indent=2)], the [repr] of a float, and
    what [client.models.generate_content(model=..., contents=prompt).text]
    delivers for a prompt: the answer's text, or the exception the call
    raised. *)
Variable json_loads : string -> result pyval.
Variable json_dumps : pyval -> result string.
Variable float_repr : float -> string.
Variable generate_content : string -> result string.

(** Lines 274-297: the [try] around the inference call and its parse, where
    [response_text] is what the call delivers. *)
Definition staffing (response_text : result string) (inventory : pydict) : M pyval :=
  try_except
    (assign "ai_estimate"
       (text <-! response_text ;; parse_model_text json_loads text))
    (fun _ => fallback inventory).

(** Lines 274-353: the function from its [try] on. *)
Definition price (response_text : result string)
    (inventory : pydict) (distance_km : pynum)
    (origin_floor destination_floor : Z)
    (has_elevator_origin has_elevator_destination : bool) : M cost_estimate :=
  ai_estimate <- staffing response_text inventory ;;
  volume <- assign "volume"
    (Ok (dict_get inventory "total_volume_cubic_feet" (PNum (PyInt 500)))) ;;
  movers <- assign "movers" (py_getitem ai_estimate "recommended_movers") ;;
  truck_type <- assign "truck_type" (py_getitem ai_estimate "truck_type") ;;
  base_hours <- assign_num "base_hours" (Ok (base_hours PRICING_CONFIG)) ;;
  volume_hours <- assign_num "volume_hours"
    (q <-! py_truediv volume (PNum (PyInt 100)) ;;
     num_mul q (hour_per_100_cubic_feet PRICING_CONFIG)) ;;
  complexity_hours <- assign "complexity_hours"
    (py_get ai_estimate "complexity_hours_add" (PNum (PyInt 0))) ;;
  estimated_hours <- assign_num "estimated_hours"
    (s <-! num_add base_hours volume_hours ;;
     s <-! py_add (PNum s) complexity_hours ;;
     Ok (num_round s 1)) ;;
  labor_cost <- assign_num "labor_cost"
    (p <-! py_mul movers (PNum estimated_hours) ;;
     p <-! num_mul p (labor_rate_per_hour PRICING_CONFIG) ;;
     Ok (num_round p 2)) ;;
  truck_base <- assign_num "truck_base"
    (rates_getitem (truck_rates PRICING_CONFIG) truck_type) ;;
  fuel_cost <- assign_num "fuel_cost"
    (p <-! num_mul distance_km (fuel_cost_per_km PRICING_CONFIG) ;;
     Ok (num_round p 2)) ;;
  stairs_floors <- assign_num "stairs_floors" (Ok (PyInt 0)) ;;
  stairs_floors <-
    (if negb has_elevator_origin && (1 <? origin_floor)
     then assign_num "stairs_floors"
            (num_add stairs_floors (PyInt (origin_floor - 1)))
     else mret stairs_floors) ;;
  stairs_floors <-
    (if negb has_elevator_destination && (1 <? destination_floor)
     then assign_num "stairs_floors"
            (num_add stairs_floors (PyInt (destination_floor - 1)))
     else mret stairs_floors) ;;
  stairs_fee <- assign_num "stairs_fee"
    (num_mul stairs_floors (stairs_fee_per_floor PRICING_CONFIG)) ;;
  materials_cost <- assign_num "materials_cost"
    (p <-! py_mul volume (PNum (packing_material_per_cubic_feet PRICING_CONFIG)) ;;
     Ok (num_round p 2)) ;;
  other_fees <- assign_num "other_fees"
    (s <-! num_add labor_cost truck_base ;;
     s <-! num_add s fuel_cost ;;
     p <-! num_mul s (PyFloat 0.05) ;;
     Ok (num_round p 2)) ;;
  total_cost <- assign_num "total_cost"
    (s <-! num_add labor_cost truck_base ;;
     s <-! num_add s fuel_cost ;;
     s <-! num_add s stairs_fee ;;
     s <-! num_add s materials_cost ;;
     s <-! num_add s other_fees ;;
     Ok (num_round s 2)) ;;
  cost_min <- assign_num "cost_min"
    (p <-! num_mul total_cost (PyFloat 0.9) ;; Ok (num_round p 2)) ;;
  cost_max <- assign_num "cost_max"
    (p <-! num_mul total_cost (PyFloat 1.1) ;; Ok (num_round p 2)) ;;
  notes <- ([], py_get ai_estimate "special_notes" (PStr "")) ;;
  mret {| total_cost := total_cost;
          cost_range := [cost_min; cost_max];
          movers_needed := movers;
          truck_type := truck_type;
          estimated_hours := estimated_hours;
          breakdown := {| labor := labor_cost;
                          truck := truck_base;
                          fuel := fuel_cost;
                          materials := materials_cost;
                          stairs_fee := stairs_fee;
                          other := other_fees |};
          special_notes := notes |}.

(** Lines 243-353: the prompt is built, then sent. *)
Definition calculate_cost (inventory : pydict) (distance_km : pynum)
    (origin_floor destination_floor : Z)
    (has_elevator_origin has_elevator_destination : bool) : M cost_estimate :=
  prompt <-
    ([], cost_prompt json_dumps float_repr (PDict inventory) distance_km
           origin_floor destination_floor
           has_elevator_origin has_elevator_destination) ;;
  price (generate_content prompt) inventory distance_km
    origin_floor destination_floor has_elevator_origin has_elevator_destination.
End CalculateCost.

End Move.

(** ** Stage 2 of [src/main.py]: [calculate_move_cost] *)

Module Main.

Definition PRICING_CONFIG : pricing_config := {|
  labor_rate_per_hour := PyInt 35;
  truck_rates := [("small", PyInt 75); ("medium", PyInt 120); ("large", PyInt 180)];
  fuel_cost_per_km := PyFloat 0.5;
  stairs_fee_per_floor := PyInt 25;
  packing_material_per_cubic_feet := PyFloat 0.20;
  base_hours := PyInt 4;
  hour_per_100_cubic_feet := PyFloat 0.5
|}.

(** The [except] block (lines 214-223); its [print] has no effect on the
    values. *)
Definition fallback (inventory : pydict) : M pyval :=
  volume <- assign "volume"
    (Ok (dict_get inventory "total_volume_cubic_feet" (PNum (PyInt 500)))) ;;
  assign "ai_estimate"
    (recommended_movers <-!
       (lt400 <-! py_lt volume (PNum (PyInt 400)) ;;
        if lt400 : bool then Ok 2
        else lt800 <-! py_lt volume (PNum (PyInt 800)) ;;
             Ok (if lt800 : bool then 3 else 4)) ;;
     truck_type <-!
       (lt400 <-! py_lt volume (PNum (PyInt 400)) ;;
        if lt400 : bool then Ok "small"
        else lt900 <-! py_lt volume (PNum (PyInt 900)) ;;
             Ok (if lt900 : bool then "medium" else "large")) ;;
     complexity_hours_add <-!
       (n <-! py_len (dict_get inventory "needs_special_handling" (PList [])) ;;
        num_mul (PyInt n) (PyFloat 0.5)) ;;
     Ok (PDict [("recommended_movers", PNum (PyInt recommended_movers));
                ("truck_type", PStr truck_type);
                ("complexity_hours_add", PNum complexity_hours_add);
                ("special_notes", PStr "")])).

Section CalculateMoveCost.
Variable json_loads : string -> result pyval.
Variable json_dumps : pyval -> result string.
Variable float_repr : float -> string.
Variable generate_content : string -> result string.

(** Lines 198-223, where [response_text] is what the call delivers. *)
Definition staffing (response_text : result string) (inventory : pydict) : M pyval :=
  try_except
    (assign "ai_estimate"
       (text <-! response_text ;; parse_model_text json_loads text))
    (fun _ => fallback inventory).

(** Lines 198-280: the function from its [try] on. *)
Definition price (response_text : result string)
    (inventory : pydict) (distance_km : pynum)
    (origin_floor destination_floor : Z)
    (has_elevator_origin has_elevator_destination : bool) : M cost_estimate :=
  ai_estimate <- staffing response_text inventory ;;
  volume <- assign "volume"
    (Ok (dict_get inventory "total_volume_cubic_feet" (PNum (PyInt 500)))) ;;
  movers <- assign "movers" (py_getitem ai_estimate "recommended_movers") ;;
  truck_type <- assign "truck_type" (py_getitem ai_estimate "truck_type") ;;
  base_hours <- assign_num "base_hours" (Ok (base_hours PRICING_CONFIG)) ;;
  volume_hours <- assign_num "volume_hours"
    (q <-! py_truediv volume (PNum (PyInt 100)) ;;
     num_mul q (hour_per_100_cubic_feet PRICING_CONFIG)) ;;
  complexity_hours <- assign "complexity_hours"
    (py_get ai_estimate "complexity_hours_add" (PNum (PyInt 0))) ;;
  estimated_hours <- assign_num "estimated_hours"
    (s <-! num_add base_hours volume_hours ;;
     s <-! py_add (PNum s) complexity_hours ;;
     Ok (num_round s 1)) ;;
  labor_cost <- assign_num "labor_cost"
    (p <-! py_mul movers (PNum estimated_hours) ;;
     p <-! num_mul p (labor_rate_per_hour PRICING_CONFIG) ;;
     Ok (num_round p 2)) ;;
  truck_base <- assign_num "truck_base"
    (rates_getitem (truck_rates PRICING_CONFIG) truck_type) ;;
  fuel_cost <- assign_num "fuel_cost"
    (p <-! num_mul distance_km (fuel_cost_per_km PRICING_CONFIG) ;;
     Ok (num_round p 2)) ;;
  truck_total <- assign_num "truck_total" (num_add truck_base fuel_cost) ;;
  stairs_floors <- assign_num "stairs_floors" (Ok (PyInt 0)) ;;
  stairs_floors <-
    (if negb has_elevator_origin && (1 <? origin_floor)
     then assign_num "stairs_floors"
            (num_add stairs_floors (PyInt (origin_floor - 1)))
     else mret stairs_floors) ;;
  stairs_floors <-
    (if negb has_elevator_destination && (1 <? destination_floor)
     then assign_num "stairs_floors"
            (num_add stairs_floors (PyInt (destination_floor - 1)))
     else mret stairs_floors) ;;
  stairs_fee <- assign_num "stairs_fee"
    (num_mul stairs_floors (stairs_fee_per_floor PRICING_CONFIG)) ;;
  materials_cost <- assign_num "materials_cost"
    (p <-! py_mul volume (PNum (packing_material_per_cubic_feet PRICING_CONFIG)) ;;
     Ok (num_round p 2)) ;;
  other_fees <- assign_num "other_fees"
    (s <-! num_add labor_cost truck_total ;;
     p <-! num_mul s (PyFloat 0.05) ;;
     Ok (num_round p 2)) ;;
  total_cost <- assign_num "total_cost"
    (s <-! num_add labor_cost truck_total ;;
     s <-! num_add s stairs_fee ;;
     s <-! num_add s materials_cost ;;
     s <-! num_add s other_fees ;;
     Ok (num_round s 2)) ;;
  cost_min <- assign_num "cost_min"
    (p <-! num_mul total_cost (PyFloat 0.9) ;; Ok (num_round p 2)) ;;
  cost_max <- assign_num "cost_max"
    (p <-! num_mul total_cost (PyFloat 1.1) ;; Ok (num_round p 2)) ;;
  notes <- ([], py_get ai_estimate "special_notes" (PStr "")) ;;
  mret {| total_cost := total_cost;
          cost_range := [cost_min; cost_max];
          movers_needed := movers;
          truck_type := truck_type;
          estimated_hours := estimated_hours;
          breakdown := {| labor := labor_cost;
                          truck := truck_base;
                          fuel := fuel_cost;
                          materials := materials_cost;
                          stairs_fee := stairs_fee;
                          other := other_fees |};
          special_notes := notes |}.

(** Lines 154-280: the prompt is built, then sent. *)
Definition calculate_move_cost (inventory : pydict) (distance_km : pynum)
    (origin_floor destination_floor : Z)
    (has_elevator_origin has_elevator_destination : bool) : M cost_estimate :=
  prompt <-
    ([], cost_prompt json_dumps float_repr (PDict inventory) distance_km
           origin_floor destination_floor
           has_elevator_origin has_elevator_destination) ;;
  price (generate_content prompt) inventory distance_km
    origin_floor destination_floor has_elevator_origin has_elevator_destination.
End CalculateMoveCost.

End Main.

(** ** A reference [repr] of a float

    [float.__repr__] is library code.  Where a statement needs a concrete
    instance of it, it uses this one: the shortest run of decimal digits
    that reads back as the same double, the nearest one if there are several,
    written in positional notation when the decimal point falls within 16
    digits after or 4 zeros before the first digit, and with an exponent
    otherwise. *)

Definition digits_of (n : Z) : string :=
  NilZero.string_of_uint (N.to_uint (Z.to_N n)).

Fixpoint rstrip_zeros (s : string) : string :=
  match s with
  | EmptyString => EmptyString
  | String c s' =>
      match rstrip_zeros s' with
      | EmptyString => if Ascii.eqb c "0" then EmptyString else String c EmptyString
      | r => String c r
      end
  end.

Fixpoint zeros (n : nat) : string :=
  match n with
  | O => EmptyString
  | S k => String "0" (zeros k)
  end.

(** [10^k <= num / den], for positive [num] and [den]. *)
Definition at_least_pow10 (num den k : Z) : bool :=
  if 0 <=? k then 10 ^ k * den <=? num else den <=? num * 10 ^ (- k).

Fixpoint raise_exponent (fuel : nat) (num den k : Z) : Z :=
  match fuel with
  | O => k
  | S fuel' =>
      if at_least_pow10 num den (k + 1)
      then raise_exponent fuel' num den (k + 1)
      else k
  end.

(** The [k] with [10^k <= num / den < 10^(k+1)], from an estimate by the
    binary logarithms that is at most four too low. *)
Definition decimal_exponent (num den : Z) : Z :=
  raise_exponent 4 num den
    (((Z.log2 num - Z.log2 den - 1) * 30103) / 100000 - 1).

(** The double nearest to [N * 10^(-s)]. *)
Definition read_back (N s : Z) : float :=
  SF2Prim (if 0 <=? s then ratio_to_SF N (10 ^ s)
           else ratio_to_SF (N * 10 ^ (- s)) 1).

(** The digits of the shortest decimal that reads back as [x = num / den],
    without trailing zeros, and the position of the decimal point after its
    first digits; decimals of [n] significant digits are tried for [n], [n+1],
    ..., the nearest one to [x] first and then its neighbour on the other
    side of [x]. *)
Fixpoint shortest_digits (fuel : nat) (n : Z) (x : float) (num den k : Z)
    : string * Z :=
  match fuel with
  | O => (EmptyString, 0)
  | S fuel' =>
      let s := n - 1 - k in
      let nn := if 0 <=? s then num * 10 ^ s else num in
      let dd := if 0 <=? s then den else den * 10 ^ (- s) in
      let N := round_half_even nn dd in
      let other := if nn <? N * dd then N - 1 else N + 1 in
      let found (C : Z) :=
        (rstrip_zeros (digits_of C), Z.of_nat (String.length (digits_of C)) - s) in
      if (read_back N s =? x)%float then found N
      else if (read_back other s =? x)%float then found other
      else shortest_digits fuel' (n + 1) x num den k
  end.

Definition repr_float (x : float) : string :=
  match Prim2SF x with
  | S754_nan => "nan"
  | S754_infinity s => if s then "-inf" else "inf"
  | S754_zero s => if s then "-0.0" else "0.0"
  | S754_finite s m e =>
      let num := Zpos m * 2 ^ Z.max e 0 in
      let den := 2 ^ Z.max (- e) 0 in
      let (d, decpt) :=
        shortest_digits 17 1 (abs x) num den (decimal_exponent num den) in
      let n := Z.of_nat (String.length d) in
      (if s then "-" else EmptyString) ++
      (if (decpt <=? -4) || (16 <? decpt) then
         let ex := decpt - 1 in
         String.substring 0 1 d
         ++ (if 1 <? n then "." ++ slice_from 1 d else EmptyString)
         ++ "e" ++ (if ex <? 0 then "-" else "+")
         ++ (if Z.abs ex <? 10 then "0" else EmptyString) ++ digits_of (Z.abs ex)
       else if decpt <=? 0 then "0." ++ zeros (Z.to_nat (- decpt)) ++ d
       else if n <=? decpt then d ++ zeros (Z.to_nat (decpt - n)) ++ ".0"
       else String.substring 0 (Z.to_nat decpt) d ++ "."
            ++ slice_from (Z.to_nat decpt) d)
  end.

(** ** A reference JSON codec

    [json.dumps] and [json.loads] are library code.  Where a statement needs a
    concrete instance of them, it uses this codec over JSON syntax trees (RFC
    8259 grammar, number literals kept as text, code points below 256), with
    [json.dumps] defaults: [", "] and [": "] separators, non-printable and
    non-ASCII characters escaped. *)

Module Json.

Inductive value : Type :=
| Null
| Bool (b : bool)
| Number (literal : string)
| Str (s : string)
| Array (elements : list value)
| Object (members : list (string * value)).

Definition dquote : ascii := "034"%char.
Definition backslash : ascii := "092"%char.
Definition dq : string := String dquote EmptyString.

Definition hex_digit (n : N) : ascii :=
  if (n <? 10)%N then ascii_of_N (48 + n) else ascii_of_N (87 + n).

Definition escape_char (c : ascii) : string :=
  let n := N_of_ascii c in
  let esc (e : string) := String backslash e in
  if (n =? 34)%N then esc dq
  else if (n =? 92)%N then esc (String backslash EmptyString)
  else if (n =? 10)%N then esc "n"
  else if (n =? 13)%N then esc "r"
  else if (n =? 9)%N then esc "t"
  else if (n =? 8)%N then esc "b"
  else if (n =? 12)%N then esc "f"
  else if ((32 <=? n) && (n <=? 126))%N then String c EmptyString
  else esc (String "u" (String "0" (String "0"
         (String (hex_digit (n / 16)) (String (hex_digit (n mod 16)) EmptyString))))).

Fixpoint escape (s : string) : string :=
  match s with
  | EmptyString => EmptyString
  | String c s' => escape_char c ++ escape s'
  end.

Definition dumps_string (s : string) : string := dq ++ escape s ++ dq.

Fixpoint dumps (v : value) : string :=
  match v with
  | Null => "null"
  | Bool true => "true"
  | Bool false => "false"
  | Number literal => literal
  | Str s => dumps_string s
  | Array elements =>
      "[" ++ (fix go (l : list value) : string :=
                match l with
                | [] => EmptyString
                | x :: l' =>
                    match l' with
                    | [] => dumps x
                    | _ => dumps x ++ ", " ++ go l'
                    end
                end) elements ++ "]"
  | Object members =>
      "{" ++ (fix go (l : list (string * value)) : string :=
                match l with
                | [] => EmptyString
                | (k, x) :: l' =>
                    match l' with
                    | [] => dumps_string k ++ ": " ++ dumps x
                    | _ => dumps_string k ++ ": " ++ dumps x ++ ", " ++ go l'
                    end
                end) members ++ "}"
  end.

(** *** Parsing *)

Definition is_ws (c : ascii) : bool :=
  let n := N_of_ascii c in
  ((n =? 32) || (n =? 9) || (n =? 10) || (n =? 13))%N.

Fixpoint skip_ws (s : string) : string :=
  match s with
  | String c s' => if is_ws c then skip_ws s' else s
  | EmptyString => EmptyString
  end.

Definition is_digit (c : ascii) : bool :=
  let n := N_of_ascii c in ((48 <=? n) && (n <=? 57))%N.

Definition hex_value (c : ascii) : option N :=
  let n := N_of_ascii c in
  if ((48 <=? n) && (n <=? 57))%N then Some (n - 48)%N
  else if ((97 <=? n) && (n <=? 102))%N then Some (n - 87)%N
  else if ((65 <=? n) && (n <=? 70))%N then Some (n - 55)%N
  else None.

Definition unescape_simple (c : ascii) : option ascii :=
  let n := N_of_ascii c in
  if (n =? 34)%N then Some dquote
  else if (n =? 92)%N then Some backslash
  else if (n =? 47)%N then Some "/"%char
  else if (n =? 98)%N then Some "008"%char
  else if (n =? 102)%N then Some "012"%char
  else if (n =? 110)%N then Some "010"%char
  else if (n =? 114)%N then Some "013"%char
  else if (n =? 116)%N then Some "009"%char
  else None.

(** The text after an opening quote: the decoded string and what follows the
    closing quote. *)
Fixpoint string_body (s : string) : option (string * string) :=
  let cons (c : ascii) (r : option (string * string)) :=
    match r with
    | Some (t, rest) => Some (String c t, rest)
    | None => None
    end in
  match s with
  | EmptyString => None
  | String c s' =>
      if Ascii.eqb c dquote then Some (EmptyString, s')
      else if Ascii.eqb c backslash then
        match s' with
        | String "u" (String h1 (String h2 (String h3 (String h4 s'')))) =>
            match hex_value h1, hex_value h2, hex_value h3, hex_value h4 with
            | Some a, Some b, Some c3, Some d =>
                let n := (((a * 16 + b) * 16 + c3) * 16 + d)%N in
                if (n <? 256)%N then cons (ascii_of_N n) (string_body s'')
                else None
            | _, _, _, _ => None
            end
        | String e s'' =>
            match unescape_simple e with
            | Some c' => cons c' (string_body s'')
            | None => None
            end
        | EmptyString => None
        end
      else if (N_of_ascii c <? 32)%N then None
      else cons c (string_body s')
  end.

Fixpoint take_digits (s : string) : string * string :=
  match s with
  | String c s' =>
      if is_digit c then let (d, rest) := take_digits s' in (String c d, rest)
      else (EmptyString, s)
  | EmptyString => (EmptyString, EmptyString)
  end.

(** A number literal at the head of [s]: an optional minus sign, [0] or a
    digit run not starting with [0], an optional fraction (a dot and digits),
    an optional exponent ([e] or [E], an optional sign, digits). *)
Definition number_literal (s : string) : option (string * string) :=
  let (sign, s1) :=
    match s with
    | String "-" s' => ("-", s')
    | _ => (EmptyString, s)
    end in
  let int_part :=
    match s1 with
    | String "0" s' => Some ("0", s')
    | _ => match take_digits s1 with
           | (EmptyString, _) => None
           | (d, rest) => Some (d, rest)
           end
    end in
  match int_part with
  | None => None
  | Some (i, s2) =>
      let (frac, s3) :=
        match s2 with
        | String "." s' =>
            match take_digits s' with
            | (EmptyString, _) => (EmptyString, s2)
            | (d, rest) => (String "." d, rest)
            end
        | _ => (EmptyString, s2)
        end in
      let (expo, s4) :=
        match s3 with
        | String e s' =>
            if Ascii.eqb e "e" || Ascii.eqb e "E" then
              let (sg, s'') :=
                match s' with
                | String "+" t => ("+", t)
                | String "-" t => ("-", t)
                | _ => (EmptyString, s')
                end in
              match take_digits s'' with
              | (EmptyString, _) => (EmptyString, s3)
              | (d, rest) => (String e (sg ++ d), rest)
              end
            else (EmptyString, s3)
        | EmptyString => (EmptyString, s3)
        end in
      Some (sign ++ i ++ frac ++ expo, s4)
  end.

(** A value at the head of [s]; [elements] and [members] read what follows
    an opening bracket or brace. *)
Fixpoint parse_value (fuel : nat) (s : string) : option (value * string) :=
  match fuel with
  | O => None
  | S fuel' =>
      match s with
      | EmptyString => None
      | String c s' =>
          if Ascii.eqb c dquote then
            match string_body s' with
            | Some (t, rest) => Some (Str t, rest)
            | None => None
            end
          else if Ascii.eqb c "[" then
            match skip_ws s' with
            | String "]" rest => Some (Array [], rest)
            | s'' =>
                match elements fuel' s'' with
                | Some (l, rest) => Some (Array l, rest)
                | None => None
                end
            end
          else if Ascii.eqb c "{" then
            match skip_ws s' with
            | String "}" rest => Some (Object [], rest)
            | s'' =>
                match members fuel' s'' with
                | Some (l, rest) => Some (Object l, rest)
                | None => None
                end
            end
          else if String.prefix "null" s then Some (Null, slice_from 4 s)
          else if String.prefix "true" s then Some (Bool true, slice_from 4 s)
          else if String.prefix "false" s then Some (Bool false, slice_from 5 s)
          else
            match number_literal s with
            | Some (literal, rest) => Some (Number literal, rest)
            | None => None
            end
      end
  end
with elements (fuel : nat) (s : string) : option (list value * string) :=
  match fuel with
  | O => None
  | S fuel' =>
      match parse_value fuel' s with
      | Some (v, rest) =>
          match skip_ws rest with
          | String "]" rest' => Some ([v], rest')
          | String "," rest' =>
              match elements fuel' (skip_ws rest') with
              | Some (l, rest'') => Some (v :: l, rest'')
              | None => None
              end
          | _ => None
          end
      | None => None
      end
  end
with members (fuel : nat) (s : string) : option (list (string * value) * string) :=
  match fuel with
  | O => None
  | S fuel' =>
      match s with
      | String c s' =>
          if Ascii.eqb c dquote then
            match string_body s' with
            | Some (k, rest) =>
                match skip_ws rest with
                | String ":" rest' =>
                    match parse_value fuel' (skip_ws rest') with
                    | Some (v, rest'') =>
                        match skip_ws rest'' with
                        | String "}" r => Some ([(k, v)], r)
                        | String "," r =>
                            match members fuel' (skip_ws r) with
                            | Some (l, r') => Some ((k, v) :: l, r')
                            | None => None
                            end
                        | _ => None
                        end
                    | None => None
                    end
                | _ => None
                end
            | None => None
            end
          else None
      | EmptyString => None
      end
  end.

(** [json.loads] onto syntax trees: one value, whitespace around it allowed,
    nothing else after it. *)
Definition loads (s : string) : result value :=
  match parse_value (2 * String.length s + 4) (skip_ws s) with
  | Some (v, rest) =>
      match skip_ws rest with
      | EmptyString => Ok v
      | _ => Raise JSONDecodeError
      end
  | None => Raise JSONDecodeError
  end.

(** *** Syntax trees to Python values

    What [json.loads] builds from a tree: a literal without fraction and
    exponent is an [int], any other literal the nearest [float] (infinite
    beyond the double range); a repeated key keeps its first position and its
    last value. *)

Fixpoint digits_to_Z (s : string) (acc : Z) : Z :=
  match s with
  | String c s' => digits_to_Z s' (10 * acc + (Z.of_N (N_of_ascii c) - 48))
  | EmptyString => acc
  end.

Definition literal_to_num (literal : string) : pynum :=
  let (neg, s1) :=
    match literal with
    | String "-" s' => (true, s')
    | _ => (false, literal)
    end in
  let (int_digits, s2) := take_digits s1 in
  let (frac_digits, s3) :=
    match s2 with
    | String "." s' => take_digits s'
    | _ => (EmptyString, s2)
    end in
  match s2 with
  | EmptyString => PyInt (if neg then - digits_to_Z int_digits 0 else digits_to_Z int_digits 0)
  | _ =>
      let exp10 :=
        match s3 with
        | String _ (String "-" d) => - digits_to_Z d 0
        | String _ (String "+" d) => digits_to_Z d 0
        | String _ d => digits_to_Z d 0
        | EmptyString => 0
        end in
      let mant := digits_to_Z (int_digits ++ frac_digits) 0 in
      let e := exp10 - Z.of_nat (String.length frac_digits) in
      if mant =? 0 then PyFloat (if neg then neg_zero else zero)
      else
        let n := if neg then - mant else mant in
        PyFloat (SF2Prim (if 0 <=? e then ratio_to_SF (n * 10 ^ e) 1
                          else ratio_to_SF n (10 ^ (- e))))
  end.

Fixpoint dict_set (d : pydict) (k : string) (v : pyval) : pydict :=
  match d with
  | [] => [(k, v)]
  | (k', v') :: d' =>
      if String.eqb k' k then (k', v) :: d' else (k', v') :: dict_set d' k v
  end.

Fixpoint to_py (v : value) : pyval :=
  match v with
  | Null => PNone
  | Bool b => PBool b
  | Number literal => PNum (literal_to_num literal)
  | Str s => PStr s
  | Array elements => PList (List.map to_py elements)
  | Object members =>
      PDict ((fix go (l : list (string * value)) (acc : pydict) : pydict :=
                match l with
                | [] => acc
                | (k, x) :: l' => go l' (dict_set acc k (to_py x))
                end) members [])
  end.

(** [json.loads] onto Python values. *)
Definition loads_py (s : string) : result pyval :=
  v <-! loads s ;; Ok (to_py v).

(** *** Serializing a Python value with [indent=2]

    [json.dumps(v, indent=2)] on the values the embedding has: one item or
    member per line, two more spaces per level, [","] between items, an
    empty list or dict on one line; an int beyond the digits limit raises
    [ValueError], a float that is not finite becomes NaN, Infinity or
    -Infinity. *)

Fixpoint spaces (n : nat) : string :=
  match n with
  | O => EmptyString
  | S k => String " " (spaces k)
  end.

Definition line_break (level : nat) : string := newline ++ spaces (2 * level).

Definition float_text (f : float) : string :=
  match Prim2SF f with
  | S754_nan => "NaN"
  | S754_infinity s => if s then "-Infinity" else "Infinity"
  | _ => repr_float f
  end.

Fixpoint dumps_indented (level : nat) (v : pyval) : result string :=
  match v with
  | PNone => Ok "null"
  | PBool b => Ok (if b then "true" else "false")
  | PNum (PyInt z) => int_str z
  | PNum (PyFloat f) => Ok (float_text f)
  | PStr s => Ok (dumps_string s)
  | PList [] => Ok "[]"
  | PList l =>
      body <-!
        (fix go (l : list pyval) : result string :=
           match l with
           | [] => Ok EmptyString
           | x :: l' =>
               t <-! dumps_indented (S level) x ;;
               match l' with
               | [] => Ok t
               | _ => r <-! go l' ;; Ok (t ++ "," ++ line_break (S level) ++ r)
               end
           end) l ;;
      Ok ("[" ++ line_break (S level) ++ body ++ line_break level ++ "]")
  | PDict [] => Ok "{}"
  | PDict d =>
      body <-!
        (fix go (d : list (string * pyval)) : result string :=
           match d with
           | [] => Ok EmptyString
           | (k, x) :: d' =>
               t <-! dumps_indented (S level) x ;;
               let member := dumps_string k ++ ": " ++ t in
               match d' with
               | [] => Ok member
               | _ => r <-! go d' ;; Ok (member ++ "," ++ line_break (S level) ++ r)
               end
           end) d ;;
      Ok ("{" ++ line_break (S level) ++ body ++ line_break level ++ "}")
  end.

Definition dumps_py (v : pyval) : result string := dumps_indented 0 v.

End Json.

(** ** The analyze-video endpoint of [src/move.py] (lines 372-412)

    The endpoint is run against a file system, the set of paths that exist.
    What the environment decides is a parameter: the name the temporary file
    gets (or the error creating it), whether copying the upload into it
    succeeds, what the two analyses return, and whether the inventory passes
    the response model. *)

Module Endpoint.

Definition filesystem : Type := gset string.

(** [os.unlink(path)] *)
Definition os_unlink (path : string) (fs : filesystem) : filesystem * result unit :=
  if decide (path ∈ fs) then (fs ∖ {[path]}, Ok tt) else (fs, Raise OSError).

Section AnalyzeVideoEndpoint.
Variable analyze_youtube_video : string -> string -> Z -> result pyval.
Variable analyze_video_file : string -> string -> Z -> result pyval.
(** [tempfile.NamedTemporaryFile(delete=False, suffix='.mp4')] and
    [shutil.copyfileobj(video_file.file, temp_file)] *)
Variable NamedTemporaryFile : result string.
Variable copyfileobj : result unit.
(** [VideoAnalysisResponse( **inventory )] *)
Variable VideoAnalysisResponse : pyval -> result pyval.

(** Lines 397-407: stage the upload, analyse it, unlink in [finally]. *)
Definition analyze_upload (home_type : string) (room_count : Z)
    (fs : filesystem) : filesystem * result pyval :=
  match NamedTemporaryFile with
  | Raise e => (fs, Raise e)
  | Ok temp_path =>
      let fs := {[temp_path]} ∪ fs in
      match copyfileobj with
      | Raise e => (fs, Raise e)
      | Ok _ =>
          let inventory := analyze_video_file temp_path home_type room_count in
          match os_unlink temp_path fs with
          | (fs, Ok _) => (fs, inventory)
          | (fs, Raise e) => (fs, Raise e)
          end
      end
  end.

Definition analyze_video_endpoint (video_file : bool) (youtube_url : option string)
    (home_type : string) (room_count : Z)
    (fs : filesystem) : filesystem * result pyval :=
  let url_given :=
    match youtube_url with
    | Some (String _ _) => true
    | _ => false
    end in
  if negb video_file && negb url_given then (fs, Raise (HTTPException 400))
  else
    let (fs, inventory) :=
      match youtube_url with
      | Some (String c u) =>
          (fs, analyze_youtube_video (String c u) home_type room_count)
      | _ => analyze_upload home_type room_count fs
      end in
    match inventory <-! inventory ;; VideoAnalysisResponse inventory with
    | Ok response => (fs, Ok response)
    | Raise _ => (fs, Raise (HTTPException 500))
    end.
End AnalyzeVideoEndpoint.

End Endpoint.

(** ** What the specification states about an estimate *)

(** [round(labor + truck_base + fuel + stairs_fee + materials + other, 2)],
    evaluated left to right over a returned breakdown. *)
Definition stated_total (b : cost_breakdown) : result pynum :=
  s <-! num_add (labor b) (truck b) ;;
  s <-! num_add s (fuel b) ;;
  s <-! num_add s (stairs_fee b) ;;
  s <-! num_add s (materials b) ;;
  s <-! num_add s (other b) ;;
  Ok (num_round s 2).

(** The same sum with truck and fuel added to each other first, as
    [src/main.py] forms it through [truck_total]. *)
Definition grouped_total (b : cost_breakdown) : result pynum :=
  truck_total <-! num_add (truck b) (fuel b) ;;
  s <-! num_add (labor b) truck_total ;;
  s <-! num_add s (stairs_fee b) ;;
  s <-! num_add s (materials b) ;;
  s <-! num_add s (other b) ;;
  Ok (num_round s 2).

(** [[round(total_cost*0.9, 2), round(total_cost*1.1, 2)]] *)
Definition stated_range (total : pynum) : result (list pynum) :=
  lo <-! num_mul total (PyFloat 0.9) ;;
  hi <-! num_mul total (PyFloat 1.1) ;;
  Ok [num_round lo 2; num_round hi 2].

(** [round((labor + truck_base + fuel) * 0.05, 2)], left to right, and with
    truck and fuel added first. *)
Definition other_left_to_right (b : cost_breakdown) : result pynum :=
  s <-! num_add (labor b) (truck b) ;;
  s <-! num_add s (fuel b) ;;
  p <-! num_mul s (PyFloat 0.05) ;;
  Ok (num_round p 2).

Definition other_grouped (b : cost_breakdown) : result pynum :=
  truck_total <-! num_add (truck b) (fuel b) ;;
  s <-! num_add (labor b) truck_total ;;
  p <-! num_mul s (PyFloat 0.05) ;;
  Ok (num_round p 2).

(** The 5% base [labor + truck_base + fuel] in the two groupings. *)
Definition fee_base_left_to_right (b : cost_breakdown) : result pynum :=
  s <-! num_add (labor b) (truck b) ;; num_add s (fuel b).

Definition fee_base_grouped (b : cost_breakdown) : result pynum :=
  truck_total <-! num_add (truck b) (fuel b) ;; num_add (labor b) truck_total.

(** A 5% base that leaves truck and fuel out: [round(labor * 0.05, 2)]. *)
Definition other_labor_only (b : cost_breakdown) : result pynum :=
  p <-! num_mul (labor b) (PyFloat 0.05) ;;
  Ok (num_round p 2).

(** The truck rate of a tier. *)
Definition stated_rate (tier : string) : result pynum :=
  if String.eqb tier "small" then Ok (PyInt 75)
  else if String.eqb tier "medium" then Ok (PyInt 120)
  else if String.eqb tier "large" then Ok (PyInt 180)
  else Raise (KeyError (PStr tier)).

(** [labor + truck_base + fuel], left to right or, when [grouped], with truck
    and fuel added to each other first. *)
Definition fee_base (grouped : bool) (labor truck fuel : pynum) : result pynum :=
  if grouped
  then truck_total <-! num_add truck fuel ;; num_add labor truck_total
  else s <-! num_add labor truck ;; num_add s fuel.

(** The estimate for a staffing (movers, truck tier, hours added, notes), a
    volume [v], a distance and a number of floors climbed:
    estimated_hours = round(4 + (v/100) x 0.5 + complexity_hours_add, 1);
    labor = round(movers x estimated_hours x 35, 2); truck_base by tier;
    fuel = round(distance_km x 0.5, 2); stairs_fee = stairs_floors x 25;
    materials = round(v x 0.20, 2); other = round((labor + truck_base + fuel)
    x 0.05, 2); total_cost = round(labor + truck_base + fuel + stairs_fee +
    materials + other, 2); cost_range = [round(total_cost x 0.9, 2),
    round(total_cost x 1.1, 2)]. *)
Definition stated_estimate (grouped : bool) (movers : pynum) (tier : string)
    (hours_add : pynum) (notes : pyval) (v distance_km : pynum)
    (stairs_floors : Z) : result cost_estimate :=
  volume_hours <-!
    (q <-! num_truediv v (PyInt 100) ;; num_mul q (PyFloat 0.5)) ;;
  estimated_hours <-!
    (s <-! num_add (PyInt 4) volume_hours ;;
     s <-! num_add s hours_add ;;
     Ok (num_round s 1)) ;;
  labor <-!
    (p <-! num_mul movers estimated_hours ;;
     p <-! num_mul p (PyInt 35) ;;
     Ok (num_round p 2)) ;;
  truck_base <-! stated_rate tier ;;
  fuel <-! (p <-! num_mul distance_km (PyFloat 0.5) ;; Ok (num_round p 2)) ;;
  stairs_fee <-! Ok (PyInt (stairs_floors * 25)) ;;
  materials <-! (p <-! num_mul v (PyFloat 0.20) ;; Ok (num_round p 2)) ;;
  other <-!
    (s <-! fee_base grouped labor truck_base fuel ;;
     p <-! num_mul s (PyFloat 0.05) ;;
     Ok (num_round p 2)) ;;
  total_cost <-!
    (s <-! fee_base grouped labor truck_base fuel ;;
     s <-! num_add s stairs_fee ;;
     s <-! num_add s materials ;;
     s <-! num_add s other ;;
     Ok (num_round s 2)) ;;
  cost_range <-! stated_range total_cost ;;
  Ok {| total_cost := total_cost;
        cost_range := cost_range;
        movers_needed := PNum movers;
        truck_type := PStr tier;
        estimated_hours := estimated_hours;
        breakdown := {| labor := labor;
                        truck := truck_base;
                        fuel := fuel;
                        materials := materials;
                        stairs_fee := stairs_fee;
                        other := other |};
        special_notes := notes |}.

(** ** Inputs of the worked examples *)

(** An inventory dict as Stage 1 delivers it. *)
Definition inventory_of (items : list pyval) (volume : pynum)
    (handling : list pyval) : pydict :=
  [("items", PList items);
   ("total_volume_cubic_feet", PNum volume);
   ("needs_special_handling", PList handling)].

(** A staffing answer as the Stage 2 prompt asks for it. *)
Definition staffing_of (movers : Z) (tier : string) (hours : pynum)
    (notes : pyval) : pyval :=
  PDict [("recommended_movers", PNum (PyInt movers));
         ("truck_type", PStr tier);
         ("complexity_hours_add", PNum hours);
         ("special_notes", notes)].

Definition staffing_tree (movers tier hours notes : string) : Json.value :=
  Json.Object [("recommended_movers", Json.Number movers);
               ("truck_type", Json.Str tier);
               ("complexity_hours_add", Json.Number hours);
               ("special_notes", Json.Str notes)].

(** The answer the prompt shows as its example, as JSON text. *)
Definition example_answer : string :=
  Json.dumps (staffing_tree "3" "medium" "1.5" "Piano requires extra care and time").

(** The same answer with a truck tier the table does not have. *)
Definition xl_answer : string :=
  Json.dumps (staffing_tree "3" "xl" "1.5" EmptyString).

(** The estimate of the end-to-end arithmetic example. *)
Definition worked_estimate (notes : pyval) : cost_estimate :=
  {| total_cost := PyFloat 1407.0;
     cost_range := [PyFloat 1266.3; PyFloat 1547.7];
     movers_needed := PNum (PyInt 3);
     truck_type := PStr "medium";
     estimated_hours := PyFloat 9.5;
     breakdown := {| labor := PyFloat 997.5;
                     truck := PyInt 120;
                     fuel := PyFloat 22.5;
                     materials := PyFloat 160.0;
                     stairs_fee := PyInt 50;
                     other := PyFloat 57.0 |};
     special_notes := notes |}.

(** What the [try] block computes for [ai_estimate]: the parse of the answer's
    text, or the exception of the call or of the parse. *)
Definition parsed (json_loads : string -> result pyval)
    (response_text : result string) : result pyval :=
  text <-! response_text ;; parse_model_text json_loads text.

(** What the [try] block of Stage 2 comes to for the arguments of the
    function: nothing when the prompt cannot be built; otherwise the parsed
    answer to the prompt, or the exception of the call or of the parse. *)
Definition inference (json_loads : string -> result pyval)
    (json_dumps : pyval -> result string) (float_repr : float -> string)
    (generate_content : string -> result string)
    (inventory : pydict) (distance_km : pynum) (origin_floor destination_floor : Z)
    (has_elevator_origin has_elevator_destination : bool)
    : result (result pyval) :=
  prompt <-! cost_prompt json_dumps float_repr (PDict inventory) distance_km
               origin_floor destination_floor
               has_elevator_origin has_elevator_destination ;;
  Ok (parsed json_loads (generate_content prompt)).

(** An inference service that gives the same answer to every prompt, or is
    down. *)
Definition answering (text : string) : string -> result string :=
  fun _ => Ok text.

Definition service_down : string -> result string :=
  fun _ => Raise ServiceError.


(** ** The fallback rule and the stairs count as the specification words them *)

(** [sys.maxsize]: no container is larger. *)
Definition sys_maxsize : Z := 2 ^ 63 - 1.

(** A number that converts to [float] without overflow. *)
Definition fits (n : pynum) : Prop :=
  match n with
  | PyInt z => Z.abs z < float_overflow_bound
  | PyFloat _ => True
  end.

(** movers = 2 if v<400 else 3 if v<800 else 4 *)
Definition rule_movers (v : pynum) : Z :=
  if num_ltb v (PyInt 400) then 2 else if num_ltb v (PyInt 800) then 3 else 4.

(** truck_type = small if v<400 else medium if v<900 else large *)
Definition rule_truck (v : pynum) : string :=
  if num_ltb v (PyInt 400) then "small"
  else if num_ltb v (PyInt 900) then "medium" else "large".

(** The recommendation for a volume [v] and [count] special-handling labels:
    complexity_hours_add = count x 0.5, special_notes empty. *)
Definition fallback_rule (v : pynum) (count : nat) : pyval :=
  staffing_of (rule_movers v) (rule_truck v)
    (PyFloat (nearest_float (Z.of_nat count) * 0.5)%float) (PStr EmptyString).

(** An estimate staffed by the fallback rule for the volume [v]. *)
Definition priced_by_the_rule (v : pynum) (est : cost_estimate) : Prop :=
  movers_needed est = PNum (PyInt (rule_movers v)) /\
  truck_type est = PStr (rule_truck v) /\
  special_notes est = PStr EmptyString.

(** Floors climbed without an elevator: [floor - 1] at each end that has no
    elevator and lies above the first floor. *)
Definition stairs_floors_of (origin_floor destination_floor : Z)
    (has_elevator_origin has_elevator_destination : bool) : Z :=
  (if negb has_elevator_origin && (1 <? origin_floor) then origin_floor - 1 else 0)
  + (if negb has_elevator_destination && (1 <? destination_floor)
     then destination_floor - 1 else 0).

(** A body returns, with a value that satisfies [P]. *)
Definition returns {A : Type} (m : M A) (P : A -> Prop) : Prop :=
  exists l a, m = (l, Ok a) /\ P a.

(** A body raises, with locals and an exception that satisfy [Q]. *)
Definition raises {A : Type} (m : M A) (Q : locals -> exn -> Prop) : Prop :=
  exists l e, m = (l, Raise e) /\ Q l e.

(** The locals both sites assign after the truck-rate lookup. *)
Definition locals_after_truck_lookup : list string :=
  ["truck_base"; "fuel_cost"; "truck_total"; "stairs_floors"; "stairs_fee";
   "materials_cost"; "other_fees"; "total_cost"; "cost_min"; "cost_max"].

(** None of the names in [xs] is bound in [l]. *)
Definition unbound (xs : list string) (l : locals) : bool :=
  forallb (fun x => negb (bound x l)) xs.

(** Where a body stopped for an unknown [tier]: a [KeyError] for it once labor
    has been priced, and none of the later locals bound. *)
Definition stopped_at_lookup (tier : string) (l : locals) (e : exn) : Prop :=
  (bound "labor_cost" l = true -> e = KeyError (PStr tier)) /\
  unbound locals_after_truck_lookup l = true.

(** An answer that has only the two fields the code subscripts. *)
Definition two_field_answer : string :=
  Json.dumps (Json.Object [("recommended_movers", Json.Number "3");
                           ("truck_type", Json.Str "medium")]).

(** The same answer with the complexity hours spelled out as 0. *)
Definition two_field_answer_with_zero_hours : string :=
  Json.dumps (Json.Object [("recommended_movers", Json.Number "3");
                           ("truck_type", Json.Str "medium");
                           ("complexity_hours_add", Json.Number "0")]).

(** ** Fencing a serialised value *)

(** The text between an opening fence line with a language tag and a closing
    fence. *)
Definition fence (lang text : string) : string :=
  fence_mark ++ lang ++ newline ++ text ++ newline ++ fence_mark.

(** [sep in s] *)
Fixpoint occurs (sep s : string) : bool :=
  String.prefix sep s ||
  match s with
  | String _ s' => occurs sep s'
  | EmptyString => false
  end.

(** ** Stage 1: from a video to an inventory

    [analyze_video_file] and [analyze_youtube_video] of [src/move.py] and
    [analyze_video] of [src/main.py] send a video to the inference service and
    read its answer as Stage 2 does.  The operating system and the service are
    parameters: the size and the bytes of a local file, [files.upload] and
    [files.get] of the File API, and the text of the answer to a request.
    [time.sleep] only passes time and [print] writes to the console what its
    argument formats to. *)

(** What the code reads of a file of the File API: [myfile.name] and
    [myfile.state.name], where the client library leaves [state] optional. *)
Record remote_file : Type := {
  file_name : string;
  file_state : option string
}.

(** [myfile.state.name] *)
Definition state_name (myfile : remote_file) : result string :=
  match file_state myfile with
  | Some s => Ok s
  | None => Raise AttributeError
  end.

(** The video part of a request, which goes with the prompt; the model name
    is constant. *)
Inductive video_part : Type :=
| FileData (file_uri : string)
| InlineData (data : string)
| UploadedFile (myfile : remote_file).

(** What Stage 1 can raise: an exception of the classes above, or the plain
    [Exception] the code raises itself for a file whose processing failed. *)
Inductive raised : Type :=
| Builtin (e : exn)
| PlainException (message : string).

Inductive outcome (A : Type) : Type :=
| Finished (a : A)
| Failed (r : raised).
Arguments Finished {A} a.
Arguments Failed {A} r.

(** A run of Stage 1: [None] while it is still polling the File API when the
    polls it is allowed are used up. *)
Definition run (A : Type) : Type := option (outcome A).

Definition of_result {A : Type} (r : result A) : outcome A :=
  match r with
  | Ok a => Finished a
  | Raise e => Failed (Builtin e)
  end.

Definition call {A : Type} (r : result A) : run A := Some (of_result r).

Definition obind {A B : Type} (m : run A) (k : A -> run B) : run B :=
  match m with
  | Some (Finished a) => k a
  | Some (Failed r) => Some (Failed r)
  | None => None
  end.

Notation "x <~ m ;; k" := (obind m (fun x => k))
  (at level 100, m at next level, right associativity) : py_scope.

(** [raise Exception(message)] *)
Definition raise_Exception {A : Type} (message : string) : run A :=
  Some (Failed (PlainException message)).

(** [except Exception as e: raise HTTPException(status_code=500, ...)] around
    a body. *)
Definition http_500 {A : Type} (body : outcome A) : result A :=
  match body with
  | Finished a => Ok a
  | Failed _ => Raise (HTTPException 500)
  end.

Section Polling.
Variable files_get : nat -> string -> result remote_file.

(** The loop of [src/move.py] 158-160 and [src/main.py] 102-104:
    [while myfile.state.name == "PROCESSING": time.sleep(2);
    myfile = client.files.get(name=myfile.name)].  [polls] counts the calls of
    [files.get] made so far, [fuel] the ones still allowed. *)
Fixpoint wait_while_processing (fuel polls : nat) (myfile : remote_file)
    : run remote_file :=
  state <~ call (state_name myfile) ;;
  if String.eqb state "PROCESSING" then
    match fuel with
    | O => None
    | S fuel' =>
        myfile <~ call (files_get polls (file_name myfile)) ;;
        wait_while_processing fuel' (S polls) myfile
    end
  else Some (Finished myfile).
End Polling.

(** ** The helpers and the cost endpoint of [src/move.py] *)

Module MoveApi.

Section Stage1.
Variable json_loads : string -> result pyval.
(** [os.path.getsize] and [open(path, 'rb').read()] *)
Variable getsize : string -> result Z.
Variable read_bytes : string -> result string.
(** [client.files.upload], the [polls]-th [client.files.get], and
    [client.models.generate_content(...).text] *)
Variable files_upload : string -> result remote_file.
Variable files_get : nat -> string -> result remote_file.
Variable generate_content : video_part -> string -> result string.

(** Lines 101-183: the prompt stands before the [try], so its exception is
    not turned into an [HTTPException]. *)
Definition analyze_video_file (fuel : nat) (video_path home_type : string)
    (room_count : Z) : option (result pyval) :=
  match video_prompt home_type room_count with
  | Raise e => Some (Raise e)
  | Ok prompt =>
      option_map http_500
        (file_size <~ call (getsize video_path) ;;
         response_text <~
           (if file_size <? 20 * 1024 * 1024 then
              video_bytes <~ call (read_bytes video_path) ;;
              call (generate_content (InlineData video_bytes) prompt)
            else
              myfile <~ call (files_upload video_path) ;;
              myfile <~ wait_while_processing files_get fuel 0 myfile ;;
              state <~ call (state_name myfile) ;;
              if String.eqb state "FAILED"
              then raise_Exception ("File processing failed: " ++ file_name myfile)
              else call (generate_content (UploadedFile myfile) prompt)) ;;
         call (parse_model_text json_loads response_text))
  end.

(** Lines 186-240, with the prompt before the [try] as well. *)
Definition analyze_youtube_video (youtube_url home_type : string)
    (room_count : Z) : result pyval :=
  prompt <-! video_prompt home_type room_count ;;
  http_500
    (of_result
       (response_text <-! generate_content (FileData youtube_url) prompt ;;
        parse_model_text json_loads response_text)).
End Stage1.

(** The request model of the cost endpoint (lines 36-58), as the framework
    hands it to the handler once validated. *)
Record ItemInfo : Type := {
  name : string;
  quantity : Z;
  size : string;
  category : string
}.

Record CostEstimationRequest : Type := {
  items : list ItemInfo;
  total_volume_cubic_feet : float;
  needs_special_handling : list string;
  distance_km : float;
  origin_floor : Z;
  destination_floor : Z;
  has_elevator_origin : bool;
  has_elevator_destination : bool
}.

(** [item.dict()] *)
Definition item_dict (item : ItemInfo) : pyval :=
  PDict [("name", PStr (name item));
         ("quantity", PNum (PyInt (quantity item)));
         ("size", PStr (size item));
         ("category", PStr (category item))].

(** The inventory dict the handler builds from the request (lines 426-430). *)
Definition request_inventory (request : CostEstimationRequest) : pydict :=
  [("items", PList (List.map item_dict (items request)));
   ("total_volume_cubic_feet", PNum (PyFloat (total_volume_cubic_feet request)));
   ("needs_special_handling", PList (List.map PStr (needs_special_handling request)))].

Section Stage2.
Context {Response : Type}.
Variable json_loads : string -> result pyval.
Variable json_dumps : pyval -> result string.
Variable float_repr : float -> string.
Variable generate_content : string -> result string.
(** [CostEstimationResponse( **cost_data )] *)
Variable CostEstimationResponse : cost_estimate -> result Response.

(** Lines 415-445. *)
Definition estimate_cost_endpoint (request : CostEstimationRequest)
    : result Response :=
  http_500
    (of_result
       (let inventory := request_inventory request in
        cost_data <-!
          snd (Move.calculate_cost json_loads json_dumps float_repr generate_content
                 inventory (PyFloat (distance_km request))
                 (origin_floor request) (destination_floor request)
                 (has_elevator_origin request) (has_elevator_destination request)) ;;
        CostEstimationResponse cost_data)).
End Stage2.

End MoveApi.

(** ** Stage 1 and the complete workflow of [src/main.py] *)

Module MainWorkflow.

Section Workflow.
Variable json_loads : string -> result pyval.
Variable getsize : string -> result Z.
Variable read_bytes : string -> result string.
Variable files_upload : string -> result remote_file.
Variable files_get : nat -> string -> result remote_file.
Variable generate_content : video_part -> string -> result string.
(** [json.dumps(..., indent=2)], the [repr] of a float and of a list or dict,
    and the text of the answer to a Stage 2 prompt. *)
Variable json_dumps : pyval -> result string.
Variable float_repr : float -> string.
Variable container_repr : pyval -> result string.
Variable generate_text : string -> result string.

(** Lines 17-131; the prompt stands before the [try], whose [except] block
    prints and re-raises. *)
Definition analyze_video (fuel : nat) (video_path home_type : string)
    (room_count : Z) : run pyval :=
  let is_youtube := startswith video_path "http" in
  prompt <~ call (video_prompt home_type room_count) ;;
  response_text <~
    (if is_youtube then
       call (generate_content (FileData video_path) prompt)
     else
       file_size <~ call (getsize video_path) ;;
       if file_size <? 20 * 1024 * 1024 then
         video_bytes <~ call (read_bytes video_path) ;;
         call (generate_content (InlineData video_bytes) prompt)
       else
         myfile <~ call (files_upload video_path) ;;
         myfile <~ wait_while_processing files_get fuel 0 myfile ;;
         state <~ call (state_name myfile) ;;
         if String.eqb state "FAILED"
         then raise_Exception ("File processing failed: " ++ file_name myfile)
         else call (generate_content (UploadedFile myfile) prompt)) ;;
  call (parse_model_text json_loads response_text).

(** [calculate_move_cost] on whatever Stage 1 returned: a value that is not
    a dict goes into the prompt, and then has no [get]. *)
Definition calculate_move_cost_of (inventory : pyval) (distance_km : pynum)
    (origin_floor destination_floor : Z)
    (has_elevator_origin has_elevator_destination : bool) : result cost_estimate :=
  match inventory with
  | PDict d =>
      snd (Main.calculate_move_cost json_loads json_dumps float_repr generate_text
             d distance_km origin_floor destination_floor
             has_elevator_origin has_elevator_destination)
  | _ =>
      _ <-! cost_prompt json_dumps float_repr inventory distance_km
              origin_floor destination_floor
              has_elevator_origin has_elevator_destination ;;
      Raise AttributeError
  end.

(** Lines 287-326.  The [print]s format what they show: the number of items
    (a length always formats), the volume and, after Stage 2, the total; the
    returned dict is the pair of the inventory and the estimate. *)
Definition estimate_moving_cost (fuel : nat) (video_path : string)
    (distance_km : pynum) (origin_floor destination_floor : Z)
    (has_elevator_origin has_elevator_destination : bool)
    (home_type : string) (room_count : Z) : run (pyval * cost_estimate) :=
  inventory <~ analyze_video fuel video_path home_type room_count ;;
  call (items <-! py_getitem inventory "items" ;;
        _ <-! py_len items ;;
        volume <-! py_getitem inventory "total_volume_cubic_feet" ;;
        _ <-! format_value float_repr container_repr volume ;;
        cost_estimate <-!
          calculate_move_cost_of inventory distance_km origin_floor destination_floor
            has_elevator_origin has_elevator_destination ;;
        _ <-! format_num float_repr (total_cost cost_estimate) ;;
        Ok (inventory, cost_estimate)).
End Workflow.

End MainWorkflow.

(** ** Grouping the inventory for display ([src/streamlit.py] 195-200)

    The page groups the items of the inventory by category in a dict, which
    keeps its keys in insertion order. *)

Module Streamlit.

Section Categories.
Context {Item : Type}.
(** [item['category']]: a string, as the response model of the analyze-video
    endpoint declares it. *)
Variable category : Item -> string.

(** One turn of the loop on the dict [categories]:
    [if cat not in categories: categories[cat] = []], then
    [categories[cat].append(item)]. *)
Fixpoint append_to (categories : list (string * list Item)) (cat : string)
    (item : Item) : list (string * list Item) :=
  match categories with
  | [] => [(cat, [item])]
  | (c, items) :: rest =>
      if String.eqb c cat then (c, (items ++ [item])%list) :: rest
      else (c, items) :: append_to rest cat item
  end.

(** [categories] after the loop over [inventory['items']]. *)
Definition group_by_category (items : list Item) : list (string * list Item) :=
  fold_left (fun categories item => append_to categories (category item) item)
    items [].
End Categories.

End Streamlit.

(** ** What a returned estimate looks like *)

(** A Python [float]. *)
Definition is_float (n : pynum) : Prop := exists f, n = PyFloat f.

(** The truck tier of an estimate and its rate are a row of the rate table. *)
Definition truck_from_the_table (est : cost_estimate) : Prop :=
  (truck_type est = PStr "small" /\ truck (breakdown est) = PyInt 75) \/
  (truck_type est = PStr "medium" /\ truck (breakdown est) = PyInt 120) \/
  (truck_type est = PStr "large" /\ truck (breakdown est) = PyInt 180).

(** The amounts of an estimate that are floats whatever the inputs were. *)
Definition amounts_are_floats (est : cost_estimate) : Prop :=
  is_float (total_cost est) /\
  (exists lo hi, cost_range est = [PyFloat lo; PyFloat hi]) /\
  is_float (estimated_hours est) /\
  is_float (labor (breakdown est)) /\
  is_float (fuel (breakdown est)) /\
  is_float (materials (breakdown est)) /\
  is_float (other (breakdown est)).

(** Two estimates that agree on everything but the other fees, the total and
    the range. *)
Definition same_but_fees (a b : cost_estimate) : Prop :=
  movers_needed a = movers_needed b /\
  truck_type a = truck_type b /\
  estimated_hours a = estimated_hours b /\
  labor (breakdown a) = labor (breakdown b) /\
  truck (breakdown a) = truck (breakdown b) /\
  fuel (breakdown a) = fuel (breakdown b) /\
  materials (breakdown a) = materials (breakdown b) /\
  stairs_fee (breakdown a) = stairs_fee (breakdown b) /\
  special_notes a = special_notes b.

(** Two results that raise the same exception, or return estimates that agree
    up to the fees. *)
Definition agree (r1 r2 : result cost_estimate) : Prop :=
  match r1, r2 with
  | Ok a, Ok b => same_but_fees a b
  | Raise e1, Raise e2 => e1 = e2
  | _, _ => False
  end.

(** A JSON value that is not an object. *)
Definition not_an_object (v : pyval) : Prop :=
  match v with
  | PDict _ => False
  | _ => True
  end.

(** An estimate staffed as the answer says. *)
Definition staffed_as_answered (movers : pynum) (tier : string) (notes : pyval)
    (est : cost_estimate) : Prop :=
  movers_needed est = PNum movers /\
  truck_type est = PStr tier /\
  special_notes est = notes.

(** ** What the endpoints and Stage 1 are given *)

(** [not video_file and not youtube_url]: neither an upload nor a non-empty
    URL came with the request. *)
Definition nothing_sent (video_file : bool) (youtube_url : option string) : bool :=
  negb video_file &&
  match youtube_url with
  | Some (String _ _) => false
  | _ => true
  end.

(** The File API reports [myfile] as PROCESSING at this poll and the next
    ones, [k] in all, and then hands out [final] in another state. *)
Inductive settles (files_get : nat -> string -> result remote_file)
    : nat -> remote_file -> nat -> remote_file -> Prop :=
| settles_now (polls : nat) (myfile : remote_file) (state : string) :
    state_name myfile = Ok state ->
    state <> "PROCESSING" ->
    settles files_get polls myfile 0 myfile
| settles_later (polls : nat) (myfile next : remote_file) (k : nat)
      (final : remote_file) :
    state_name myfile = Ok "PROCESSING" ->
    files_get polls (file_name myfile) = Ok next ->
    settles files_get (S polls) next k final ->
    settles files_get polls myfile (S k) final.

(** The parsed answer to a Stage 1 request. *)
Definition inventory_from (json_loads : string -> result pyval)
    (generate_content : video_part -> string -> result string)
    (part : video_part) (prompt : string) : result pyval :=
  text <-! generate_content part prompt ;;
  parse_model_text json_loads text.

(** What becomes of a file that has left PROCESSING: the plain exception if
    its state is FAILED, the parsed answer to the request otherwise. *)
Definition analysis_of_processed (json_loads : string -> result pyval)
    (generate_content : video_part -> string -> result string)
    (final : remote_file) (prompt : string) : outcome pyval :=
  match file_state final with
  | Some state =>
      if String.eqb state "FAILED"
      then Failed (PlainException ("File processing failed: " ++ file_name final))
      else of_result (inventory_from json_loads generate_content
                        (UploadedFile final) prompt)
  | None => Failed (Builtin AttributeError)
  end.

(** An inventory as the Stage 1 prompt asks for it, as JSON text. *)
Definition example_inventory : string :=
  Json.dumps (Json.Object [("items", Json.Array []);
                           ("total_volume_cubic_feet", Json.Number "800");
                           ("needs_special_handling", Json.Array [])]).

(** A File API that reports an upload as PROCESSING for two polls and as
    ACTIVE from the third. *)
Definition uploaded_file (state : string) : remote_file :=
  {| file_name := "files/clip"; file_state := Some state |}.

Definition ready_at_the_third_poll (polls : nat) (name : string) : result remote_file :=
  Ok (uploaded_file (if (polls <? 2)%nat then "PROCESSING" else "ACTIVE")).

(** The floors a request has climbed, and what the [try] block of
    [calculate_cost] comes to for a request. *)
Definition request_stairs (request : MoveApi.CostEstimationRequest) : Z :=
  stairs_floors_of (MoveApi.origin_floor request) (MoveApi.destination_floor request)
    (MoveApi.has_elevator_origin request) (MoveApi.has_elevator_destination request).

Definition request_inference (json_loads : string -> result pyval)
    (json_dumps : pyval -> result string) (float_repr : float -> string)
    (generate_content : string -> result string)
    (request : MoveApi.CostEstimationRequest) : result (result pyval) :=
  inference json_loads json_dumps float_repr generate_content
    (MoveApi.request_inventory request) (PyFloat (MoveApi.distance_km request))
    (MoveApi.origin_floor request) (MoveApi.destination_floor request)
    (MoveApi.has_elevator_origin request) (MoveApi.has_elevator_destination request).

(** A request to the cost endpoint with the data of the worked example. *)
Definition example_request : MoveApi.CostEstimationRequest :=
  {| MoveApi.items := [];
     MoveApi.total_volume_cubic_feet := 800;
     MoveApi.needs_special_handling := ["piano"];
     MoveApi.distance_km := 45;
     MoveApi.origin_floor := 3;
     MoveApi.destination_floor := 2;
     MoveApi.has_elevator_origin := false;
     MoveApi.has_elevator_destination := true |}.

(** ** The groups of the inventory page *)

(** The distinct strings of a list, in the order of their first occurrence. *)
Fixpoint first_occurrences (l : list string) : list string :=
  match l with
  | [] => []
  | x :: l' => x :: List.filter (fun y => negb (String.eqb y x)) (first_occurrences l')
  end.

(** The items of one category, in their original order. *)
Definition items_of {Item : Type} (category : Item -> string) (c : string)
    (items : list Item) : list Item :=
  List.filter (fun item => String.eqb (category item) c) items.

(** * Properties *)

(** ** The result and body monads *)

Lemma rbind_Ok {A B : Type} (r : result A) (k : A -> result B) (b : B) :
  rbind r k = Ok b -> exists a, r = Ok a /\ k a = Ok b.
Proof. destruct r as [a|e]; simpl; [eauto | discriminate]. Qed.

Lemma mbind_Ok {A B : Type} (m : M A) (k : A -> M B) (l : locals) (b : B) :
  mbind m k = (l, Ok b) ->
  exists l1 a l2, m = (l1, Ok a) /\ k a = (l2, Ok b) /\ l = (l1 ++ l2)%list.
Proof.
  destruct m as [l1 [a|e]]; simpl; [|discriminate].
  destruct (k a) as [l2 r] eqn:Hk. intros [= <- ->]. eauto 6.
Qed.

Lemma assign_Ok (x : string) (e : result pyval) (l : locals) (v : pyval) :
  assign x e = (l, Ok v) -> e = Ok v /\ l = [(x, v)].
Proof. destruct e; simpl; intros [= <- <-] || discriminate; auto. Qed.

Lemma assign_num_Ok (x : string) (e : result pynum) (l : locals) (n : pynum) :
  assign_num x e = (l, Ok n) -> e = Ok n /\ l = [(x, PNum n)].
Proof. destruct e; simpl; intros [= <- <-] || discriminate; auto. Qed.

Lemma mret_Ok {A : Type} (a b : A) (l : locals) :
  mret a = (l, Ok b) -> a = b /\ l = [].
Proof. now intros [= <- <-]. Qed.

(** Taking a successful body apart, one statement at a time. *)
Ltac body_step H :=
  let l1 := fresh "l" in
  let a := fresh "a" in
  let l2 := fresh "l" in
  let Hm := fresh "Hm" in
  let Hl := fresh "Hl" in
  apply mbind_Ok in H; destruct H as (l1 & a & l2 & Hm & H & Hl).

Ltac body_inv H := repeat body_step H; apply mret_Ok in H; destruct H as [H _].

(** ** The prompt comes first *)

Lemma mbind_silent {A B : Type} (a : A) (k : A -> M B) : mbind ([], Ok a) k = k a.
Proof. cbn [mbind]. now destruct (k a). Qed.

Lemma snd_Ok {A : Type} (m : M A) (a : A) : snd m = Ok a -> exists l, m = (l, Ok a).
Proof. destruct m as [l r]. cbn [snd]. intros ->. eauto. Qed.

Section Prompted.
Variable json_loads : string -> result pyval.
Variable json_dumps : pyval -> result string.
Variable float_repr : float -> string.
Variable generate_content : string -> result string.
Variables (inventory : pydict) (distance_km : pynum).
Variables (origin_floor destination_floor : Z).
Variables (has_elevator_origin has_elevator_destination : bool).

(** Once the prompt is built, either function is its [try] and what follows,
    on what the service delivers for that prompt. *)
Lemma prompted (prompt : string) :
  cost_prompt json_dumps float_repr (PDict inventory) distance_km
    origin_floor destination_floor has_elevator_origin has_elevator_destination = Ok prompt ->
  Move.calculate_cost json_loads json_dumps float_repr generate_content inventory distance_km
      origin_floor destination_floor has_elevator_origin has_elevator_destination
  = Move.price json_loads (generate_content prompt) inventory distance_km
      origin_floor destination_floor has_elevator_origin has_elevator_destination /\
  Main.calculate_move_cost json_loads json_dumps float_repr generate_content inventory distance_km
      origin_floor destination_floor has_elevator_origin has_elevator_destination
  = Main.price json_loads (generate_content prompt) inventory distance_km
      origin_floor destination_floor has_elevator_origin has_elevator_destination.
Proof.
  intros H. unfold Move.calculate_cost, Main.calculate_move_cost.
  rewrite H, !mbind_silent. split; reflexivity.
Qed.

(** An exception of the prompt is the exception of either function, with
    nothing bound, whatever the service would have answered. *)
Lemma unprompted (e : exn) :
  cost_prompt json_dumps float_repr (PDict inventory) distance_km
    origin_floor destination_floor has_elevator_origin has_elevator_destination = Raise e ->
  Move.calculate_cost json_loads json_dumps float_repr generate_content inventory distance_km
      origin_floor destination_floor has_elevator_origin has_elevator_destination = ([], Raise e) /\
  Main.calculate_move_cost json_loads json_dumps float_repr generate_content inventory distance_km
      origin_floor destination_floor has_elevator_origin has_elevator_destination = ([], Raise e).
Proof.
  intros H. unfold Move.calculate_cost, Main.calculate_move_cost.
  rewrite H. split; reflexivity.
Qed.

Lemma inferred (r : result pyval) :
  inference json_loads json_dumps float_repr generate_content inventory distance_km
      origin_floor destination_floor has_elevator_origin has_elevator_destination = Ok r ->
  exists response_text,
    parsed json_loads response_text = r /\
    Move.calculate_cost json_loads json_dumps float_repr generate_content inventory distance_km
      origin_floor destination_floor has_elevator_origin has_elevator_destination
    = Move.price json_loads response_text inventory distance_km
      origin_floor destination_floor has_elevator_origin has_elevator_destination /\
    Main.calculate_move_cost json_loads json_dumps float_repr generate_content inventory distance_km
      origin_floor destination_floor has_elevator_origin has_elevator_destination
    = Main.price json_loads response_text inventory distance_km
      origin_floor destination_floor has_elevator_origin has_elevator_destination.
Proof.
  unfold inference. intros (prompt & Hp & [= <-])%rbind_Ok.
  exists (generate_content prompt). split; [reflexivity|].
  exact (prompted prompt Hp).
Qed.

Lemma move_returned (l : locals) (est : cost_estimate) :
  Move.calculate_cost json_loads json_dumps float_repr generate_content inventory distance_km
      origin_floor destination_floor has_elevator_origin has_elevator_destination = (l, Ok est) ->
  exists response_text,
    Move.price json_loads response_text inventory distance_km
      origin_floor destination_floor has_elevator_origin has_elevator_destination = (l, Ok est).
Proof.
  destruct (cost_prompt json_dumps float_repr (PDict inventory) distance_km
    origin_floor destination_floor has_elevator_origin has_elevator_destination) as [prompt|e] eqn:Hp.
  - rewrite (proj1 (prompted prompt Hp)). eauto.
  - rewrite (proj1 (unprompted e Hp)). discriminate.
Qed.

Lemma main_returned (l : locals) (est : cost_estimate) :
  Main.calculate_move_cost json_loads json_dumps float_repr generate_content inventory distance_km
      origin_floor destination_floor has_elevator_origin has_elevator_destination = (l, Ok est) ->
  exists response_text,
    Main.price json_loads response_text inventory distance_km
      origin_floor destination_floor has_elevator_origin has_elevator_destination = (l, Ok est).
Proof.
  destruct (cost_prompt json_dumps float_repr (PDict inventory) distance_km
    origin_floor destination_floor has_elevator_origin has_elevator_destination) as [prompt|e] eqn:Hp.
  - rewrite (proj2 (prompted prompt Hp)). eauto.
  - rewrite (proj2 (unprompted e Hp)). discriminate.
Qed.

(** When both return, they priced the same answer. *)
Lemma both_returned (l1 l2 : locals) (est1 est2 : cost_estimate) :
  Move.calculate_cost json_loads json_dumps float_repr generate_content inventory distance_km
      origin_floor destination_floor has_elevator_origin has_elevator_destination = (l1, Ok est1) ->
  Main.calculate_move_cost json_loads json_dumps float_repr generate_content inventory distance_km
      origin_floor destination_floor has_elevator_origin has_elevator_destination = (l2, Ok est2) ->
  exists response_text,
    Move.price json_loads response_text inventory distance_km
      origin_floor destination_floor has_elevator_origin has_elevator_destination = (l1, Ok est1) /\
    Main.price json_loads response_text inventory distance_km
      origin_floor destination_floor has_elevator_origin has_elevator_destination = (l2, Ok est2).
Proof.
  destruct (cost_prompt json_dumps float_repr (PDict inventory) distance_km
    origin_floor destination_floor has_elevator_origin has_elevator_destination) as [prompt|e] eqn:Hp.
  - rewrite (proj1 (prompted prompt Hp)), (proj2 (prompted prompt Hp)). eauto.
  - rewrite (proj1 (unprompted e Hp)). discriminate.
Qed.

End Prompted.

(** ** Ints the prompt cannot show *)

Lemma int_str_bound_spec : int_str_bound = 10 ^ 4300.
Proof. vm_compute. reflexivity. Qed.

Lemma int_str_raises (z : Z) : 10 ^ 4300 <= Z.abs z -> int_str z = Raise ValueError.
Proof.
  rewrite <- int_str_bound_spec. intros H. unfold int_str.
  now destruct (Z.ltb_spec (Z.abs z) int_str_bound); [lia|].
Qed.

(** X23.  A floor of more than 4300 digits is never priced: once the inventory
    and the distance are in the prompt, formatting the floor raises
    ValueError, before the [try]; nothing is bound, the service is not asked
    and no fallback applies, even behind an elevator, where the floor does
    not enter the price. *)
Theorem floor_beyond_the_digits_limit_raises_ValueError
    (json_loads : string -> result pyval) (json_dumps : pyval -> result string)
    (float_repr : float -> string) (generate_content : string -> result string)
    (inventory : pydict) (distance_km : pynum) (origin_floor destination_floor : Z)
    (has_elevator_origin has_elevator_destination : bool)
    (inventory_text distance_text : string) :
  json_dumps (PDict inventory) = Ok inventory_text ->
  format_num float_repr distance_km = Ok distance_text ->
  10 ^ 4300 <= Z.abs origin_floor \/ 10 ^ 4300 <= Z.abs destination_floor ->
  Move.calculate_cost json_loads json_dumps float_repr generate_content inventory distance_km
      origin_floor destination_floor has_elevator_origin has_elevator_destination
  = ([], Raise ValueError) /\
  Main.calculate_move_cost json_loads json_dumps float_repr generate_content inventory distance_km
      origin_floor destination_floor has_elevator_origin has_elevator_destination
  = ([], Raise ValueError).
Proof.
  intros Hi Hd Hfloor. apply unprompted. unfold cost_prompt.
  rewrite Hi, Hd. cbn [rbind].
  destruct Hfloor as [H | H].
  - now rewrite (int_str_raises _ H).
  - rewrite (int_str_raises _ H). unfold int_str.
    now destruct (Z.abs origin_floor <? int_str_bound).
Qed.

(** The worked example from a floor numbered 10^4300, with elevators at both
    ends. *)
Lemma floor_beyond_the_digits_limit_raises_ValueError_witness :
  Move.calculate_cost Json.loads_py Json.dumps_py repr_float (answering example_answer)
    (inventory_of [] (PyInt 800) []) (PyInt 45) (10 ^ 4300) 2 true true
  = ([], Raise ValueError) /\
  Main.calculate_move_cost Json.loads_py Json.dumps_py repr_float
    (answering example_answer)
    (inventory_of [] (PyInt 800) []) (PyInt 45) (10 ^ 4300) 2 true true
  = ([], Raise ValueError).
Proof.
  refine (floor_beyond_the_digits_limit_raises_ValueError Json.loads_py Json.dumps_py
            repr_float (answering example_answer) (inventory_of [] (PyInt 800) [])
            (PyInt 45) (10 ^ 4300) 2 true true _ "45" _ _ _).
  - vm_compute. reflexivity.
  - reflexivity.
  - left. vm_compute. discriminate.
Defined.

(** ** The total and the range of a returned estimate *)

Lemma move_total_and_range
    (json_loads : string -> result pyval) (response_text : result string)
    (inventory : pydict) (distance_km : pynum) (origin_floor destination_floor : Z)
    (has_elevator_origin has_elevator_destination : bool)
    (l : locals) (est : cost_estimate) :
  Move.price json_loads response_text inventory distance_km
    origin_floor destination_floor has_elevator_origin has_elevator_destination
    = (l, Ok est) ->
  stated_total (breakdown est) = Ok (total_cost est) /\
  stated_range (total_cost est) = Ok (cost_range est).
Proof.
  unfold Move.price. intros H. body_inv H. subst est. simpl.
  repeat match goal with
         | Hm : assign_num _ _ = _ |- _ => apply assign_num_Ok in Hm; destruct Hm as [Hm _]
         end.
  split.
  - assumption.
  - unfold stated_range.
    repeat match goal with
           | Hm : rbind (num_mul _ (PyFloat _)) _ = Ok _ |- _ =>
               apply rbind_Ok in Hm; destruct Hm as (? & Hm & [= <-])
           end.
    repeat match goal with
           | Hm : num_mul ?t (PyFloat ?c) = Ok _ |- context [num_mul ?t (PyFloat ?c)] =>
               rewrite Hm; clear Hm
           end.
    reflexivity.
Qed.

Lemma main_total_and_range
    (json_loads : string -> result pyval) (response_text : result string)
    (inventory : pydict) (distance_km : pynum) (origin_floor destination_floor : Z)
    (has_elevator_origin has_elevator_destination : bool)
    (l : locals) (est : cost_estimate) :
  Main.price json_loads response_text inventory distance_km
    origin_floor destination_floor has_elevator_origin has_elevator_destination
    = (l, Ok est) ->
  grouped_total (breakdown est) = Ok (total_cost est) /\
  stated_range (total_cost est) = Ok (cost_range est).
Proof.
  unfold Main.price. intros H. body_inv H. subst est. simpl.
  repeat match goal with
         | Hm : assign_num _ _ = _ |- _ => apply assign_num_Ok in Hm; destruct Hm as [Hm _]
         end.
  split.
  - unfold grouped_total.
    cbn [breakdown labor truck fuel materials stairs_fee other].
    match goal with
    | Hm : num_add ?t ?f = Ok ?tt |- context [num_add ?t ?f] => rewrite Hm
    end.
    cbn [rbind]. assumption.
  - unfold stated_range.
    repeat match goal with
           | Hm : rbind (num_mul _ (PyFloat _)) _ = Ok _ |- _ =>
               apply rbind_Ok in Hm; destruct Hm as (? & Hm & [= <-])
           end.
    repeat match goal with
           | Hm : num_mul ?t (PyFloat ?c) = Ok _ |- context [num_mul ?t (PyFloat ?c)] =>
               rewrite Hm; clear Hm
           end.
    reflexivity.
Qed.

(** C1 (as amended).  Every estimate [calculate_cost] of src/move.py returns
    has total_cost = round(labor + truck_base + fuel + stairs_fee + materials
    + other, 2) over its own breakdown, summed left to right; every estimate
    [calculate_move_cost] of src/main.py returns has the same sum with truck
    and fuel added to each other first; at both sites cost_range is
    [round(total_cost*0.9, 2), round(total_cost*1.1, 2)]. *)
Theorem total_cost_is_rounded_sum_of_breakdown
    (json_loads : string -> result pyval) (json_dumps : pyval -> result string)
    (float_repr : float -> string) (generate_content : string -> result string)
    (inventory : pydict) (distance_km : pynum) (origin_floor destination_floor : Z)
    (has_elevator_origin has_elevator_destination : bool) :
  (forall l est,
      Move.calculate_cost json_loads json_dumps float_repr generate_content inventory distance_km
        origin_floor destination_floor has_elevator_origin has_elevator_destination
        = (l, Ok est) ->
      stated_total (breakdown est) = Ok (total_cost est) /\
      stated_range (total_cost est) = Ok (cost_range est)) /\
  (forall l est,
      Main.calculate_move_cost json_loads json_dumps float_repr generate_content inventory distance_km
        origin_floor destination_floor has_elevator_origin has_elevator_destination
        = (l, Ok est) ->
      grouped_total (breakdown est) = Ok (total_cost est) /\
      stated_range (total_cost est) = Ok (cost_range est)).
Proof.
  split; intros l est H.
  - apply move_returned in H as [response_text H].
    exact (move_total_and_range _ _ _ _ _ _ _ _ _ _ H).
  - apply main_returned in H as [response_text H].
    exact (main_total_and_range _ _ _ _ _ _ _ _ _ _ H).
Qed.

(** At both sites the example answer, a volume of 800 and a distance of 45 km
    give an estimate whose total is the rounded left-to-right sum. *)
Lemma total_cost_is_rounded_sum_of_breakdown_witness :
  (exists l est,
      Move.calculate_cost Json.loads_py Json.dumps_py repr_float (answering example_answer)
        (inventory_of [] (PyInt 800) []) (PyInt 45) 3 2 false true = (l, Ok est) /\
      stated_total (breakdown est) = Ok (total_cost est) /\
      stated_range (total_cost est) = Ok (cost_range est)) /\
  (exists l est,
      Main.calculate_move_cost Json.loads_py Json.dumps_py repr_float (answering example_answer)
        (inventory_of [] (PyInt 800) []) (PyInt 45) 3 2 false true = (l, Ok est) /\
      grouped_total (breakdown est) = Ok (total_cost est) /\
      stated_range (total_cost est) = Ok (cost_range est)).
Proof.
  split.
  - eexists _, _. split; [vm_compute; reflexivity|].
    eapply (proj1 (total_cost_is_rounded_sum_of_breakdown Json.loads_py Json.dumps_py repr_float (answering example_answer) (inventory_of [] (PyInt 800) [])
                     (PyInt 45) 3 2 false true)).
    vm_compute; reflexivity.
  - eexists _, _. split; [vm_compute; reflexivity|].
    eapply (proj2 (total_cost_is_rounded_sum_of_breakdown Json.loads_py Json.dumps_py repr_float (answering example_answer) (inventory_of [] (PyInt 800) [])
                     (PyInt 45) 3 2 false true)).
    vm_compute; reflexivity.
Defined.

(** C1 as stated fails at src/main.py: over a distance of 2^59 km the
    returned total is 302641894959298816 while the left-to-right rounded sum
    of the returned breakdown is 302641894959298688, one unit in the last
    place lower. *)
Lemma main_total_is_not_the_left_to_right_sum :
  exists l est,
    Main.calculate_move_cost Json.loads_py Json.dumps_py repr_float (answering example_answer)
      (inventory_of [] (PyInt 800) []) (PyFloat 576460752303423488) 3 2 false true
      = (l, Ok est) /\
    total_cost est = PyFloat 302641894959298816 /\
    stated_total (breakdown est) = Ok (PyFloat 302641894959298688).
Proof.
  eexists _, _. split; [vm_compute; reflexivity|].
  vm_compute. split; reflexivity.
Qed.

(** ** The worked example *)

(** The [try] block of either site succeeds exactly when the answer parses,
    and then binds the parsed value. *)
Lemma move_staffing_parsed
    (json_loads : string -> result pyval) (response_text : result string)
    (inventory : pydict) (ai : pyval) :
  parsed json_loads response_text = Ok ai ->
  Move.staffing json_loads response_text inventory = ([("ai_estimate", ai)], Ok ai).
Proof. unfold parsed, Move.staffing. now intros ->. Qed.

Lemma main_staffing_parsed
    (json_loads : string -> result pyval) (response_text : result string)
    (inventory : pydict) (ai : pyval) :
  parsed json_loads response_text = Ok ai ->
  Main.staffing json_loads response_text inventory = ([("ai_estimate", ai)], Ok ai).
Proof. unfold parsed, Main.staffing. now intros ->. Qed.

(** The worked example, given the answer. *)
Lemma worked_example_after_the_prompt
    (json_loads : string -> result pyval) (response_text : result string)
    (items : list pyval) (notes : pyval) (volume distance_km : pynum) :
  parsed json_loads response_text = Ok (staffing_of 3 "medium" (PyFloat 1.5) notes) ->
  volume = PyInt 800 \/ volume = PyFloat 800 ->
  distance_km = PyInt 45 \/ distance_km = PyFloat 45 ->
  snd (Move.price json_loads response_text
         (inventory_of items volume []) distance_km 3 2 false true)
    = Ok (worked_estimate notes) /\
  snd (Main.price json_loads response_text
         (inventory_of items volume []) distance_km 3 2 false true)
    = Ok (worked_estimate notes).
Proof.
  intros Hp Hv Hd.
  unfold Move.price, Main.price.
  rewrite (move_staffing_parsed _ _ _ _ Hp), (main_staffing_parsed _ _ _ _ Hp).
  destruct Hv as [-> | ->], Hd as [-> | ->]; split; vm_compute; reflexivity.
Qed.

(** C2.  Volume 800 with no special handling, 45 km, floors 3 and 2, an
    elevator at the destination only, and the answer movers=3,
    truck_type=medium, complexity_hours_add=1.5: both sites return
    estimated_hours=9.5, labor=997.5, truck=120, fuel=22.5, stairs_fee=50,
    materials=160, other=57.0, total_cost=1407.0 and cost_range=[1266.3,
    1547.7], whether volume and distance arrive as int or as float.  The
    answer is the one to the prompt built from these arguments. *)
Theorem worked_example_estimate
    (json_loads : string -> result pyval) (json_dumps : pyval -> result string)
    (float_repr : float -> string) (generate_content : string -> result string)
    (items : list pyval) (notes : pyval) (volume distance_km : pynum) :
  inference json_loads json_dumps float_repr generate_content
    (inventory_of items volume []) distance_km 3 2 false true
    = Ok (Ok (staffing_of 3 "medium" (PyFloat 1.5) notes)) ->
  volume = PyInt 800 \/ volume = PyFloat 800 ->
  distance_km = PyInt 45 \/ distance_km = PyFloat 45 ->
  snd (Move.calculate_cost json_loads json_dumps float_repr generate_content
         (inventory_of items volume []) distance_km 3 2 false true)
    = Ok (worked_estimate notes) /\
  snd (Main.calculate_move_cost json_loads json_dumps float_repr generate_content
         (inventory_of items volume []) distance_km 3 2 false true)
    = Ok (worked_estimate notes).
Proof.
  intros (response_text & Hp & -> & ->)%inferred Hv Hd.
  exact (worked_example_after_the_prompt _ _ _ _ _ _ Hp Hv Hd).
Qed.

(** The example answer, sent as JSON text and read by the reference codec. *)
Lemma worked_example_estimate_witness :
  snd (Move.calculate_cost Json.loads_py Json.dumps_py repr_float (answering example_answer)
         (inventory_of [] (PyInt 800) []) (PyInt 45) 3 2 false true)
    = Ok (worked_estimate (PStr "Piano requires extra care and time")) /\
  snd (Main.calculate_move_cost Json.loads_py Json.dumps_py repr_float (answering example_answer)
         (inventory_of [] (PyInt 800) []) (PyInt 45) 3 2 false true)
    = Ok (worked_estimate (PStr "Piano requires extra care and time")).
Proof.
  apply (worked_example_estimate Json.loads_py Json.dumps_py repr_float (answering example_answer) []
           (PStr "Piano requires extra care and time") (PyInt 800) (PyInt 45)).
  - vm_compute. reflexivity.
  - left. reflexivity.
  - left. reflexivity.
Defined.

(** ** Conversions that cannot overflow *)

Lemma float_of_Z_fits (z : Z) :
  Z.abs z < float_overflow_bound -> float_of_Z z = Ok (nearest_float z).
Proof.
  intros H. unfold float_of_Z.
  now destruct (Z.ltb_spec (Z.abs z) float_overflow_bound); [|lia].
Qed.

Lemma float_overflow_bound_large : 2 ^ 64 < float_overflow_bound.
Proof. reflexivity. Qed.

Lemma to_float_fits (n : pynum) : fits n -> exists f, to_float n = Ok f.
Proof.
  destruct n as [z|f]; simpl; intros H; [|eauto].
  rewrite (float_of_Z_fits _ H). eauto.
Qed.

Lemma num_add_float_l (f : float) (b : pynum) :
  fits b -> exists g, num_add (PyFloat f) b = Ok (PyFloat g).
Proof.
  intros H. destruct (to_float_fits b H) as [y Hy].
  unfold num_add. cbn [to_float rbind]. rewrite Hy. cbn [rbind]. eauto.
Qed.

Lemma num_add_float_r (a : pynum) (f : float) :
  fits a -> exists g, num_add a (PyFloat f) = Ok (PyFloat g).
Proof.
  intros H. destruct (to_float_fits a H) as [x Hx].
  destruct a; unfold num_add; rewrite Hx; cbn [to_float rbind]; eauto.
Qed.

Lemma num_mul_float_l (f : float) (b : pynum) :
  fits b -> exists g, num_mul (PyFloat f) b = Ok (PyFloat g).
Proof.
  intros H. destruct (to_float_fits b H) as [y Hy].
  unfold num_mul. cbn [to_float rbind]. rewrite Hy. cbn [rbind]. eauto.
Qed.

Lemma num_mul_float_r (a : pynum) (f : float) :
  fits a -> exists g, num_mul a (PyFloat f) = Ok (PyFloat g).
Proof.
  intros H. destruct (to_float_fits a H) as [x Hx].
  destruct a; unfold num_mul; rewrite Hx; cbn [to_float rbind]; eauto.
Qed.

Lemma num_truediv_100 (a : pynum) :
  fits a -> exists q, num_truediv a (PyInt 100) = Ok (PyFloat q).
Proof.
  destruct a as [z|f]; cbn [fits]; intros H.
  - unfold num_truediv, int_truediv.
    replace (100 =? 0) with false by reflexivity.
    replace (100 <? 0) with false by reflexivity.
    replace (Z.abs 100) with 100 by reflexivity.
    destruct (Z.ltb_spec (Z.abs z) (100 * float_overflow_bound)); [|lia].
    cbn [rbind]. eauto.
  - unfold num_truediv. cbn [to_float rbind].
    rewrite float_of_Z_fits by reflexivity. cbn [rbind].
    replace (nearest_float 100 =? 0)%float with false by (vm_compute; reflexivity).
    eauto.
Qed.

Lemma fits_small (z : Z) : Z.abs z <= 2 ^ 64 -> fits (PyInt z).
Proof. pose proof float_overflow_bound_large. cbn [fits]. lia. Qed.

(** ** The fallback rule *)

Lemma py_lt_num (volume : pyval) (v : pynum) (k : Z) :
  as_num volume = Ok v ->
  py_lt volume (PNum (PyInt k)) = Ok (num_ltb v (PyInt k)).
Proof. intros H. unfold py_lt. now rewrite H. Qed.

Ltac fallback_by_rule Hv Hh Hn :=
  cbn [mbind assign];
  rewrite !(py_lt_num _ _ _ Hv), Hh; cbn [rbind py_len num_mul to_float];
  rewrite float_of_Z_fits
    by (pose proof float_overflow_bound_large; unfold sys_maxsize in Hn; lia);
  unfold fallback_rule, rule_movers, rule_truck, staffing_of;
  repeat match goal with
         | |- context [num_ltb ?v (PyInt ?k)] => destruct (num_ltb v (PyInt k))
         end;
  reflexivity.

Lemma move_fallback_rule (inventory : pydict) (v : pynum) (handling : list pyval) :
  as_num (dict_get inventory "total_volume_cubic_feet" (PNum (PyInt 500))) = Ok v ->
  dict_get inventory "needs_special_handling" (PList []) = PList handling ->
  Z.of_nat (List.length handling) <= sys_maxsize ->
  Move.fallback inventory
  = ([("volume", dict_get inventory "total_volume_cubic_feet" (PNum (PyInt 500)));
      ("ai_estimate", fallback_rule v (List.length handling))],
     Ok (fallback_rule v (List.length handling))).
Proof. intros Hv Hh Hn. unfold Move.fallback. fallback_by_rule Hv Hh Hn. Qed.

Lemma main_fallback_rule (inventory : pydict) (v : pynum) (handling : list pyval) :
  as_num (dict_get inventory "total_volume_cubic_feet" (PNum (PyInt 500))) = Ok v ->
  dict_get inventory "needs_special_handling" (PList []) = PList handling ->
  Z.of_nat (List.length handling) <= sys_maxsize ->
  Main.fallback inventory
  = ([("volume", dict_get inventory "total_volume_cubic_feet" (PNum (PyInt 500)));
      ("ai_estimate", fallback_rule v (List.length handling))],
     Ok (fallback_rule v (List.length handling))).
Proof. intros Hv Hh Hn. unfold Main.fallback. fallback_by_rule Hv Hh Hn. Qed.

(** When the call or the parse raises, the [except] block runs. *)
Lemma move_staffing_failed
    (json_loads : string -> result pyval) (response_text : result string)
    (inventory : pydict) (e : exn) :
  parsed json_loads response_text = Raise e ->
  Move.staffing json_loads response_text inventory = Move.fallback inventory.
Proof.
  unfold parsed, Move.staffing. intros ->. cbn [assign try_except app].
  now destruct (Move.fallback inventory).
Qed.

Lemma main_staffing_failed
    (json_loads : string -> result pyval) (response_text : result string)
    (inventory : pydict) (e : exn) :
  parsed json_loads response_text = Raise e ->
  Main.staffing json_loads response_text inventory = Main.fallback inventory.
Proof.
  unfold parsed, Main.staffing. intros ->. cbn [assign try_except app].
  now destruct (Main.fallback inventory).
Qed.

(** C3.  Whenever the inference call or the parse of its answer raises, the
    staffing is the fallback rule applied to v = total_volume_cubic_feet (500
    if absent) and the number of special-handling labels: movers 2, 3 or 4 by
    the thresholds 400 and 800, truck small, medium or large by 400 and 900,
    complexity_hours_add = count x 0.5, special_notes empty.  The right-hand
    side depends on the inventory alone, so equal inventories give equal
    recommendations whatever the failure was. *)
Theorem staffing_falls_back_to_the_volume_rule
    (json_loads : string -> result pyval) (response_text : result string)
    (inventory : pydict) (e : exn) (v : pynum) (handling : list pyval) :
  parsed json_loads response_text = Raise e ->
  as_num (dict_get inventory "total_volume_cubic_feet" (PNum (PyInt 500))) = Ok v ->
  dict_get inventory "needs_special_handling" (PList []) = PList handling ->
  Z.of_nat (List.length handling) <= sys_maxsize ->
  snd (Move.staffing json_loads response_text inventory)
    = Ok (fallback_rule v (List.length handling)) /\
  snd (Main.staffing json_loads response_text inventory)
    = Ok (fallback_rule v (List.length handling)).
Proof.
  intros Hp Hv Hh Hn.
  rewrite (move_staffing_failed _ _ _ _ Hp), (main_staffing_failed _ _ _ _ Hp).
  rewrite (move_fallback_rule _ _ _ Hv Hh Hn), (main_fallback_rule _ _ _ Hv Hh Hn).
  split; reflexivity.
Qed.

(** An inventory without a volume, after a call that raised: v is 500, so
    three movers and a medium truck. *)
Lemma staffing_falls_back_to_the_volume_rule_witness :
  snd (Move.staffing Json.loads_py (Raise ServiceError)
         [("needs_special_handling", PList [PStr "piano"; PStr "large_wardrobe"])])
    = Ok (staffing_of 3 "medium" (PyFloat 1.0) (PStr EmptyString)) /\
  snd (Main.staffing Json.loads_py (Raise ServiceError)
         [("needs_special_handling", PList [PStr "piano"; PStr "large_wardrobe"])])
    = Ok (staffing_of 3 "medium" (PyFloat 1.0) (PStr EmptyString)).
Proof.
  apply (staffing_falls_back_to_the_volume_rule Json.loads_py (Raise ServiceError)
           [("needs_special_handling", PList [PStr "piano"; PStr "large_wardrobe"])]
           ServiceError (PyInt 500) [PStr "piano"; PStr "large_wardrobe"]).
  - reflexivity.
  - reflexivity.
  - reflexivity.
  - vm_compute. discriminate.
Defined.

(** ** The fallback at 850 cubic feet *)

(** C4 (as amended).  For total_volume_cubic_feet = 850 and one
    special-handling label, the fallback yields movers = 4, truck_type =
    medium (850 is below the 900 threshold) and complexity_hours_add = 0.5,
    at both sites, for an int and for a float volume. *)
Theorem fallback_at_850_with_piano
    (json_loads : string -> result pyval) (response_text : result string)
    (e : exn) (items : list pyval) (volume : pynum) :
  parsed json_loads response_text = Raise e ->
  volume = PyInt 850 \/ volume = PyFloat 850 ->
  snd (Move.staffing json_loads response_text
         (inventory_of items volume [PStr "piano"]))
    = Ok (staffing_of 4 "medium" (PyFloat 0.5) (PStr EmptyString)) /\
  snd (Main.staffing json_loads response_text
         (inventory_of items volume [PStr "piano"]))
    = Ok (staffing_of 4 "medium" (PyFloat 0.5) (PStr EmptyString)).
Proof.
  intros Hp Hv.
  rewrite (move_staffing_failed _ _ _ _ Hp), (main_staffing_failed _ _ _ _ Hp).
  destruct Hv as [-> | ->]; split; vm_compute; reflexivity.
Qed.

Lemma fallback_at_850_with_piano_witness :
  snd (Move.staffing Json.loads_py (Raise ServiceError)
         (inventory_of [] (PyInt 850) [PStr "piano"]))
    = Ok (staffing_of 4 "medium" (PyFloat 0.5) (PStr EmptyString)) /\
  snd (Main.staffing Json.loads_py (Raise ServiceError)
         (inventory_of [] (PyInt 850) [PStr "piano"]))
    = Ok (staffing_of 4 "medium" (PyFloat 0.5) (PStr EmptyString)).
Proof.
  apply (fallback_at_850_with_piano Json.loads_py (Raise ServiceError)
           ServiceError [] (PyInt 850)).
  - reflexivity.
  - left. reflexivity.
Defined.

(** C4 as stated fails: the truck the fallback picks at 850 is medium, not
    large. *)
Lemma fallback_truck_at_850_is_medium :
  (ai <-! snd (Move.fallback (inventory_of [] (PyInt 850) [PStr "piano"])) ;;
   py_getitem ai "truck_type") = Ok (PStr "medium") /\
  (ai <-! snd (Main.fallback (inventory_of [] (PyInt 850) [PStr "piano"])) ;;
   py_getitem ai "truck_type") = Ok (PStr "medium").
Proof. split; vm_compute; reflexivity. Qed.

(** ** An estimate is produced on the fallback path *)

Lemma getitem_movers (m : Z) (t : string) (h : pynum) (n : pyval) :
  py_getitem (staffing_of m t h n) "recommended_movers" = Ok (PNum (PyInt m)).
Proof. reflexivity. Qed.

Lemma getitem_truck (m : Z) (t : string) (h : pynum) (n : pyval) :
  py_getitem (staffing_of m t h n) "truck_type" = Ok (PStr t).
Proof. reflexivity. Qed.

Lemma get_complexity (m : Z) (t : string) (h : pynum) (n d : pyval) :
  py_get (staffing_of m t h n) "complexity_hours_add" d = Ok (PNum h).
Proof. reflexivity. Qed.

Lemma get_notes (m : Z) (t : string) (h : pynum) (n d : pyval) :
  py_get (staffing_of m t h n) "special_notes" d = Ok n.
Proof. reflexivity. Qed.

Lemma rule_movers_fits (v : pynum) : fits (PyInt (rule_movers v)).
Proof.
  apply fits_small. unfold rule_movers.
  repeat match goal with |- context [if ?b then _ else _] => destruct b end;
    vm_compute; discriminate.
Qed.

Lemma rule_truck_rate (v : pynum) :
  exists r, rate_lookup (truck_rates Move.PRICING_CONFIG) (rule_truck v) = Some (PyInt r)
            /\ rate_lookup (truck_rates Main.PRICING_CONFIG) (rule_truck v) = Some (PyInt r)
            /\ fits (PyInt r).
Proof.
  unfold rule_truck.
  repeat match goal with |- context [if ?b then _ else _] => destruct b end;
    eexists; (split; [reflexivity|]; split; [reflexivity|]);
    apply fits_small; vm_compute; discriminate.
Qed.

Lemma returns_mret {A : Type} (a : A) (P : A -> Prop) : P a -> returns (mret a) P.
Proof. intros H. now exists [], a. Qed.

Lemma returns_bind {A B : Type} (m : M A) (k : A -> M B) (l1 : locals) (a : A)
    (P : B -> Prop) :
  m = (l1, Ok a) -> returns (k a) P -> returns (mbind m k) P.
Proof.
  intros -> (l2 & b & Hk & Hb). exists (l1 ++ l2)%list, b.
  cbn [mbind]. now rewrite Hk.
Qed.

Lemma returns_assign {B : Type} (x : string) (e : result pyval) (v : pyval)
    (k : pyval -> M B) (P : B -> Prop) :
  e = Ok v -> returns (k v) P -> returns (mbind (assign x e) k) P.
Proof. intros ->. now apply returns_bind with (l1 := [(x, v)]). Qed.

Lemma returns_assign_num {B : Type} (x : string) (e : result pynum) (n : pynum)
    (k : pynum -> M B) (P : B -> Prop) :
  e = Ok n -> returns (k n) P -> returns (mbind (assign_num x e) k) P.
Proof. intros ->. now apply returns_bind with (l1 := [(x, PNum n)]). Qed.

Lemma returns_assign_num_ex {B : Type} (x : string) (e : result pynum)
    (k : pynum -> M B) (P : B -> Prop) :
  (exists n, e = Ok n /\ returns (k n) P) -> returns (mbind (assign_num x e) k) P.
Proof. intros (n & He & H). now apply returns_assign_num with (n := n). Qed.

(** Side conditions [fits _], matched by shape so that the overflow bound is
    never unfolded. *)
Ltac fits_tac :=
  lazymatch goal with
  | |- fits (PyFloat _) => exact I
  | H : fits ?x |- fits ?x => exact H
  | |- fits (PyInt _) =>
      pose proof float_overflow_bound_large;
      repeat match goal with H : fits (PyInt _) |- _ => cbn [fits] in H end;
      cbn [fits]; lia
  end.

Ltac config :=
  cbn [base_hours hour_per_100_cubic_feet labor_rate_per_hour fuel_cost_per_km
       stairs_fee_per_floor packing_material_per_cubic_feet truck_rates
       Move.PRICING_CONFIG Main.PRICING_CONFIG].

(** One float operation of the right-hand side at a time. *)
Ltac float_step :=
  let g := fresh "g" in
  let H := fresh "Hg" in
  match goal with
  | |- context [num_add (PyFloat ?f) ?b] =>
      destruct (num_add_float_l f b) as [g H]; [fits_tac | rewrite H; cbn [rbind]]
  | |- context [num_add ?a (PyFloat ?f)] =>
      destruct (num_add_float_r a f) as [g H]; [fits_tac | rewrite H; cbn [rbind]]
  | |- context [num_mul (PyFloat ?f) ?b] =>
      destruct (num_mul_float_l f b) as [g H]; [fits_tac | rewrite H; cbn [rbind]]
  | |- context [num_mul ?a (PyFloat ?f)] =>
      destruct (num_mul_float_r a f) as [g H]; [fits_tac | rewrite H; cbn [rbind]]
  end.

Ltac arith :=
  config; unfold py_add, py_mul; cbn [as_num rbind num_round];
  repeat float_step; cbn [num_round].

(** The next assignment succeeds, after [tac] has evaluated its right-hand
    side. *)
Ltac bind_num tac :=
  apply returns_assign_num_ex; tac; eexists; split; [reflexivity|].

Ltac bind_stairs :=
  first [ bind_num idtac | (eapply returns_bind; [reflexivity|]) ].

Section FallbackPath.
Variable json_loads : string -> result pyval.
Variable response_text : result string.
Variables (inventory : pydict) (v : pynum) (handling : list pyval).
Variables (distance_km : pynum) (origin_floor destination_floor : Z).
Variables (has_elevator_origin has_elevator_destination : bool).
Variable e : exn.
Hypothesis call_or_parse_fails : parsed json_loads response_text = Raise e.
Hypothesis volume_is_a_number :
  as_num (dict_get inventory "total_volume_cubic_feet" (PNum (PyInt 500))) = Ok v.
Hypothesis volume_in_range : fits v.
Hypothesis handling_is_a_list :
  dict_get inventory "needs_special_handling" (PList []) = PList handling.
Hypothesis handling_size : Z.of_nat (List.length handling) <= sys_maxsize.
Hypothesis distance_in_range : fits distance_km.
Hypothesis stairs_fee_in_range :
  fits (PyInt (stairs_floors_of origin_floor destination_floor
                 has_elevator_origin has_elevator_destination * 25)).

Lemma move_estimate_on_fallback :
  returns (Move.price json_loads response_text inventory distance_km
             origin_floor destination_floor
             has_elevator_origin has_elevator_destination) (priced_by_the_rule v).
Proof.
  unfold Move.price.
  rewrite (move_staffing_failed _ _ _ _ call_or_parse_fails).
  eapply returns_bind;
    [exact (move_fallback_rule _ _ _ volume_is_a_number handling_is_a_list handling_size)|].
  unfold fallback_rule.
  eapply returns_assign; [reflexivity|].
  eapply returns_assign; [apply getitem_movers|].
  eapply returns_assign; [apply getitem_truck|].
  bind_num idtac.
  destruct (num_truediv_100 v volume_in_range) as [q Hq].
  bind_num ltac:(unfold py_truediv; rewrite volume_is_a_number;
                 cbn [rbind as_num]; rewrite Hq; arith).
  eapply returns_assign; [apply get_complexity|].
  bind_num arith.
  destruct (rule_truck_rate v) as (r & Hr & _ & Fr).
  cbn [truck_rates Move.PRICING_CONFIG] in Hr.
  pose proof (rule_movers_fits v) as Fm.
  bind_num arith.
  bind_num ltac:(unfold rates_getitem; rewrite Hr).
  bind_num arith.
  bind_num idtac.
  pose proof stairs_fee_in_range as Fs. unfold stairs_floors_of in Fs.
  destruct (negb has_elevator_origin && (1 <? origin_floor)),
           (negb has_elevator_destination && (1 <? destination_floor));
    (do 2 bind_stairs);
    bind_num config;
    bind_num ltac:(unfold py_mul; rewrite volume_is_a_number; arith);
    (do 4 bind_num arith);
    (eapply returns_bind; [rewrite get_notes; reflexivity|]);
    apply returns_mret; unfold priced_by_the_rule; cbn; auto.
Qed.

Lemma main_estimate_on_fallback :
  returns (Main.price json_loads response_text inventory distance_km
             origin_floor destination_floor
             has_elevator_origin has_elevator_destination) (priced_by_the_rule v).
Proof.
  unfold Main.price.
  rewrite (main_staffing_failed _ _ _ _ call_or_parse_fails).
  eapply returns_bind;
    [exact (main_fallback_rule _ _ _ volume_is_a_number handling_is_a_list handling_size)|].
  unfold fallback_rule.
  eapply returns_assign; [reflexivity|].
  eapply returns_assign; [apply getitem_movers|].
  eapply returns_assign; [apply getitem_truck|].
  bind_num idtac.
  destruct (num_truediv_100 v volume_in_range) as [q Hq].
  bind_num ltac:(unfold py_truediv; rewrite volume_is_a_number;
                 cbn [rbind as_num]; rewrite Hq; arith).
  eapply returns_assign; [apply get_complexity|].
  bind_num arith.
  destruct (rule_truck_rate v) as (r & _ & Hr & Fr).
  cbn [truck_rates Main.PRICING_CONFIG] in Hr.
  pose proof (rule_movers_fits v) as Fm.
  bind_num arith.
  bind_num ltac:(unfold rates_getitem; rewrite Hr).
  bind_num arith.
  bind_num arith.
  bind_num idtac.
  pose proof stairs_fee_in_range as Fs. unfold stairs_floors_of in Fs.
  destruct (negb has_elevator_origin && (1 <? origin_floor)),
           (negb has_elevator_destination && (1 <? destination_floor));
    (do 2 bind_stairs);
    bind_num config;
    bind_num ltac:(unfold py_mul; rewrite volume_is_a_number; arith);
    (do 4 bind_num arith);
    (eapply returns_bind; [rewrite get_notes; reflexivity|]);
    apply returns_mret; unfold priced_by_the_rule; cbn; auto.
Qed.

End FallbackPath.

(** ** An unknown truck tier *)

Lemma raises_bind_ok {A B : Type} (m : M A) (k : A -> M B) (l1 : locals) (a : A)
    (Q : locals -> exn -> Prop) :
  m = (l1, Ok a) ->
  raises (k a) (fun l e => Q (l1 ++ l)%list e) -> raises (mbind m k) Q.
Proof.
  intros -> (l2 & e & Hk & HQ). exists (l1 ++ l2)%list, e.
  cbn [mbind]. now rewrite Hk.
Qed.

Lemma raises_bind_raise {A B : Type} (m : M A) (k : A -> M B) (l1 : locals) (e : exn)
    (Q : locals -> exn -> Prop) :
  m = (l1, Raise e) -> Q l1 e -> raises (mbind m k) Q.
Proof. intros -> HQ. now exists l1, e. Qed.

Lemma raises_assign {B : Type} (x : string) (r : result pyval)
    (k : pyval -> M B) (Q : locals -> exn -> Prop) :
  (forall e, r = Raise e -> Q [] e) ->
  (forall v, r = Ok v -> raises (k v) (fun l e => Q ((x, v) :: l) e)) ->
  raises (mbind (assign x r) k) Q.
Proof.
  intros Hraise Hok. destruct r as [v|e].
  - eapply raises_bind_ok; [reflexivity|]. now apply Hok.
  - eapply raises_bind_raise; [reflexivity|]. now apply Hraise.
Qed.

Lemma raises_assign_num {B : Type} (x : string) (r : result pynum)
    (k : pynum -> M B) (Q : locals -> exn -> Prop) :
  (forall e, r = Raise e -> Q [] e) ->
  (forall n, r = Ok n -> raises (k n) (fun l e => Q ((x, PNum n) :: l) e)) ->
  raises (mbind (assign_num x r) k) Q.
Proof.
  intros Hraise Hok. destruct r as [n|e].
  - eapply raises_bind_ok; [reflexivity|]. now apply Hok.
  - eapply raises_bind_raise; [reflexivity|]. now apply Hraise.
Qed.

(** Run one assignment: either it raises, and the names bound so far decide
    the goal, or it binds and the body goes on. *)
Ltac run_assign :=
  first [ apply raises_assign | apply raises_assign_num ];
  [ intros ? _; split; [discriminate | reflexivity] | intros ? ? ].

Section UnknownTier.
Variable json_loads : string -> result pyval.
Variable response_text : result string.
Variables (inventory : pydict) (distance_km : pynum).
Variables (origin_floor destination_floor : Z).
Variables (has_elevator_origin has_elevator_destination : bool).
Variables (ai : pyval) (tier : string).
Hypothesis answer_parses : parsed json_loads response_text = Ok ai.
Hypothesis answer_tier : py_getitem ai "truck_type" = Ok (PStr tier).

Lemma move_unknown_tier :
  rate_lookup (truck_rates Move.PRICING_CONFIG) tier = None ->
  raises (Move.price json_loads response_text inventory distance_km
            origin_floor destination_floor
            has_elevator_origin has_elevator_destination) (stopped_at_lookup tier).
Proof.
  intros Hrate. unfold Move.price, stopped_at_lookup.
  eapply raises_bind_ok; [exact (move_staffing_parsed _ _ _ _ answer_parses)|].
  do 3 run_assign.
  match goal with H : py_getitem ai "truck_type" = _ |- _ =>
    rewrite answer_tier in H; injection H as <- end.
  do 5 run_assign.
  eapply raises_bind_raise.
  - unfold rates_getitem. rewrite Hrate. reflexivity.
  - split; reflexivity.
Qed.

Lemma main_unknown_tier :
  rate_lookup (truck_rates Main.PRICING_CONFIG) tier = None ->
  raises (Main.price json_loads response_text inventory distance_km
            origin_floor destination_floor
            has_elevator_origin has_elevator_destination) (stopped_at_lookup tier).
Proof.
  intros Hrate. unfold Main.price, stopped_at_lookup.
  eapply raises_bind_ok; [exact (main_staffing_parsed _ _ _ _ answer_parses)|].
  do 3 run_assign.
  match goal with H : py_getitem ai "truck_type" = _ |- _ =>
    rewrite answer_tier in H; injection H as <- end.
  do 5 run_assign.
  eapply raises_bind_raise.
  - unfold rates_getitem. rewrite Hrate. reflexivity.
  - split; reflexivity.
Qed.

End UnknownTier.

Lemma unknown_tier_has_no_rate (tier : string) :
  tier <> "small" -> tier <> "medium" -> tier <> "large" ->
  rate_lookup (truck_rates Move.PRICING_CONFIG) tier = None /\
  rate_lookup (truck_rates Main.PRICING_CONFIG) tier = None.
Proof.
  intros Hs Hm Hl. cbn [truck_rates Move.PRICING_CONFIG Main.PRICING_CONFIG rate_lookup].
  rewrite !(proj2 (String.eqb_neq _ _)) by (intros Heq; symmetry in Heq; contradiction).
  split; reflexivity.
Qed.

(** C5 (as amended).  When the parsed answer names a truck_type outside
    small, medium and large, neither site returns an estimate: the pricing
    raises.  If it gets as far as the truck-rate lookup, labor has already been
    priced and the exception is Python's KeyError for that tier (the code has
    no ConfigError); truck, fuel, stairs, materials, other, total and range are
    never computed. *)
Theorem unknown_truck_type_raises_KeyError
    (json_loads : string -> result pyval) (json_dumps : pyval -> result string)
    (float_repr : float -> string) (generate_content : string -> result string)
    (inventory : pydict) (distance_km : pynum) (origin_floor destination_floor : Z)
    (has_elevator_origin has_elevator_destination : bool)
    (ai : pyval) (tier : string) :
  inference json_loads json_dumps float_repr generate_content inventory distance_km
    origin_floor destination_floor has_elevator_origin has_elevator_destination
    = Ok (Ok ai) ->
  py_getitem ai "truck_type" = Ok (PStr tier) ->
  tier <> "small" -> tier <> "medium" -> tier <> "large" ->
  raises (Move.calculate_cost json_loads json_dumps float_repr generate_content inventory distance_km
            origin_floor destination_floor
            has_elevator_origin has_elevator_destination)
    (stopped_at_lookup tier) /\
  raises (Main.calculate_move_cost json_loads json_dumps float_repr generate_content inventory distance_km
            origin_floor destination_floor
            has_elevator_origin has_elevator_destination)
    (stopped_at_lookup tier).
Proof.
  intros (response_text & Hp & -> & ->)%inferred Ht Hs Hm Hl.
  destruct (unknown_tier_has_no_rate tier Hs Hm Hl) as [Hmove Hmain]. split.
  - exact (move_unknown_tier _ _ _ _ _ _ _ _ _ _ Hp Ht Hmove).
  - exact (main_unknown_tier _ _ _ _ _ _ _ _ _ _ Hp Ht Hmain).
Qed.

Lemma unknown_truck_type_raises_KeyError_witness :
  raises (Move.calculate_cost Json.loads_py Json.dumps_py repr_float (answering xl_answer)
            (inventory_of [] (PyInt 800) []) (PyInt 45) 3 2 false true)
    (stopped_at_lookup "xl") /\
  raises (Main.calculate_move_cost Json.loads_py Json.dumps_py repr_float (answering xl_answer)
            (inventory_of [] (PyInt 800) []) (PyInt 45) 3 2 false true)
    (stopped_at_lookup "xl").
Proof.
  apply (unknown_truck_type_raises_KeyError Json.loads_py Json.dumps_py repr_float (answering xl_answer)
           (inventory_of [] (PyInt 800) []) (PyInt 45) 3 2 false true
           (staffing_of 3 "xl" (PyFloat 1.5) (PStr EmptyString)) "xl").
  - vm_compute. reflexivity.
  - reflexivity.
  - discriminate.
  - discriminate.
  - discriminate.
Defined.

(** C5 as stated fails: for the tier xl both sites raise KeyError, and by
    then estimated_hours = 9.5 and labor_cost = 997.5 have been computed. *)
Lemma xl_raises_KeyError_after_pricing_labor :
  (exists l,
      Move.calculate_cost Json.loads_py Json.dumps_py repr_float (answering xl_answer)
        (inventory_of [] (PyInt 800) []) (PyInt 45) 3 2 false true
        = (l, Raise (KeyError (PStr "xl"))) /\
      dict_lookup l "estimated_hours" = Some (PNum (PyFloat 9.5)) /\
      dict_lookup l "labor_cost" = Some (PNum (PyFloat 997.5))) /\
  (exists l,
      Main.calculate_move_cost Json.loads_py Json.dumps_py repr_float (answering xl_answer)
        (inventory_of [] (PyInt 800) []) (PyInt 45) 3 2 false true
        = (l, Raise (KeyError (PStr "xl"))) /\
      dict_lookup l "estimated_hours" = Some (PNum (PyFloat 9.5)) /\
      dict_lookup l "labor_cost" = Some (PNum (PyFloat 997.5))).
Proof.
  split; eexists; (split; [vm_compute; reflexivity|]); vm_compute; split; reflexivity.
Qed.

(** ** Fields missing from the parsed answer *)

Lemma snd_mbind_Ok {A B : Type} (l : locals) (a : A) (k : A -> M B) :
  snd (mbind (l, Ok a) k) = snd (k a).
Proof. cbn [mbind]. now destruct (k a). Qed.

Lemma snd_mbind_assign_Ok {B : Type} (x : string) (v : pyval) (k : pyval -> M B) :
  snd (mbind (assign x (Ok v)) k) = snd (k v).
Proof. apply snd_mbind_Ok. Qed.

Lemma snd_mbind_assign_Raise {B : Type} (x : string) (e : exn) (k : pyval -> M B) :
  snd (mbind (assign x (Raise e)) k) = Raise e.
Proof. reflexivity. Qed.

Lemma dict_lookup_app_absent (d : pydict) (k k' : string) (v : pyval) :
  dict_lookup (d ++ [(k, v)])%list k'
  = match dict_lookup d k' with
    | Some x => Some x
    | None => if String.eqb k k' then Some v else None
    end.
Proof.
  induction d as [|[k0 v0] d IH]; cbn [dict_lookup app]; [reflexivity|].
  now destruct (String.eqb k0 k').
Qed.

(** Appending the default under a key the dict lacks changes no lookup with
    that default, and no lookup of another key. *)
Lemma dict_get_app_default (d : pydict) (k : string) (v : pyval) :
  dict_lookup d k = None -> dict_get (d ++ [(k, v)])%list k v = dict_get d k v.
Proof.
  intros H. unfold dict_get. rewrite dict_lookup_app_absent, H, String.eqb_refl.
  reflexivity.
Qed.

Lemma dict_lookup_app_other (d : pydict) (k k' : string) (v : pyval) :
  k <> k' -> dict_lookup (d ++ [(k, v)])%list k' = dict_lookup d k'.
Proof.
  intros H. rewrite dict_lookup_app_absent.
  rewrite (proj2 (String.eqb_neq _ _) H). now destruct (dict_lookup d k').
Qed.

Lemma dict_get_app_other (d : pydict) (k k' : string) (v default : pyval) :
  k <> k' -> dict_get (d ++ [(k, v)])%list k' default = dict_get d k' default.
Proof. intros H. unfold dict_get. now rewrite dict_lookup_app_other. Qed.

Section FourLookups.
Variables (json_loads json_loads' : string -> result pyval).
Variables (response_text response_text' : result string).
Variables (inventory : pydict) (distance_km : pynum).
Variables (origin_floor destination_floor : Z).
Variables (has_elevator_origin has_elevator_destination : bool).
Variables (ai ai' : pyval).
Hypothesis answer : parsed json_loads response_text = Ok ai.
Hypothesis answer' : parsed json_loads' response_text' = Ok ai'.
Hypothesis same_movers :
  py_getitem ai "recommended_movers" = py_getitem ai' "recommended_movers".
Hypothesis same_truck : py_getitem ai "truck_type" = py_getitem ai' "truck_type".
Hypothesis same_hours :
  py_get ai "complexity_hours_add" (PNum (PyInt 0))
  = py_get ai' "complexity_hours_add" (PNum (PyInt 0)).
Hypothesis same_notes :
  py_get ai "special_notes" (PStr EmptyString)
  = py_get ai' "special_notes" (PStr EmptyString).

(** The pricing reads the answer through four lookups only. *)
Lemma move_reads_four_lookups :
  snd (Move.price json_loads response_text inventory distance_km
         origin_floor destination_floor has_elevator_origin has_elevator_destination)
  = snd (Move.price json_loads' response_text' inventory distance_km
           origin_floor destination_floor
           has_elevator_origin has_elevator_destination).
Proof.
  unfold Move.price.
  rewrite (move_staffing_parsed _ _ _ _ answer), (move_staffing_parsed _ _ _ _ answer').
  rewrite !snd_mbind_Ok, same_movers, same_truck, same_hours, same_notes.
  reflexivity.
Qed.

Lemma main_reads_four_lookups :
  snd (Main.price json_loads response_text inventory distance_km
         origin_floor destination_floor has_elevator_origin has_elevator_destination)
  = snd (Main.price json_loads' response_text' inventory distance_km
           origin_floor destination_floor
           has_elevator_origin has_elevator_destination).
Proof.
  unfold Main.price.
  rewrite (main_staffing_parsed _ _ _ _ answer), (main_staffing_parsed _ _ _ _ answer').
  rewrite !snd_mbind_Ok, same_movers, same_truck, same_hours, same_notes.
  reflexivity.
Qed.

End FourLookups.

Section MissingFields.
Variable json_loads : string -> result pyval.
Variable response_text : result string.
Variables (inventory : pydict) (distance_km : pynum).
Variables (origin_floor destination_floor : Z).
Variables (has_elevator_origin has_elevator_destination : bool).
Variable d : pydict.
Hypothesis answer : parsed json_loads response_text = Ok (PDict d).

Lemma missing_movers_is_KeyError :
  dict_lookup d "recommended_movers" = None ->
  snd (Move.price json_loads response_text inventory distance_km
         origin_floor destination_floor has_elevator_origin has_elevator_destination)
    = Raise (KeyError (PStr "recommended_movers")) /\
  snd (Main.price json_loads response_text inventory distance_km
         origin_floor destination_floor has_elevator_origin has_elevator_destination)
    = Raise (KeyError (PStr "recommended_movers")).
Proof.
  intros H. unfold Move.price, Main.price.
  rewrite (move_staffing_parsed _ _ _ _ answer), (main_staffing_parsed _ _ _ _ answer).
  rewrite !snd_mbind_Ok, !snd_mbind_assign_Ok.
  unfold py_getitem at 1 3. rewrite H, !snd_mbind_assign_Raise. split; reflexivity.
Qed.

Lemma missing_truck_type_is_KeyError (movers : pyval) :
  dict_lookup d "recommended_movers" = Some movers ->
  dict_lookup d "truck_type" = None ->
  snd (Move.price json_loads response_text inventory distance_km
         origin_floor destination_floor has_elevator_origin has_elevator_destination)
    = Raise (KeyError (PStr "truck_type")) /\
  snd (Main.price json_loads response_text inventory distance_km
         origin_floor destination_floor has_elevator_origin has_elevator_destination)
    = Raise (KeyError (PStr "truck_type")).
Proof.
  intros Hm Ht. unfold Move.price, Main.price.
  rewrite (move_staffing_parsed _ _ _ _ answer), (main_staffing_parsed _ _ _ _ answer).
  rewrite !snd_mbind_Ok, !snd_mbind_assign_Ok.
  unfold py_getitem at 1 3. rewrite Hm, !snd_mbind_assign_Ok.
  unfold py_getitem at 1 2. rewrite Ht, !snd_mbind_assign_Raise. split; reflexivity.
Qed.

(** An answer without [key] is priced exactly like the same answer with
    [key] set to [default], when [default] is what the code passes to [get]. *)
Lemma absent_field_is_defaulted
    (json_loads' : string -> result pyval) (response_text' : result string)
    (key : string) (default : pyval) :
  (key = "complexity_hours_add" /\ default = PNum (PyInt 0)) \/
  (key = "special_notes" /\ default = PStr EmptyString) ->
  dict_lookup d key = None ->
  parsed json_loads' response_text' = Ok (PDict (d ++ [(key, default)])%list) ->
  snd (Move.price json_loads response_text inventory distance_km
         origin_floor destination_floor has_elevator_origin has_elevator_destination)
    = snd (Move.price json_loads' response_text' inventory distance_km
             origin_floor destination_floor
             has_elevator_origin has_elevator_destination) /\
  snd (Main.price json_loads response_text inventory distance_km
         origin_floor destination_floor has_elevator_origin has_elevator_destination)
    = snd (Main.price json_loads' response_text' inventory distance_km
             origin_floor destination_floor
             has_elevator_origin has_elevator_destination).
Proof.
  intros Hkey Habsent answer'.
  split;
    [ apply (move_reads_four_lookups _ _ _ _ _ _ _ _ _ _ _ _ answer answer')
    | apply (main_reads_four_lookups _ _ _ _ _ _ _ _ _ _ _ _ answer answer') ];
    destruct Hkey as [[-> ->] | [-> ->]];
    cbn [py_getitem py_get];
    rewrite ?dict_get_app_default by assumption;
    unfold dict_get; rewrite ?dict_lookup_app_other by discriminate;
    reflexivity.
Qed.

End MissingFields.

Lemma absent_volume_is_500
    (json_loads : string -> result pyval) (response_text : result string)
    (inventory : pydict) (distance_km : pynum) (origin_floor destination_floor : Z)
    (has_elevator_origin has_elevator_destination : bool) :
  dict_lookup inventory "total_volume_cubic_feet" = None ->
  Move.price json_loads response_text inventory distance_km
    origin_floor destination_floor has_elevator_origin has_elevator_destination
  = Move.price json_loads response_text
      (inventory ++ [("total_volume_cubic_feet", PNum (PyInt 500))])%list distance_km
      origin_floor destination_floor has_elevator_origin has_elevator_destination /\
  Main.price json_loads response_text inventory distance_km
    origin_floor destination_floor has_elevator_origin has_elevator_destination
  = Main.price json_loads response_text
      (inventory ++ [("total_volume_cubic_feet", PNum (PyInt 500))])%list distance_km
      origin_floor destination_floor has_elevator_origin has_elevator_destination.
Proof.
  intros H.
  unfold Move.price, Main.price, Move.staffing, Main.staffing,
    Move.fallback, Main.fallback.
  rewrite !(dict_get_app_default _ _ _ H).
  rewrite !dict_get_app_other by discriminate.
  split; reflexivity.
Qed.

(** The pricing reads the answer's text through its parse alone. *)
Lemma price_reads_the_parse
    (json_loads json_loads' : string -> result pyval)
    (response_text response_text' : result string)
    (inventory : pydict) (distance_km : pynum) (origin_floor destination_floor : Z)
    (has_elevator_origin has_elevator_destination : bool) :
  parsed json_loads response_text = parsed json_loads' response_text' ->
  Move.price json_loads response_text inventory distance_km
    origin_floor destination_floor has_elevator_origin has_elevator_destination
  = Move.price json_loads' response_text' inventory distance_km
      origin_floor destination_floor has_elevator_origin has_elevator_destination /\
  Main.price json_loads response_text inventory distance_km
    origin_floor destination_floor has_elevator_origin has_elevator_destination
  = Main.price json_loads' response_text' inventory distance_km
      origin_floor destination_floor has_elevator_origin has_elevator_destination.
Proof.
  unfold parsed, Move.price, Main.price, Move.staffing, Main.staffing.
  intros ->. split; reflexivity.
Qed.

(** C7 (as amended).  Building the estimate from a parsed staffing answer
    never raises a typed SchemaError.  An answer without recommended_movers,
    or with it and without truck_type, makes the pricing raise Python's
    KeyError for that key; an answer without complexity_hours_add is priced
    exactly as if the field were 0, and one without special_notes exactly as
    if it were the empty string; an inventory without total_volume_cubic_feet
    is priced as if it were 500.  Each comparison is between two runs whose
    prompts got the answers compared. *)
Theorem missing_fields_raise_KeyError_or_take_a_default
    (json_loads : string -> result pyval) (json_dumps : pyval -> result string)
    (float_repr : float -> string) (generate_content : string -> result string)
    (inventory : pydict) (distance_km : pynum) (origin_floor destination_floor : Z)
    (has_elevator_origin has_elevator_destination : bool) (d : pydict) :
  let answer jl gc inv :=
    inference jl json_dumps float_repr gc inv distance_km
      origin_floor destination_floor has_elevator_origin has_elevator_destination in
  let move jl gc inv :=
    Move.calculate_cost jl json_dumps float_repr gc inv distance_km
      origin_floor destination_floor has_elevator_origin has_elevator_destination in
  let main jl gc inv :=
    Main.calculate_move_cost jl json_dumps float_repr gc inv distance_km
      origin_floor destination_floor has_elevator_origin has_elevator_destination in
  answer json_loads generate_content inventory = Ok (Ok (PDict d)) ->
  (dict_lookup d "recommended_movers" = None ->
   snd (move json_loads generate_content inventory)
     = Raise (KeyError (PStr "recommended_movers")) /\
   snd (main json_loads generate_content inventory)
     = Raise (KeyError (PStr "recommended_movers"))) /\
  (forall movers,
      dict_lookup d "recommended_movers" = Some movers ->
      dict_lookup d "truck_type" = None ->
      snd (move json_loads generate_content inventory)
        = Raise (KeyError (PStr "truck_type")) /\
      snd (main json_loads generate_content inventory)
        = Raise (KeyError (PStr "truck_type"))) /\
  (forall json_loads' generate_content' key default,
      (key = "complexity_hours_add" /\ default = PNum (PyInt 0)) \/
      (key = "special_notes" /\ default = PStr EmptyString) ->
      dict_lookup d key = None ->
      answer json_loads' generate_content' inventory
        = Ok (Ok (PDict (d ++ [(key, default)])%list)) ->
      snd (move json_loads generate_content inventory)
        = snd (move json_loads' generate_content' inventory) /\
      snd (main json_loads generate_content inventory)
        = snd (main json_loads' generate_content' inventory)) /\
  (forall generate_content',
      dict_lookup inventory "total_volume_cubic_feet" = None ->
      answer json_loads generate_content'
        (inventory ++ [("total_volume_cubic_feet", PNum (PyInt 500))])%list
        = Ok (Ok (PDict d)) ->
      move json_loads generate_content inventory
        = move json_loads generate_content'
            (inventory ++ [("total_volume_cubic_feet", PNum (PyInt 500))])%list /\
      main json_loads generate_content inventory
        = main json_loads generate_content'
            (inventory ++ [("total_volume_cubic_feet", PNum (PyInt 500))])%list).
Proof.
  intros answer move main. subst answer move main. cbv beta.
  intros (response_text & Hp & -> & ->)%inferred.
  split; [|split; [|split]].
  - intros H. exact (missing_movers_is_KeyError _ _ _ _ _ _ _ _ _ Hp H).
  - intros movers Hm Ht.
    exact (missing_truck_type_is_KeyError _ _ _ _ _ _ _ _ _ Hp movers Hm Ht).
  - intros json_loads' generate_content' key default Hkey Habsent
      (response_text' & Hp' & -> & ->)%inferred.
    exact (absent_field_is_defaulted _ _ _ _ _ _ _ _ _ Hp _ _ _ _ Hkey Habsent Hp').
  - intros generate_content' H (response_text' & Hp' & -> & ->)%inferred.
    rewrite <- Hp in Hp'.
    destruct (price_reads_the_parse _ _ _ _
                (inventory ++ [("total_volume_cubic_feet", PNum (PyInt 500))])%list
                distance_km origin_floor destination_floor
                has_elevator_origin has_elevator_destination Hp') as [-> ->].
    exact (absent_volume_is_500 _ _ _ _ _ _ _ _ H).
Qed.

(** An answer without complexity_hours_add is priced like the same answer
    with complexity_hours_add = 0. *)
Lemma missing_fields_raise_KeyError_or_take_a_default_witness :
  snd (Move.calculate_cost Json.loads_py Json.dumps_py repr_float (answering two_field_answer)
         (inventory_of [] (PyInt 800) []) (PyInt 45) 3 2 false true)
    = snd (Move.calculate_cost Json.loads_py Json.dumps_py repr_float (answering two_field_answer_with_zero_hours)
             (inventory_of [] (PyInt 800) []) (PyInt 45) 3 2 false true) /\
  snd (Main.calculate_move_cost Json.loads_py Json.dumps_py repr_float (answering two_field_answer)
         (inventory_of [] (PyInt 800) []) (PyInt 45) 3 2 false true)
    = snd (Main.calculate_move_cost Json.loads_py Json.dumps_py repr_float (answering two_field_answer_with_zero_hours)
             (inventory_of [] (PyInt 800) []) (PyInt 45) 3 2 false true).
Proof.
  refine (proj1 (proj2 (proj2
            (missing_fields_raise_KeyError_or_take_a_default Json.loads_py Json.dumps_py repr_float (answering two_field_answer) (inventory_of [] (PyInt 800) []) (PyInt 45)
               3 2 false true
               [("recommended_movers", PNum (PyInt 3)); ("truck_type", PStr "medium")]
               _)))
            Json.loads_py (answering two_field_answer_with_zero_hours)
            "complexity_hours_add" (PNum (PyInt 0)) _ _ _).
  - vm_compute. reflexivity.
  - left. split; reflexivity.
  - reflexivity.
  - vm_compute. reflexivity.
Defined.

(** C7 as stated fails: an answer that has neither complexity_hours_add nor
    special_notes raises nothing; both sites return an estimate with 8.0
    hours (no complexity added) and empty notes. *)
Lemma answer_without_hours_and_notes_is_priced :
  (exists est,
      snd (Move.calculate_cost Json.loads_py Json.dumps_py repr_float (answering two_field_answer)
             (inventory_of [] (PyInt 800) []) (PyInt 45) 3 2 false true) = Ok est /\
      estimated_hours est = PyFloat 8 /\ special_notes est = PStr EmptyString) /\
  (exists est,
      snd (Main.calculate_move_cost Json.loads_py Json.dumps_py repr_float (answering two_field_answer)
             (inventory_of [] (PyInt 800) []) (PyInt 45) 3 2 false true) = Ok est /\
      estimated_hours est = PyFloat 8 /\ special_notes est = PStr EmptyString).
Proof.
  split; eexists; (split; [vm_compute; reflexivity|]); split; reflexivity.
Qed.

(** ** The other-fees component at the two sites *)

Ltac same_value :=
  match goal with
  | H1 : ?x = Ok ?a, H2 : ?x = Ok ?b |- _ =>
      rewrite H1 in H2; injection H2 as <-
  | H1 : ?x = (?l, Ok ?a), H2 : ?x = (?l', Ok ?b) |- _ =>
      rewrite H1 in H2; injection H2 as <- <-
  end.

(** The other fees of two estimates priced from the same answer. *)
Lemma other_fees_after_the_prompt
    (json_loads : string -> result pyval) (response_text : result string)
    (inventory : pydict) (distance_km : pynum) (origin_floor destination_floor : Z)
    (has_elevator_origin has_elevator_destination : bool)
    (l1 l2 : locals) (est1 est2 : cost_estimate) :
  Move.price json_loads response_text inventory distance_km
    origin_floor destination_floor has_elevator_origin has_elevator_destination
    = (l1, Ok est1) ->
  Main.price json_loads response_text inventory distance_km
    origin_floor destination_floor has_elevator_origin has_elevator_destination
    = (l2, Ok est2) ->
  other_left_to_right (breakdown est1) = Ok (other (breakdown est1)) /\
  other_grouped (breakdown est2) = Ok (other (breakdown est2)) /\
  labor (breakdown est1) = labor (breakdown est2) /\
  truck (breakdown est1) = truck (breakdown est2) /\
  fuel (breakdown est1) = fuel (breakdown est2) /\
  (fee_base_left_to_right (breakdown est1) = fee_base_grouped (breakdown est2) ->
   other (breakdown est1) = other (breakdown est2)).
Proof.
  intros H1 H2.
  unfold Move.price in H1. unfold Main.price in H2.
  unfold Move.staffing, Move.fallback in H1. unfold Main.staffing, Main.fallback in H2.
  cbn [base_hours hour_per_100_cubic_feet labor_rate_per_hour fuel_cost_per_km
       stairs_fee_per_floor packing_material_per_cubic_feet truck_rates
       Move.PRICING_CONFIG Main.PRICING_CONFIG] in H1, H2.
  body_inv H1. body_inv H2. subst est1 est2.
  cbn [breakdown labor truck fuel other].
  repeat match goal with
         | Hm : assign_num _ _ = _ |- _ => apply assign_num_Ok in Hm; destruct Hm as [Hm _]
         | Hm : assign _ _ = _ |- _ => apply assign_Ok in Hm; destruct Hm as [Hm _]
         end.
  repeat same_value.
  match goal with
  | Hother : rbind (num_add ?l ?t) _ = Ok ?o1,
    Htotal : num_add ?t ?f = Ok ?tt,
    Hother' : rbind (num_add ?l ?tt) _ = Ok ?o2
    |- other_left_to_right _ = Ok ?o1 /\ _ =>
      split; [exact Hother|];
      split; [unfold other_grouped; cbn [labor truck fuel]; rewrite Htotal; exact Hother'|];
      repeat (split; [reflexivity|]);
      unfold fee_base_left_to_right, fee_base_grouped; cbn [labor truck fuel];
      rewrite Htotal; cbn [rbind]; intros Hsame;
      destruct (num_add l t) as [s|]; [|discriminate];
      cbn [rbind] in Hother, Hsame; rewrite Hsame in Hother;
      rewrite Hother in Hother'; now injection Hother'
  end.
Qed.


(** C9 (as amended).  Both sites take 5% of labor + truck_base + fuel; no
    site leaves truck and fuel out.  On the same inputs they return the same
    labor, truck and fuel; src/move.py adds the three left to right, src/main.py
    adds truck and fuel first, so the two other-fees agree whenever the two
    groupings of the float sum agree. *)
Theorem other_fees_include_truck_and_fuel_at_both_sites
    (json_loads : string -> result pyval) (json_dumps : pyval -> result string)
    (float_repr : float -> string) (generate_content : string -> result string)
    (inventory : pydict) (distance_km : pynum) (origin_floor destination_floor : Z)
    (has_elevator_origin has_elevator_destination : bool)
    (l1 l2 : locals) (est1 est2 : cost_estimate) :
  Move.calculate_cost json_loads json_dumps float_repr generate_content inventory distance_km
    origin_floor destination_floor has_elevator_origin has_elevator_destination
    = (l1, Ok est1) ->
  Main.calculate_move_cost json_loads json_dumps float_repr generate_content inventory distance_km
    origin_floor destination_floor has_elevator_origin has_elevator_destination
    = (l2, Ok est2) ->
  other_left_to_right (breakdown est1) = Ok (other (breakdown est1)) /\
  other_grouped (breakdown est2) = Ok (other (breakdown est2)) /\
  labor (breakdown est1) = labor (breakdown est2) /\
  truck (breakdown est1) = truck (breakdown est2) /\
  fuel (breakdown est1) = fuel (breakdown est2) /\
  (fee_base_left_to_right (breakdown est1) = fee_base_grouped (breakdown est2) ->
   other (breakdown est1) = other (breakdown est2)).
Proof.
  intros H1 H2.
  destruct (both_returned _ _ _ _ _ _ _ _ _ _ _ _ _ _ H1 H2) as (response_text & H1' & H2').
  exact (other_fees_after_the_prompt _ _ _ _ _ _ _ _ _ _ _ _ H1' H2').
Qed.

(** The worked example at both sites. *)
Lemma other_fees_include_truck_and_fuel_at_both_sites_witness :
  exists l1 l2 est1 est2,
    Move.calculate_cost Json.loads_py Json.dumps_py repr_float (answering example_answer)
      (inventory_of [] (PyInt 800) []) (PyInt 45) 3 2 false true = (l1, Ok est1) /\
    Main.calculate_move_cost Json.loads_py Json.dumps_py repr_float (answering example_answer)
      (inventory_of [] (PyInt 800) []) (PyInt 45) 3 2 false true = (l2, Ok est2) /\
    other_left_to_right (breakdown est1) = Ok (other (breakdown est1)) /\
    other_grouped (breakdown est2) = Ok (other (breakdown est2)) /\
    labor (breakdown est1) = labor (breakdown est2) /\
    truck (breakdown est1) = truck (breakdown est2) /\
    fuel (breakdown est1) = fuel (breakdown est2) /\
    (fee_base_left_to_right (breakdown est1) = fee_base_grouped (breakdown est2) ->
     other (breakdown est1) = other (breakdown est2)).
Proof.
  eexists _, _, _, _.
  split; [vm_compute; reflexivity|]. split; [vm_compute; reflexivity|].
  eapply (other_fees_include_truck_and_fuel_at_both_sites Json.loads_py Json.dumps_py repr_float (answering example_answer) (inventory_of [] (PyInt 800) []) (PyInt 45)
            3 2 false true);
    vm_compute; reflexivity.
Defined.

(** C9 as stated fails: in the worked example both sites charge 57.0, which
    is 5% of labor + truck + fuel = 1140.0; 5% of labor alone would be
    49.88. *)
Lemma neither_site_leaves_truck_and_fuel_out :
  exists l1 l2 est1 est2,
    Move.calculate_cost Json.loads_py Json.dumps_py repr_float (answering example_answer)
      (inventory_of [] (PyInt 800) []) (PyInt 45) 3 2 false true = (l1, Ok est1) /\
    Main.calculate_move_cost Json.loads_py Json.dumps_py repr_float (answering example_answer)
      (inventory_of [] (PyInt 800) []) (PyInt 45) 3 2 false true = (l2, Ok est2) /\
    other (breakdown est1) = PyFloat 57 /\
    other (breakdown est2) = PyFloat 57 /\
    other_labor_only (breakdown est1) = Ok (PyFloat 49.88) /\
    other_labor_only (breakdown est2) = Ok (PyFloat 49.88).
Proof.
  eexists _, _, _, _.
  split; [vm_compute; reflexivity|]. split; [vm_compute; reflexivity|].
  vm_compute. repeat split.
Qed.

(** X2.  Where the two groupings of the float sum part: over 2^59 km
    src/move.py charges 14411518807585642 and src/main.py 14411518807585646
    in other fees, on the same labor, truck and fuel. *)
Lemma other_fees_differ_over_a_huge_distance :
  exists l1 l2 est1 est2,
    Move.calculate_cost Json.loads_py Json.dumps_py repr_float (answering example_answer)
      (inventory_of [] (PyInt 800) []) (PyFloat 576460752303423488) 3 2 false true
      = (l1, Ok est1) /\
    Main.calculate_move_cost Json.loads_py Json.dumps_py repr_float (answering example_answer)
      (inventory_of [] (PyInt 800) []) (PyFloat 576460752303423488) 3 2 false true
      = (l2, Ok est2) /\
    other (breakdown est1) = PyFloat 14411518807585642 /\
    other (breakdown est2) = PyFloat 14411518807585646.
Proof.
  eexists _, _, _, _.
  split; [vm_compute; reflexivity|]. split; [vm_compute; reflexivity|].
  vm_compute. split; reflexivity.
Qed.

(** ** Reading a fenced answer *)

Lemma append_cons (c : ascii) (a b : string) : String c a ++ b = String c (a ++ b).
Proof. reflexivity. Qed.

Lemma append_nil (b : string) : EmptyString ++ b = b.
Proof. reflexivity. Qed.

Ltac app_norm := rewrite ?append_cons, ?append_nil.

Lemma string_app_assoc (a b c : string) : (a ++ b) ++ c = a ++ (b ++ c).
Proof. induction a as [|x a IH]; app_norm; congruence. Qed.

Lemma lstrip_length (s : string) : (String.length (lstrip s) <= String.length s)%nat.
Proof. induction s as [|c s IH]; cbn; [lia|]. destruct (is_space c); cbn; lia. Qed.

Lemma rstrip_length (s : string) : (String.length (rstrip s) <= String.length s)%nat.
Proof.
  induction s as [|c s IH]; cbn; [lia|].
  destruct (rstrip s); [destruct (is_space c)|]; cbn in *; lia.
Qed.

Lemma lstrip_fixed (s : string) :
  String.length (lstrip s) = String.length s -> lstrip s = s.
Proof.
  destruct s as [|c s]; cbn; [reflexivity|].
  destruct (is_space c); [|reflexivity].
  pose proof (lstrip_length s). lia.
Qed.

Lemma strip_fixed (s : string) : strip s = s -> lstrip s = s /\ rstrip s = s.
Proof.
  unfold strip. intros H.
  assert (lstrip s = s) as Hl.
  { apply lstrip_fixed. pose proof (rstrip_length (lstrip s)).
    pose proof (lstrip_length s). rewrite H in *. lia. }
  now rewrite Hl in H.
Qed.

Lemma rstrip_app_newline (s : string) : rstrip (s ++ newline) = rstrip s.
Proof.
  induction s as [|c s IH]; [reflexivity|].
  app_norm. cbn [rstrip]. now rewrite IH.
Qed.

Lemma rstrip_app_fence (s : string) : rstrip (s ++ fence_mark) = s ++ fence_mark.
Proof.
  induction s as [|c s IH]; [reflexivity|].
  app_norm. cbn [rstrip]. rewrite IH. now destruct s.
Qed.

Lemma prefix_before_newline (s t : string) :
  String.prefix fence_mark (s ++ newline ++ t) = true ->
  String.prefix fence_mark s = true.
Proof.
  unfold fence_mark, newline.
  destruct s as [|c1 [|c2 [|c3 s]]]; app_norm; cbn [String.prefix];
    repeat match goal with
           | |- context [ascii_dec ?a ?b] => destruct (ascii_dec a b); try discriminate
           end; auto.
  intros _. now destruct s.
Qed.

Lemma occurs_cons (sep : string) (c : ascii) (s : string) :
  occurs sep (String c s) = false ->
  String.prefix sep (String c s) = false /\ occurs sep s = false.
Proof. cbn [occurs]. now intros [? ?]%orb_false_elim. Qed.

Lemma split_go_body (body cur : string) :
  occurs fence_mark body = false ->
  split_go fence_mark 0 cur (body ++ newline ++ fence_mark)
  = [cur ++ body ++ newline; EmptyString].
Proof.
  revert cur. induction body as [|c body IH]; intros cur Hocc.
  - reflexivity.
  - apply occurs_cons in Hocc as [Hpre Hocc].
    app_norm. cbn [split_go].
    destruct (String.prefix fence_mark (String c (body ++ newline ++ fence_mark))) eqn:Hp.
    + apply (prefix_before_newline (String c body)) in Hp. congruence.
    + rewrite IH by assumption. now rewrite string_app_assoc.
Qed.

Lemma split_fenced (body : string) :
  occurs fence_mark body = false ->
  split (fence "json" body) fence_mark
  = [EmptyString; "json" ++ newline ++ body ++ newline; EmptyString].
Proof.
  intros H. unfold split, fence.
  change (split_go fence_mark 0 EmptyString (fence_mark ++ "json" ++ newline ++ body ++ newline ++ fence_mark))
    with (EmptyString :: split_go fence_mark 0 ("json" ++ newline) (body ++ newline ++ fence_mark)).
  rewrite split_go_body by assumption. now rewrite !string_app_assoc.
Qed.

Lemma unfence_fenced (body : string) :
  strip body = body ->
  occurs fence_mark body = false ->
  unfence (fence "json" body) = Ok body.
Proof.
  intros Hstrip Hocc. apply strip_fixed in Hstrip as [Hl Hr].
  unfold unfence.
  assert (strip (fence "json" body) = fence "json" body) as ->.
  { unfold strip, fence.
    change (lstrip (fence_mark ++ "json" ++ newline ++ body ++ newline ++ fence_mark))
      with (fence_mark ++ "json" ++ newline ++ body ++ newline ++ fence_mark).
    rewrite <- !string_app_assoc. apply rstrip_app_fence. }
  change (startswith (fence "json" body) fence_mark) with true. cbv iota.
  rewrite (split_fenced body Hocc). cbn [list_getitem nth_error rbind].
  change (startswith ("json" ++ newline ++ body ++ newline) "json") with true. cbv iota.
  change (slice_from 4 ("json" ++ newline ++ body ++ newline))
    with (newline ++ body ++ newline).
  f_equal. unfold strip.
  change (lstrip (newline ++ body ++ newline)) with (lstrip (body ++ newline)).
  destruct body as [|c body]; [reflexivity|].
  assert (lstrip (String c body ++ newline) = String c body ++ newline) as ->.
  { app_norm. cbn [lstrip] in *. destruct (is_space c); [|reflexivity].
    pose proof (lstrip_length body) as Hlen. rewrite Hl in Hlen. cbn in Hlen. lia. }
  now rewrite rstrip_app_newline.
Qed.

Section RoundTrip.
Context {V : Type}.
Variable json_loads : string -> result V.
Variable json_dumps : V -> string.
Variable v : V.
Hypothesis library_round_trip : json_loads (json_dumps v) = Ok v.
Hypothesis no_surrounding_space : strip (json_dumps v) = json_dumps v.

Lemma parse_unfenced :
  startswith (json_dumps v) fence_mark = false ->
  parse_model_text json_loads (json_dumps v) = Ok v.
Proof.
  intros Hstart. unfold parse_model_text, unfence.
  rewrite no_surrounding_space, Hstart. exact library_round_trip.
Qed.

Lemma parse_fenced :
  occurs fence_mark (json_dumps v) = false ->
  parse_model_text json_loads (fence "json" (json_dumps v)) = Ok v.
Proof.
  intros Hocc. unfold parse_model_text.
  rewrite (unfence_fenced _ no_surrounding_space Hocc). exact library_round_trip.
Qed.

End RoundTrip.

(** C6 (as amended).  Let V be a JSON value whose serialisation the JSON
    library reads back as V, and which, as every JSON text, has no
    surrounding whitespace and does not start with a code fence.  Then
    parse(serialize(V)) = V, and parse(fence(json, serialize(V))) = V provided
    the serialisation contains no triple backtick. *)
Theorem parse_round_trips_unless_the_text_holds_a_fence
    {V : Type} (json_loads : string -> result V) (json_dumps : V -> string) (v : V) :
  json_loads (json_dumps v) = Ok v ->
  strip (json_dumps v) = json_dumps v ->
  startswith (json_dumps v) fence_mark = false ->
  parse_model_text json_loads (json_dumps v) = Ok v /\
  (occurs fence_mark (json_dumps v) = false ->
   parse_model_text json_loads (fence "json" (json_dumps v)) = Ok v).
Proof.
  intros Hrt Hstrip Hstart. split.
  - now apply parse_unfenced.
  - now apply parse_fenced.
Qed.

(** The prompt's example answer, bare and fenced, through the reference
    codec. *)
Lemma parse_round_trips_unless_the_text_holds_a_fence_witness :
  let answer := staffing_tree "3" "medium" "1.5" "Piano requires extra care and time" in
  parse_model_text Json.loads (Json.dumps answer) = Ok answer /\
  parse_model_text Json.loads (fence "json" (Json.dumps answer)) = Ok answer.
Proof.
  intros answer.
  destruct (parse_round_trips_unless_the_text_holds_a_fence Json.loads Json.dumps answer)
    as [Hbare Hfenced].
  - vm_compute. reflexivity.
  - vm_compute. reflexivity.
  - vm_compute. reflexivity.
  - split; [exact Hbare|]. apply Hfenced. vm_compute. reflexivity.
Defined.

(** C6 as stated fails: the string a```b serialises to a text the JSON
    codec reads back, but inside a json fence the parser cuts it at the inner
    triple backtick and the JSON parse raises. *)
Lemma fenced_round_trip_breaks_on_inner_backticks :
  Json.loads (Json.dumps (Json.Str "a```b")) = Ok (Json.Str "a```b") /\
  unfence (fence "json" (Json.dumps (Json.Str "a```b")))
    = Ok (String Json.dquote "a") /\
  parse_model_text Json.loads (fence "json" (Json.dumps (Json.Str "a```b")))
    = Raise JSONDecodeError.
Proof. vm_compute. repeat split. Qed.

(** ** The staged upload *)

Section StagedUpload.
Variable analyze_youtube_video : string -> string -> Z -> result pyval.
Variable analyze_video_file : string -> string -> Z -> result pyval.
Variable VideoAnalysisResponse : pyval -> result pyval.
Variables (home_type : string) (room_count : Z).
Variable youtube_url : option string.
Variables (temp_path : string) (fs : Endpoint.filesystem).

(** Once the copy into the temporary file has succeeded, the file is gone
    when the endpoint exits, whether the analysis returned or raised. *)
Lemma staged_upload_is_unlinked_after_analysis :
  youtube_url = None \/ youtube_url = Some EmptyString ->
  temp_path ∉ fst (Endpoint.analyze_video_endpoint analyze_youtube_video
                     analyze_video_file (Ok temp_path) (Ok tt) VideoAnalysisResponse
                     true youtube_url home_type room_count fs).
Proof.
  unfold Endpoint.analyze_video_endpoint, Endpoint.analyze_upload,
    Endpoint.os_unlink.
  intros [-> | ->]; cbn [negb andb];
    (destruct (decide (temp_path ∈ {[temp_path]} ∪ fs)) as [_|Hno];
     [|exfalso; apply Hno; set_solver]);
    repeat match goal with
           | |- context [match ?r with Ok _ => _ | Raise _ => _ end] => destruct r
           end;
    cbn [fst rbind]; set_solver.
Qed.

(** With a fresh temporary name the file system is as it was before. *)
Lemma filesystem_restored_after_analysis :
  temp_path ∉ fs ->
  fst (Endpoint.analyze_video_endpoint analyze_youtube_video analyze_video_file
         (Ok temp_path) (Ok tt) VideoAnalysisResponse
         true youtube_url home_type room_count fs) = fs.
Proof.
  intros Hfresh.
  unfold Endpoint.analyze_video_endpoint, Endpoint.analyze_upload,
    Endpoint.os_unlink.
  cbn [negb andb].
  destruct youtube_url as [[|c u]|]; cbn [fst];
    try (destruct (decide (temp_path ∈ {[temp_path]} ∪ fs)) as [_|Hno];
         [|exfalso; apply Hno; set_solver]);
    repeat match goal with
           | |- context [match ?r with Ok _ => _ | Raise _ => _ end] => destruct r
           end;
    cbn [fst rbind]; set_solver.
Qed.

End StagedUpload.

(** C10 fails on one exit path.  When an upload is given without a URL and
    copying it into the temporary file raises, the endpoint answers 500 and
    the temporary file, created with delete=False, is still there: the
    [finally] that unlinks it guards the analysis only. *)
Theorem staged_upload_is_left_behind_when_the_copy_raises
    (analyze_youtube_video analyze_video_file : string -> string -> Z -> result pyval)
    (VideoAnalysisResponse : pyval -> result pyval)
    (home_type : string) (room_count : Z)
    (temp_path : string) (fs : Endpoint.filesystem) (e : exn) :
  let exit :=
    Endpoint.analyze_video_endpoint analyze_youtube_video analyze_video_file
      (Ok temp_path) (Raise e) VideoAnalysisResponse
      true None home_type room_count fs in
  exit = ({[temp_path]} ∪ fs, Raise (HTTPException 500)) /\
  temp_path ∈ fst exit.
Proof.
  intros exit. subst exit.
  unfold Endpoint.analyze_video_endpoint, Endpoint.analyze_upload. cbn [negb andb fst rbind].
  split; [reflexivity|]. apply elem_of_union_l, elem_of_singleton. reflexivity.
Qed.

(** X1.  On the upload path (no URL, or an empty one), once the copy has
    succeeded the temporary file does not outlive the endpoint, whatever the
    analysis and the response model do. *)
Theorem temp_file_is_gone_once_staged
    (analyze_youtube_video analyze_video_file : string -> string -> Z -> result pyval)
    (VideoAnalysisResponse : pyval -> result pyval)
    (home_type : string) (room_count : Z)
    (temp_path : string) (fs : Endpoint.filesystem) :
  (temp_path ∉ fst (Endpoint.analyze_video_endpoint analyze_youtube_video
                      analyze_video_file (Ok temp_path) (Ok tt) VideoAnalysisResponse
                      true None home_type room_count fs)) /\
  (temp_path ∉ fst (Endpoint.analyze_video_endpoint analyze_youtube_video
                      analyze_video_file (Ok temp_path) (Ok tt) VideoAnalysisResponse
                      true (Some EmptyString) home_type room_count fs)).
Proof.
  split; apply staged_upload_is_unlinked_after_analysis; auto.
Qed.

(** ** What every returned estimate satisfies *)

(** The right-hand sides of the assignments of a body that returned. *)
Ltac assigned :=
  repeat match goal with
         | H : assign_num _ _ = _ |- _ => apply assign_num_Ok in H; destruct H as [H _]
         | H : assign _ _ = _ |- _ => apply assign_Ok in H; destruct H as [H _]
         | H : mret _ = (_, Ok _) |- _ => apply mret_Ok in H; destruct H as [H _]
         end.

(** One equation per operation of a right-hand side. *)
Ltac unchain :=
  unfold py_add, py_mul, py_truediv in *;
  repeat match goal with
         | H : rbind _ _ = Ok _ |- _ =>
             let x := fresh "x" in
             let Hx := fresh "Hx" in
             apply rbind_Ok in H as (x & Hx & H)
         | H : Ok _ = Ok _ |- _ => injection H as H
         | H : as_num (PNum _) = Ok _ |- _ => cbn [as_num] in H
         end.

Ltac config_all :=
  cbn [base_hours hour_per_100_cubic_feet labor_rate_per_hour fuel_cost_per_km
       stairs_fee_per_floor packing_material_per_cubic_feet truck_rates
       Move.PRICING_CONFIG Main.PRICING_CONFIG] in *.

Lemma is_float_PyFloat (f : float) : is_float (PyFloat f).
Proof. now exists f. Qed.

Lemma num_add_is_float (a b r : pynum) :
  num_add a b = Ok r -> is_float a \/ is_float b -> is_float r.
Proof.
  intros H [[f ->] | [f ->]]; destruct a as [x|x] || destruct b as [y|y];
    cbn [num_add to_float rbind] in H;
    repeat match goal with
           | H : rbind _ _ = Ok _ |- _ => apply rbind_Ok in H as (? & _ & H)
           end; injection H as <-; eexists; reflexivity.
Qed.

Lemma num_add_is_float_l (a b r : pynum) :
  num_add a b = Ok r -> is_float a -> is_float r.
Proof. eauto using num_add_is_float. Qed.

Lemma num_add_is_float_r (a b r : pynum) :
  num_add a b = Ok r -> is_float b -> is_float r.
Proof. eauto using num_add_is_float. Qed.

Lemma num_mul_is_float (a b r : pynum) :
  num_mul a b = Ok r -> is_float a \/ is_float b -> is_float r.
Proof.
  intros H [[f ->] | [f ->]]; destruct a as [x|x] || destruct b as [y|y];
    cbn [num_mul to_float rbind] in H;
    repeat match goal with
           | H : rbind _ _ = Ok _ |- _ => apply rbind_Ok in H as (? & _ & H)
           end; injection H as <-; eexists; reflexivity.
Qed.

Lemma num_mul_is_float_l (a b r : pynum) :
  num_mul a b = Ok r -> is_float a -> is_float r.
Proof. eauto using num_mul_is_float. Qed.

Lemma num_mul_is_float_r (a b r : pynum) :
  num_mul a b = Ok r -> is_float b -> is_float r.
Proof. eauto using num_mul_is_float. Qed.

Lemma num_round_is_float (n : pynum) (nd : Z) : is_float n -> is_float (num_round n nd).
Proof. intros [f ->]. eexists. reflexivity. Qed.

Create HintDb floats.
#[local] Hint Resolve is_float_PyFloat num_add_is_float_l num_add_is_float_r
  num_mul_is_float_l num_mul_is_float_r num_round_is_float : floats.

Lemma rate_of_a_known_tier (key : pyval) (n : pynum) :
  rates_getitem [("small", PyInt 75); ("medium", PyInt 120); ("large", PyInt 180)] key
    = Ok n ->
  (key = PStr "small" /\ n = PyInt 75) \/
  (key = PStr "medium" /\ n = PyInt 120) \/
  (key = PStr "large" /\ n = PyInt 180).
Proof.
  destruct key as [| | |k| |]; cbn [rates_getitem]; try discriminate.
  cbn [rate_lookup].
  destruct (String.eqb_spec "small" k) as [<-|_]; [intros [= <-]; auto|].
  destruct (String.eqb_spec "medium" k) as [<-|_]; [intros [= <-]; auto|].
  destruct (String.eqb_spec "large" k) as [<-|_]; [intros [= <-]; auto|].
  discriminate.
Qed.

Lemma rate_is_a_small_int (key : pyval) (n : pynum) :
  rates_getitem [("small", PyInt 75); ("medium", PyInt 120); ("large", PyInt 180)] key
    = Ok n ->
  exists r, n = PyInt r /\ fits (PyInt r).
Proof.
  intros H. destruct (rate_of_a_known_tier _ _ H) as [[_ ->] | [[_ ->] | [_ ->]]];
    eexists; (split; [reflexivity|]); apply fits_small; vm_compute; discriminate.
Qed.

(** The stairs fee out of the equations of its three assignments. *)
Ltac stairs_fee_tac :=
  repeat match goal with
         | H : Ok _ = Ok _ |- _ => injection H as H
         | H : num_add (PyInt _) (PyInt _) = Ok _ |- _ => cbn [num_add] in H
         | H : num_mul (PyInt _) (stairs_fee_per_floor _) = Ok _ |- _ =>
             cbn [num_mul stairs_fee_per_floor Move.PRICING_CONFIG Main.PRICING_CONFIG] in H
         | H : PyInt _ = ?a |- _ => is_var a; subst a
         | H : ?a = ?b :> pynum |- _ => is_var a; is_var b; subst a
         end;
  f_equal; lia.

Ltac amounts :=
  unfold amounts_are_floats;
  cbn [breakdown total_cost cost_range estimated_hours labor fuel materials other];
  assigned; config_all; unchain; subst;
  repeat split; eauto 10 with floats;
  match goal with
  | |- exists lo hi, [num_round ?a _; num_round ?b _] = _ =>
      assert (is_float a) as [? ->] by eauto 10 with floats;
      assert (is_float b) as [? ->] by eauto 10 with floats;
      eexists _, _; reflexivity
  end.

Section Returned.
Variable json_loads : string -> result pyval.
Variable response_text : result string.
Variables (inventory : pydict) (distance_km : pynum).
Variables (origin_floor destination_floor : Z).
Variables (has_elevator_origin has_elevator_destination : bool).
Variables (l : locals) (est : cost_estimate).

Lemma move_truck_from_the_table :
  Move.price json_loads response_text inventory distance_km
    origin_floor destination_floor has_elevator_origin has_elevator_destination
    = (l, Ok est) ->
  truck_from_the_table est.
Proof.
  unfold Move.price. intros H. body_inv H. subst est.
  unfold truck_from_the_table. cbn [breakdown truck truck_type].
  match goal with
  | H : assign_num "truck_base" _ = _ |- _ =>
      apply assign_num_Ok in H; destruct H as [H _];
      exact (rate_of_a_known_tier _ _ H)
  end.
Qed.

Lemma main_truck_from_the_table :
  Main.price json_loads response_text inventory distance_km
    origin_floor destination_floor has_elevator_origin has_elevator_destination
    = (l, Ok est) ->
  truck_from_the_table est.
Proof.
  unfold Main.price. intros H. body_inv H. subst est.
  unfold truck_from_the_table. cbn [breakdown truck truck_type].
  match goal with
  | H : assign_num "truck_base" _ = _ |- _ =>
      apply assign_num_Ok in H; destruct H as [H _];
      exact (rate_of_a_known_tier _ _ H)
  end.
Qed.

Lemma move_stairs_fee :
  Move.price json_loads response_text inventory distance_km
    origin_floor destination_floor has_elevator_origin has_elevator_destination
    = (l, Ok est) ->
  stairs_fee (breakdown est)
  = PyInt (stairs_floors_of origin_floor destination_floor
             has_elevator_origin has_elevator_destination * 25).
Proof.
  unfold Move.price, stairs_floors_of. intros H.
  destruct (negb has_elevator_origin && (1 <? origin_floor)),
           (negb has_elevator_destination && (1 <? destination_floor));
    body_inv H; subst est; cbn [breakdown stairs_fee]; assigned; stairs_fee_tac.
Qed.

Lemma main_stairs_fee :
  Main.price json_loads response_text inventory distance_km
    origin_floor destination_floor has_elevator_origin has_elevator_destination
    = (l, Ok est) ->
  stairs_fee (breakdown est)
  = PyInt (stairs_floors_of origin_floor destination_floor
             has_elevator_origin has_elevator_destination * 25).
Proof.
  unfold Main.price, stairs_floors_of. intros H.
  destruct (negb has_elevator_origin && (1 <? origin_floor)),
           (negb has_elevator_destination && (1 <? destination_floor));
    body_inv H; subst est; cbn [breakdown stairs_fee]; assigned; stairs_fee_tac.
Qed.

Lemma move_amounts_are_floats :
  Move.price json_loads response_text inventory distance_km
    origin_floor destination_floor has_elevator_origin has_elevator_destination
    = (l, Ok est) ->
  amounts_are_floats est.
Proof.
  unfold Move.price. intros H. body_inv H. subst est. amounts.
Qed.

Lemma main_amounts_are_floats :
  Main.price json_loads response_text inventory distance_km
    origin_floor destination_floor has_elevator_origin has_elevator_destination
    = (l, Ok est) ->
  amounts_are_floats est.
Proof.
  unfold Main.price. intros H. body_inv H. subst est. amounts.
Qed.

End Returned.

(** ** A returned estimate is the stated one *)

Lemma rates_as_stated (tier : string) :
  rates_getitem [("small", PyInt 75); ("medium", PyInt 120); ("large", PyInt 180)]
    (PStr tier) = stated_rate tier.
Proof.
  unfold stated_rate. cbn [rates_getitem rate_lookup].
  rewrite !(String.eqb_sym tier).
  repeat match goal with |- context [String.eqb ?a ?b] => destruct (String.eqb a b) end;
    reflexivity.
Qed.

(** The equations of a body that returned, rewritten into the goal one
    operation at a time. *)
Ltac replay :=
  repeat match goal with
         | H : ?e = Ok _ |- context [?e] => rewrite H; cbn [rbind]
         end.

Ltac as_stated staffed volume :=
  match goal with
  | Hm : _ = (_, Ok ?a) |- _ =>
      rewrite Hm in staffed; cbn [snd] in staffed; injection staffed as ->
  end;
  assigned; config_all;
  repeat match goal with
         | H : Ok _ = Ok _ |- _ => injection H as <-
         | H : ([], _) = (_, Ok _) |- _ => injection H as _ H
         end;
  repeat same_value;
  unfold py_add, py_mul, py_truediv in *;
  rewrite ?volume in *; cbn [as_num rbind] in *;
  rewrite rates_as_stated in *;
  unchain; subst; repeat same_value;
  unfold stated_estimate, fee_base, stated_range;
  replay; reflexivity.

Section Stated.
Variable json_loads : string -> result pyval.
Variable response_text : result string.
Variables (inventory : pydict) (distance_km : pynum).
Variables (origin_floor destination_floor : Z).
Variables (has_elevator_origin has_elevator_destination : bool).
Variables (l : locals) (est : cost_estimate).
Variables (ai : pyval) (movers hours : pynum) (tier : string) (notes : pyval).
Variable v : pynum.
Hypothesis answer_movers : py_getitem ai "recommended_movers" = Ok (PNum movers).
Hypothesis answer_tier : py_getitem ai "truck_type" = Ok (PStr tier).
Hypothesis answer_hours :
  py_get ai "complexity_hours_add" (PNum (PyInt 0)) = Ok (PNum hours).
Hypothesis answer_notes : py_get ai "special_notes" (PStr EmptyString) = Ok notes.
Hypothesis volume_is_a_number :
  as_num (dict_get inventory "total_volume_cubic_feet" (PNum (PyInt 500))) = Ok v.

(** An estimate returned for a staffing of numeric movers, a string tier and
    numeric hours is the stated estimate for that staffing. *)
Lemma move_price_as_stated :
  snd (Move.staffing json_loads response_text inventory) = Ok ai ->
  Move.price json_loads response_text inventory distance_km
    origin_floor destination_floor has_elevator_origin has_elevator_destination
    = (l, Ok est) ->
  stated_estimate false movers tier hours notes v distance_km
    (stairs_floors_of origin_floor destination_floor
       has_elevator_origin has_elevator_destination) = Ok est.
Proof.
  intros staffed H.
  pose proof (move_stairs_fee _ _ _ _ _ _ _ _ _ _ H) as Hstairs.
  unfold Move.price in H. body_inv H. subst est.
  cbn [breakdown stairs_fee] in Hstairs. subst.
  as_stated staffed volume_is_a_number.
Qed.

Lemma main_price_as_stated :
  snd (Main.staffing json_loads response_text inventory) = Ok ai ->
  Main.price json_loads response_text inventory distance_km
    origin_floor destination_floor has_elevator_origin has_elevator_destination
    = (l, Ok est) ->
  stated_estimate true movers tier hours notes v distance_km
    (stairs_floors_of origin_floor destination_floor
       has_elevator_origin has_elevator_destination) = Ok est.
Proof.
  intros staffed H.
  pose proof (main_stairs_fee _ _ _ _ _ _ _ _ _ _ H) as Hstairs.
  unfold Main.price in H. body_inv H. subst est.
  cbn [breakdown stairs_fee] in Hstairs. subst.
  as_stated staffed volume_is_a_number.
Qed.

End Stated.

(** ** An estimate is produced on the fallback path, and which one *)

Section FallbackStated.
Variable json_loads : string -> result pyval.
Variable response_text : result string.
Variables (inventory : pydict) (v : pynum) (handling : list pyval).
Variables (distance_km : pynum) (origin_floor destination_floor : Z).
Variables (has_elevator_origin has_elevator_destination : bool).
Variable e : exn.
Hypothesis call_or_parse_fails : parsed json_loads response_text = Raise e.
Hypothesis volume_is_a_number :
  as_num (dict_get inventory "total_volume_cubic_feet" (PNum (PyInt 500))) = Ok v.
Hypothesis volume_in_range : fits v.
Hypothesis handling_is_a_list :
  dict_get inventory "needs_special_handling" (PList []) = PList handling.
Hypothesis handling_size : Z.of_nat (List.length handling) <= sys_maxsize.
Hypothesis distance_in_range : fits distance_km.
Hypothesis stairs_fee_in_range :
  fits (PyInt (stairs_floors_of origin_floor destination_floor
                 has_elevator_origin has_elevator_destination * 25)).

Lemma fallback_as_stated :
  (exists est,
      snd (Move.price json_loads response_text inventory distance_km
             origin_floor destination_floor
             has_elevator_origin has_elevator_destination) = Ok est /\
      stated_estimate false (PyInt (rule_movers v)) (rule_truck v)
        (PyFloat (nearest_float (Z.of_nat (List.length handling)) * 0.5)%float)
        (PStr EmptyString) v distance_km
        (stairs_floors_of origin_floor destination_floor
           has_elevator_origin has_elevator_destination) = Ok est) /\
  (exists est,
      snd (Main.price json_loads response_text inventory distance_km
             origin_floor destination_floor
             has_elevator_origin has_elevator_destination) = Ok est /\
      stated_estimate true (PyInt (rule_movers v)) (rule_truck v)
        (PyFloat (nearest_float (Z.of_nat (List.length handling)) * 0.5)%float)
        (PStr EmptyString) v distance_km
        (stairs_floors_of origin_floor destination_floor
           has_elevator_origin has_elevator_destination) = Ok est).
Proof.
  split.
  - destruct (move_estimate_on_fallback json_loads response_text inventory v handling
                distance_km origin_floor destination_floor
                has_elevator_origin has_elevator_destination e
                call_or_parse_fails volume_is_a_number volume_in_range
                handling_is_a_list handling_size distance_in_range
                stairs_fee_in_range) as (l & est & H & _).
    exists est. split; [now rewrite H|].
    refine (move_price_as_stated json_loads response_text inventory distance_km
              origin_floor destination_floor
              has_elevator_origin has_elevator_destination l est
              (fallback_rule v (List.length handling)) _ _ _ _ v
              _ _ _ _ volume_is_a_number _ H); try reflexivity.
    rewrite (move_staffing_failed _ _ _ _ call_or_parse_fails),
      (move_fallback_rule _ _ _ volume_is_a_number handling_is_a_list handling_size).
    reflexivity.
  - destruct (main_estimate_on_fallback json_loads response_text inventory v handling
                distance_km origin_floor destination_floor
                has_elevator_origin has_elevator_destination e
                call_or_parse_fails volume_is_a_number volume_in_range
                handling_is_a_list handling_size distance_in_range
                stairs_fee_in_range) as (l & est & H & _).
    exists est. split; [now rewrite H|].
    refine (main_price_as_stated json_loads response_text inventory distance_km
              origin_floor destination_floor
              has_elevator_origin has_elevator_destination l est
              (fallback_rule v (List.length handling)) _ _ _ _ v
              _ _ _ _ volume_is_a_number _ H); try reflexivity.
    rewrite (main_staffing_failed _ _ _ _ call_or_parse_fails),
      (main_fallback_rule _ _ _ volume_is_a_number handling_is_a_list handling_size).
    reflexivity.
Qed.

End FallbackStated.




(** X3.  The truck of every estimate either site returns is a row of the rate
    table: truck_type is small, medium or large, and the truck amount of the
    breakdown is 75, 120 or 180 accordingly. *)
Theorem returned_truck_is_a_table_rate
    (json_loads : string -> result pyval) (json_dumps : pyval -> result string)
    (float_repr : float -> string) (generate_content : string -> result string)
    (inventory : pydict) (distance_km : pynum) (origin_floor destination_floor : Z)
    (has_elevator_origin has_elevator_destination : bool) :
  (forall est,
      snd (Move.calculate_cost json_loads json_dumps float_repr generate_content inventory distance_km
             origin_floor destination_floor
             has_elevator_origin has_elevator_destination) = Ok est ->
      truck_from_the_table est) /\
  (forall est,
      snd (Main.calculate_move_cost json_loads json_dumps float_repr generate_content inventory distance_km
             origin_floor destination_floor
             has_elevator_origin has_elevator_destination) = Ok est ->
      truck_from_the_table est).
Proof.
  split; intros est [l H]%snd_Ok.
  - apply move_returned in H as [response_text H].
    exact (move_truck_from_the_table _ _ _ _ _ _ _ _ _ _ H).
  - apply main_returned in H as [response_text H].
    exact (main_truck_from_the_table _ _ _ _ _ _ _ _ _ _ H).
Qed.

(** The worked example: a medium truck at 120. *)
Lemma returned_truck_is_a_table_rate_witness :
  snd (Move.calculate_cost Json.loads_py Json.dumps_py repr_float (answering example_answer)
         (inventory_of [] (PyInt 800) []) (PyInt 45) 3 2 false true)
    = Ok (worked_estimate (PStr "Piano requires extra care and time")) /\
  truck_from_the_table (worked_estimate (PStr "Piano requires extra care and time")).
Proof.
  assert (snd (Move.calculate_cost Json.loads_py Json.dumps_py repr_float (answering example_answer)
                 (inventory_of [] (PyInt 800) []) (PyInt 45) 3 2 false true)
          = Ok (worked_estimate (PStr "Piano requires extra care and time"))) as H
    by (vm_compute; reflexivity).
  split; [exact H|].
  exact (proj1 (returned_truck_is_a_table_rate Json.loads_py Json.dumps_py repr_float (answering example_answer)
                  (inventory_of [] (PyInt 800) []) (PyInt 45) 3 2 false true) _ H).
Defined.

(** X4.  The stairs fee of every estimate either site returns is the int 25 x the
    floors climbed: floor - 1 at each end that has no elevator and lies above
    the first floor, nothing for an end with an elevator or at floor 1 or
    below. *)
Theorem stairs_fee_is_25_per_floor_climbed
    (json_loads : string -> result pyval) (json_dumps : pyval -> result string)
    (float_repr : float -> string) (generate_content : string -> result string)
    (inventory : pydict) (distance_km : pynum) (origin_floor destination_floor : Z)
    (has_elevator_origin has_elevator_destination : bool) :
  (forall est,
      snd (Move.calculate_cost json_loads json_dumps float_repr generate_content inventory distance_km
             origin_floor destination_floor
             has_elevator_origin has_elevator_destination) = Ok est ->
      stairs_fee (breakdown est)
      = PyInt (stairs_floors_of origin_floor destination_floor
                 has_elevator_origin has_elevator_destination * 25)) /\
  (forall est,
      snd (Main.calculate_move_cost json_loads json_dumps float_repr generate_content inventory distance_km
             origin_floor destination_floor
             has_elevator_origin has_elevator_destination) = Ok est ->
      stairs_fee (breakdown est)
      = PyInt (stairs_floors_of origin_floor destination_floor
                 has_elevator_origin has_elevator_destination * 25)).
Proof.
  split; intros est [l H]%snd_Ok.
  - apply move_returned in H as [response_text H].
    exact (move_stairs_fee _ _ _ _ _ _ _ _ _ _ H).
  - apply main_returned in H as [response_text H].
    exact (main_stairs_fee _ _ _ _ _ _ _ _ _ _ H).
Qed.

(** From the seventh floor to a basement, no elevator at either end: six
    floors are charged, none for the basement. *)
Lemma stairs_fee_is_25_per_floor_climbed_witness :
  exists est,
    snd (Main.calculate_move_cost Json.loads_py Json.dumps_py repr_float (answering example_answer)
           (inventory_of [] (PyInt 800) []) (PyInt 45) 7 (-1) false false) = Ok est /\
    stairs_fee (breakdown est) = PyInt 150.
Proof.
  eexists. split; [vm_compute; reflexivity|].
  apply (proj2 (stairs_fee_is_25_per_floor_climbed Json.loads_py Json.dumps_py repr_float (answering example_answer)
                  (inventory_of [] (PyInt 800) []) (PyInt 45) 7 (-1) false false)).
  vm_compute. reflexivity.
Defined.

(** X5.  In every estimate either site returns, total_cost, both ends of
    cost_range, estimated_hours, labor, fuel, materials and other are floats,
    whatever the types of the volume, the distance and the answer's numbers. *)
Theorem returned_amounts_are_floats
    (json_loads : string -> result pyval) (json_dumps : pyval -> result string)
    (float_repr : float -> string) (generate_content : string -> result string)
    (inventory : pydict) (distance_km : pynum) (origin_floor destination_floor : Z)
    (has_elevator_origin has_elevator_destination : bool) :
  (forall est,
      snd (Move.calculate_cost json_loads json_dumps float_repr generate_content inventory distance_km
             origin_floor destination_floor
             has_elevator_origin has_elevator_destination) = Ok est ->
      amounts_are_floats est) /\
  (forall est,
      snd (Main.calculate_move_cost json_loads json_dumps float_repr generate_content inventory distance_km
             origin_floor destination_floor
             has_elevator_origin has_elevator_destination) = Ok est ->
      amounts_are_floats est).
Proof.
  split; intros est [l H]%snd_Ok.
  - apply move_returned in H as [response_text H].
    exact (move_amounts_are_floats _ _ _ _ _ _ _ _ _ _ H).
  - apply main_returned in H as [response_text H].
    exact (main_amounts_are_floats _ _ _ _ _ _ _ _ _ _ H).
Qed.

(** All-int inputs: an int volume, an int distance and the fallback's int
    movers still give float amounts. *)
Lemma returned_amounts_are_floats_witness :
  exists est,
    snd (Move.calculate_cost Json.loads_py Json.dumps_py repr_float service_down
           (inventory_of [] (PyInt 800) []) (PyInt 45) 3 2 false true) = Ok est /\
    amounts_are_floats est.
Proof.
  eexists. split; [vm_compute; reflexivity|].
  apply (proj1 (returned_amounts_are_floats Json.loads_py Json.dumps_py repr_float service_down
                  (inventory_of [] (PyInt 800) []) (PyInt 45) 3 2 false true)).
  vm_compute. reflexivity.
Defined.

(** ** The two sites side by side *)

Lemma agree_bind {A : Type} (m : M A) (k1 k2 : A -> M cost_estimate) :
  (forall l a, m = (l, Ok a) -> agree (snd (k1 a)) (snd (k2 a))) ->
  agree (snd (mbind m k1)) (snd (mbind m k2)).
Proof.
  intros H. destruct m as [l [a|e]].
  - rewrite !snd_mbind_Ok. now apply (H l).
  - reflexivity.
Qed.

Lemma snd_mbind_assign_num_Ok {B : Type} (x : string) (n : pynum) (k : pynum -> M B) :
  snd (mbind (assign_num x (Ok n)) k) = snd (k n).
Proof. apply snd_mbind_Ok. Qed.

Lemma num_add_float_any (f : float) (b : pynum) :
  num_add (PyFloat f) b = (y <-! to_float b ;; Ok (PyFloat (f + y)%float)).
Proof. reflexivity. Qed.

(** The same statement at both sites: either it raises at both, or both go
    on with the value it bound. *)
Ltac lockstep :=
  apply agree_bind;
  let l := fresh "l" in
  let a := fresh "a" in
  let H := fresh "Hs" in
  intros l a H.

(** An operand of unknown type added to a float: it converts at both sites,
    or both sites raise. *)
Ltac add_any :=
  rewrite !num_add_float_any;
  match goal with
  | |- context [to_float ?b] =>
      destruct (to_float b) as [?y|?e]; cbn [rbind]; [|reflexivity]
  end.

(** The two sites on the same answer. *)
Lemma sites_agree_after_the_prompt
    (json_loads : string -> result pyval) (response_text : result string)
    (inventory : pydict) (distance_km : pynum) (origin_floor destination_floor : Z)
    (has_elevator_origin has_elevator_destination : bool) :
  agree
    (snd (Move.price json_loads response_text inventory distance_km
            origin_floor destination_floor has_elevator_origin has_elevator_destination))
    (snd (Main.price json_loads response_text inventory distance_km
            origin_floor destination_floor has_elevator_origin has_elevator_destination)).
Proof.
  unfold Move.price, Main.price.
  change (Main.staffing json_loads response_text inventory)
    with (Move.staffing json_loads response_text inventory).
  config.
  do 11 lockstep.
  assert (is_float a7) as [L ->].
  { clear -Hs3 Hs4 Hs6 Hs7. assigned. unchain. subst. eauto 10 with floats. }
  assert (is_float a9) as [F ->].
  { clear -Hs9. assigned. unchain. subst. eauto 10 with floats. }
  assert (exists r, a8 = PyInt r /\ fits (PyInt r)) as (r & -> & Fr).
  { clear -Hs8. assigned. eauto using rate_is_a_small_int. }
  clear - Fr.
  destruct (num_add_float_r (PyInt r) F Fr) as [T ->].
  rewrite (snd_mbind_assign_num_Ok "truck_total").
  do 5 lockstep.
  repeat float_step. cbn [num_round]. rewrite !snd_mbind_assign_num_Ok.
  do 2 add_any. repeat float_step. cbn [num_round].
  rewrite !snd_mbind_assign_num_Ok.
  repeat float_step. cbn [num_round]. rewrite !snd_mbind_assign_num_Ok.
  lockstep.
  cbn [mret snd agree same_but_fees movers_needed truck_type estimated_hours
       breakdown labor truck fuel materials stairs_fee special_notes].
  repeat split.
Qed.

(** X6.  On the same inputs and the same service the two sites raise the same
    exception or both return, and the two estimates have the same movers,
    truck type, hours, labor, truck, fuel, materials, stairs fee and notes;
    only other, total_cost and cost_range, which depend on how labor + truck +
    fuel is grouped, can differ. *)
Theorem both_sites_agree_up_to_the_fee_grouping
    (json_loads : string -> result pyval) (json_dumps : pyval -> result string)
    (float_repr : float -> string) (generate_content : string -> result string)
    (inventory : pydict) (distance_km : pynum) (origin_floor destination_floor : Z)
    (has_elevator_origin has_elevator_destination : bool) :
  agree
    (snd (Move.calculate_cost json_loads json_dumps float_repr generate_content inventory distance_km
            origin_floor destination_floor has_elevator_origin has_elevator_destination))
    (snd (Main.calculate_move_cost json_loads json_dumps float_repr generate_content inventory distance_km
            origin_floor destination_floor has_elevator_origin has_elevator_destination)).
Proof.
  destruct (cost_prompt json_dumps float_repr (PDict inventory) distance_km
              origin_floor destination_floor
              has_elevator_origin has_elevator_destination) as [prompt|e] eqn:Hp.
  - destruct (prompted json_loads _ _ generate_content _ _ _ _ _ _ prompt Hp)
      as [-> ->].
    apply sites_agree_after_the_prompt.
  - destruct (unprompted json_loads _ _ generate_content _ _ _ _ _ _ e Hp)
      as [-> ->].
    reflexivity.
Qed.



(** ** Answers and inventories of the wrong type *)

Lemma getitem_not_an_object (v : pyval) (k : string) :
  not_an_object v -> py_getitem v k = Raise TypeError.
Proof. destruct v; cbn; intros H; (reflexivity || contradiction). Qed.

(** A parsed answer that is not an object. *)
Lemma not_an_object_after_the_prompt
    (json_loads : string -> result pyval) (response_text : result string)
    (inventory : pydict) (distance_km : pynum) (origin_floor destination_floor : Z)
    (has_elevator_origin has_elevator_destination : bool) (ai : pyval) :
  parsed json_loads response_text = Ok ai ->
  not_an_object ai ->
  Move.price json_loads response_text inventory distance_km
    origin_floor destination_floor has_elevator_origin has_elevator_destination
  = ([("ai_estimate", ai);
      ("volume", dict_get inventory "total_volume_cubic_feet" (PNum (PyInt 500)))],
     Raise TypeError) /\
  Main.price json_loads response_text inventory distance_km
    origin_floor destination_floor has_elevator_origin has_elevator_destination
  = ([("ai_estimate", ai);
      ("volume", dict_get inventory "total_volume_cubic_feet" (PNum (PyInt 500)))],
     Raise TypeError).
Proof.
  intros Hp Hai.
  unfold Move.price, Main.price.
  rewrite (move_staffing_parsed _ _ _ _ Hp), (main_staffing_parsed _ _ _ _ Hp).
  cbn [mbind assign]. rewrite (getitem_not_an_object _ _ Hai).
  split; reflexivity.
Qed.

(** X7.  An answer that parses as JSON but is not an object (a list, a string, a
    number, true, false or null) is not replaced by the fallback: both sites
    raise TypeError at the first subscript of the answer, once ai_estimate and
    volume are bound and before any amount is computed. *)
Theorem answer_that_is_not_an_object_raises_TypeError
    (json_loads : string -> result pyval) (json_dumps : pyval -> result string)
    (float_repr : float -> string) (generate_content : string -> result string)
    (inventory : pydict) (distance_km : pynum) (origin_floor destination_floor : Z)
    (has_elevator_origin has_elevator_destination : bool) (ai : pyval) :
  inference json_loads json_dumps float_repr generate_content inventory distance_km
    origin_floor destination_floor has_elevator_origin has_elevator_destination
    = Ok (Ok ai) ->
  not_an_object ai ->
  Move.calculate_cost json_loads json_dumps float_repr generate_content inventory distance_km
    origin_floor destination_floor has_elevator_origin has_elevator_destination
  = ([("ai_estimate", ai);
      ("volume", dict_get inventory "total_volume_cubic_feet" (PNum (PyInt 500)))],
     Raise TypeError) /\
  Main.calculate_move_cost json_loads json_dumps float_repr generate_content inventory distance_km
    origin_floor destination_floor has_elevator_origin has_elevator_destination
  = ([("ai_estimate", ai);
      ("volume", dict_get inventory "total_volume_cubic_feet" (PNum (PyInt 500)))],
     Raise TypeError).
Proof.
  intros (response_text & Hp & -> & ->)%inferred Hai.
  exact (not_an_object_after_the_prompt _ _ _ _ _ _ _ _ _ Hp Hai).
Qed.

(** The answer [[3, 4]]. *)
Lemma answer_that_is_not_an_object_raises_TypeError_witness :
  snd (Move.calculate_cost Json.loads_py Json.dumps_py repr_float (answering "[3, 4]")
         (inventory_of [] (PyInt 800) []) (PyInt 45) 3 2 false true)
    = Raise TypeError /\
  snd (Main.calculate_move_cost Json.loads_py Json.dumps_py repr_float (answering "[3, 4]")
         (inventory_of [] (PyInt 800) []) (PyInt 45) 3 2 false true)
    = Raise TypeError.
Proof.
  destruct (answer_that_is_not_an_object_raises_TypeError Json.loads_py Json.dumps_py repr_float (answering "[3, 4]")
              (inventory_of [] (PyInt 800) []) (PyInt 45) 3 2 false true
              (PList [PNum (PyInt 3); PNum (PyInt 4)])) as [H1 H2].
  - vm_compute. reflexivity.
  - exact I.
  - rewrite H1, H2. split; reflexivity.
Defined.

Section NonNumericVolume.
Variable json_loads : string -> result pyval.
Variable response_text : result string.
Variables (inventory : pydict) (distance_km : pynum).
Variables (origin_floor destination_floor : Z).
Variables (has_elevator_origin has_elevator_destination : bool).
Hypothesis volume_is_no_number :
  as_num (dict_get inventory "total_volume_cubic_feet" (PNum (PyInt 500)))
  = Raise TypeError.

Lemma move_never_prices_a_non_numeric_volume :
  exists e,
    snd (Move.price json_loads response_text inventory distance_km
           origin_floor destination_floor has_elevator_origin has_elevator_destination)
    = Raise e.
Proof.
  destruct (Move.price json_loads response_text inventory distance_km
              origin_floor destination_floor has_elevator_origin has_elevator_destination)
    as [l [est|e]] eqn:H; [exfalso | now exists e].
  unfold Move.price in H. body_inv H.
  match goal with
  | H : assign_num "volume_hours" _ = _ |- _ =>
      apply assign_num_Ok in H; destruct H as [H _];
      apply assign_Ok in Hm0; destruct Hm0 as [Hm0 _]; injection Hm0 as <-;
      unfold py_truediv in H; rewrite volume_is_no_number in H; discriminate H
  end.
Qed.

Lemma main_never_prices_a_non_numeric_volume :
  exists e,
    snd (Main.price json_loads response_text inventory distance_km
           origin_floor destination_floor has_elevator_origin has_elevator_destination)
    = Raise e.
Proof.
  destruct (Main.price json_loads response_text inventory distance_km
              origin_floor destination_floor has_elevator_origin has_elevator_destination)
    as [l [est|e]] eqn:H; [exfalso | now exists e].
  unfold Main.price in H. body_inv H.
  match goal with
  | H : assign_num "volume_hours" _ = _ |- _ =>
      apply assign_num_Ok in H; destruct H as [H _];
      apply assign_Ok in Hm0; destruct Hm0 as [Hm0 _]; injection Hm0 as <-;
      unfold py_truediv in H; rewrite volume_is_no_number in H; discriminate H
  end.
Qed.

Lemma fallback_raises_on_a_non_numeric_volume (e : exn) :
  parsed json_loads response_text = Raise e ->
  snd (Move.price json_loads response_text inventory distance_km
         origin_floor destination_floor has_elevator_origin has_elevator_destination)
    = Raise TypeError /\
  snd (Main.price json_loads response_text inventory distance_km
         origin_floor destination_floor has_elevator_origin has_elevator_destination)
    = Raise TypeError.
Proof.
  intros Hp. unfold Move.price, Main.price.
  rewrite (move_staffing_failed _ _ _ _ Hp), (main_staffing_failed _ _ _ _ Hp).
  unfold Move.fallback, Main.fallback. cbn [mbind assign].
  unfold py_lt. rewrite volume_is_no_number. split; reflexivity.
Qed.

End NonNumericVolume.

(** X8.  An inventory whose total_volume_cubic_feet is present but neither a
    number nor a bool (a string, null, a list, an object) is never priced:
    both sites raise whatever the answer is, and when the call or the parse
    fails the fallback itself raises TypeError, so the failure of the inference
    is not absorbed. *)
Theorem non_numeric_volume_is_never_priced
    (json_loads : string -> result pyval) (json_dumps : pyval -> result string)
    (float_repr : float -> string) (generate_content : string -> result string)
    (inventory : pydict) (distance_km : pynum) (origin_floor destination_floor : Z)
    (has_elevator_origin has_elevator_destination : bool) :
  as_num (dict_get inventory "total_volume_cubic_feet" (PNum (PyInt 500)))
    = Raise TypeError ->
  (exists e,
      snd (Move.calculate_cost json_loads json_dumps float_repr generate_content inventory distance_km
             origin_floor destination_floor
             has_elevator_origin has_elevator_destination) = Raise e) /\
  (exists e,
      snd (Main.calculate_move_cost json_loads json_dumps float_repr generate_content inventory distance_km
             origin_floor destination_floor
             has_elevator_origin has_elevator_destination) = Raise e) /\
  (forall e,
      inference json_loads json_dumps float_repr generate_content inventory distance_km
    origin_floor destination_floor has_elevator_origin has_elevator_destination
    = Ok (Raise e) ->
      snd (Move.calculate_cost json_loads json_dumps float_repr generate_content inventory distance_km
             origin_floor destination_floor
             has_elevator_origin has_elevator_destination) = Raise TypeError /\
      snd (Main.calculate_move_cost json_loads json_dumps float_repr generate_content inventory distance_km
             origin_floor destination_floor
             has_elevator_origin has_elevator_destination) = Raise TypeError).
Proof.
  intros Hv.
  assert (forall e,
             inference json_loads json_dumps float_repr generate_content
               inventory distance_km origin_floor destination_floor
               has_elevator_origin has_elevator_destination = Ok (Raise e) ->
             snd (Move.calculate_cost json_loads json_dumps float_repr generate_content
                    inventory distance_km origin_floor destination_floor
                    has_elevator_origin has_elevator_destination) = Raise TypeError /\
             snd (Main.calculate_move_cost json_loads json_dumps float_repr
                    generate_content inventory distance_km
                    origin_floor destination_floor
                    has_elevator_origin has_elevator_destination) = Raise TypeError)
    as Hfallback.
  { intros e (response_text & Hp & -> & ->)%inferred.
    exact (fallback_raises_on_a_non_numeric_volume _ _ _ _ _ _ _ _ Hv e Hp). }
  destruct (cost_prompt json_dumps float_repr (PDict inventory) distance_km
              origin_floor destination_floor
              has_elevator_origin has_elevator_destination) as [prompt|e] eqn:Hp.
  - destruct (prompted json_loads _ _ generate_content _ _ _ _ _ _ prompt Hp)
      as [Hmove Hmain].
    split; [|split; [|exact Hfallback]].
    + rewrite Hmove. exact (move_never_prices_a_non_numeric_volume _ _ _ _ _ _ _ _ Hv).
    + rewrite Hmain. exact (main_never_prices_a_non_numeric_volume _ _ _ _ _ _ _ _ Hv).
  - destruct (unprompted json_loads _ _ generate_content _ _ _ _ _ _ e Hp)
      as [Hmove Hmain].
    split; [|split; [|exact Hfallback]].
    + rewrite Hmove. now exists e.
    + rewrite Hmain. now exists e.
Qed.

(** The volume as the string 800, after a call that raised. *)
Lemma non_numeric_volume_is_never_priced_witness :
  snd (Move.calculate_cost Json.loads_py Json.dumps_py repr_float service_down
         [("total_volume_cubic_feet", PStr "800")] (PyInt 45) 3 2 false true)
    = Raise TypeError /\
  snd (Main.calculate_move_cost Json.loads_py Json.dumps_py repr_float service_down
         [("total_volume_cubic_feet", PStr "800")] (PyInt 45) 3 2 false true)
    = Raise TypeError.
Proof.
  refine (proj2 (proj2 (non_numeric_volume_is_never_priced Json.loads_py Json.dumps_py repr_float service_down [("total_volume_cubic_feet", PStr "800")]
                          (PyInt 45) 3 2 false true _)) ServiceError _).
  - reflexivity.
  - reflexivity.
Defined.

(** ** An estimate for every well-formed answer *)

Lemma known_tier_rate (tier : string) :
  tier = "small" \/ tier = "medium" \/ tier = "large" ->
  exists r, rate_lookup (truck_rates Move.PRICING_CONFIG) tier = Some (PyInt r)
            /\ rate_lookup (truck_rates Main.PRICING_CONFIG) tier = Some (PyInt r)
            /\ fits (PyInt r).
Proof.
  intros [-> | [-> | ->]]; eexists; (split; [reflexivity|]; split; [reflexivity|]);
    apply fits_small; vm_compute; discriminate.
Qed.

Section WellFormedAnswer.
Variable json_loads : string -> result pyval.
Variable response_text : result string.
Variables (inventory : pydict) (v : pynum).
Variables (distance_km : pynum) (origin_floor destination_floor : Z).
Variables (has_elevator_origin has_elevator_destination : bool).
Variables (ai : pyval) (movers hours : pynum) (tier : string) (notes : pyval).
Hypothesis answer_parses : parsed json_loads response_text = Ok ai.
Hypothesis answer_movers : py_getitem ai "recommended_movers" = Ok (PNum movers).
Hypothesis movers_in_range : fits movers.
Hypothesis answer_tier : py_getitem ai "truck_type" = Ok (PStr tier).
Hypothesis tier_is_known : tier = "small" \/ tier = "medium" \/ tier = "large".
Hypothesis answer_hours :
  py_get ai "complexity_hours_add" (PNum (PyInt 0)) = Ok (PNum hours).
Hypothesis hours_in_range : fits hours.
Hypothesis answer_notes : py_get ai "special_notes" (PStr EmptyString) = Ok notes.
Hypothesis volume_is_a_number :
  as_num (dict_get inventory "total_volume_cubic_feet" (PNum (PyInt 500))) = Ok v.
Hypothesis volume_in_range : fits v.
Hypothesis distance_in_range : fits distance_km.
Hypothesis stairs_fee_in_range :
  fits (PyInt (stairs_floors_of origin_floor destination_floor
                 has_elevator_origin has_elevator_destination * 25)).

Lemma move_estimate_for_answer :
  returns (Move.price json_loads response_text inventory distance_km
             origin_floor destination_floor
             has_elevator_origin has_elevator_destination)
    (staffed_as_answered movers tier notes).
Proof.
  unfold Move.price.
  eapply returns_bind; [exact (move_staffing_parsed _ _ _ _ answer_parses)|].
  eapply returns_assign; [reflexivity|].
  eapply returns_assign; [exact answer_movers|].
  eapply returns_assign; [exact answer_tier|].
  bind_num idtac.
  destruct (num_truediv_100 v volume_in_range) as [q Hq].
  bind_num ltac:(unfold py_truediv; rewrite volume_is_a_number;
                 cbn [rbind as_num]; rewrite Hq; arith).
  eapply returns_assign; [exact answer_hours|].
  bind_num arith.
  destruct (known_tier_rate tier tier_is_known) as (r & Hr & _ & Fr).
  cbn [truck_rates Move.PRICING_CONFIG] in Hr.
  bind_num arith.
  bind_num ltac:(unfold rates_getitem; rewrite Hr).
  bind_num arith.
  bind_num idtac.
  pose proof stairs_fee_in_range as Fs. unfold stairs_floors_of in Fs.
  destruct (negb has_elevator_origin && (1 <? origin_floor)),
           (negb has_elevator_destination && (1 <? destination_floor));
    (do 2 bind_stairs);
    bind_num config;
    bind_num ltac:(unfold py_mul; rewrite volume_is_a_number; arith);
    (do 4 bind_num arith);
    (eapply returns_bind; [rewrite answer_notes; reflexivity|]);
    apply returns_mret; unfold staffed_as_answered; cbn; auto.
Qed.

Lemma main_estimate_for_answer :
  returns (Main.price json_loads response_text inventory distance_km
             origin_floor destination_floor
             has_elevator_origin has_elevator_destination)
    (staffed_as_answered movers tier notes).
Proof.
  unfold Main.price.
  eapply returns_bind; [exact (main_staffing_parsed _ _ _ _ answer_parses)|].
  eapply returns_assign; [reflexivity|].
  eapply returns_assign; [exact answer_movers|].
  eapply returns_assign; [exact answer_tier|].
  bind_num idtac.
  destruct (num_truediv_100 v volume_in_range) as [q Hq].
  bind_num ltac:(unfold py_truediv; rewrite volume_is_a_number;
                 cbn [rbind as_num]; rewrite Hq; arith).
  eapply returns_assign; [exact answer_hours|].
  bind_num arith.
  destruct (known_tier_rate tier tier_is_known) as (r & _ & Hr & Fr).
  cbn [truck_rates Main.PRICING_CONFIG] in Hr.
  bind_num arith.
  bind_num ltac:(unfold rates_getitem; rewrite Hr).
  bind_num arith.
  bind_num arith.
  bind_num idtac.
  pose proof stairs_fee_in_range as Fs. unfold stairs_floors_of in Fs.
  destruct (negb has_elevator_origin && (1 <? origin_floor)),
           (negb has_elevator_destination && (1 <? destination_floor));
    (do 2 bind_stairs);
    bind_num config;
    bind_num ltac:(unfold py_mul; rewrite volume_is_a_number; arith);
    (do 4 bind_num arith);
    (eapply returns_bind; [rewrite answer_notes; reflexivity|]);
    apply returns_mret; unfold staffed_as_answered; cbn; auto.
Qed.

Lemma answer_as_stated :
  (exists est,
      snd (Move.price json_loads response_text inventory distance_km
             origin_floor destination_floor
             has_elevator_origin has_elevator_destination) = Ok est /\
      stated_estimate false movers tier hours notes v distance_km
        (stairs_floors_of origin_floor destination_floor
           has_elevator_origin has_elevator_destination) = Ok est) /\
  (exists est,
      snd (Main.price json_loads response_text inventory distance_km
             origin_floor destination_floor
             has_elevator_origin has_elevator_destination) = Ok est /\
      stated_estimate true movers tier hours notes v distance_km
        (stairs_floors_of origin_floor destination_floor
           has_elevator_origin has_elevator_destination) = Ok est).
Proof.
  split.
  - destruct move_estimate_for_answer as (l & est & H & _).
    exists est. split; [now rewrite H|].
    refine (move_price_as_stated json_loads response_text inventory distance_km
              origin_floor destination_floor
              has_elevator_origin has_elevator_destination l est
              ai movers hours tier notes v
              answer_movers answer_tier answer_hours answer_notes
              volume_is_a_number _ H).
    now rewrite (move_staffing_parsed _ _ _ _ answer_parses).
  - destruct main_estimate_for_answer as (l & est & H & _).
    exists est. split; [now rewrite H|].
    refine (main_price_as_stated json_loads response_text inventory distance_km
              origin_floor destination_floor
              has_elevator_origin has_elevator_destination l est
              ai movers hours tier notes v
              answer_movers answer_tier answer_hours answer_notes
              volume_is_a_number _ H).
    now rewrite (main_staffing_parsed _ _ _ _ answer_parses).
Qed.

End WellFormedAnswer.

(** X9.  Both sites return an estimate whenever the prompt is built and its
    answer parses to a value whose recommended_movers is a number, whose
    truck_type is small, medium or large and whose complexity_hours_add is a
    number or absent, the volume of the inventory is a number or absent, and
    every int involved is within the float range; the estimate is the stated
    one for the answer's movers, truck type, hours and notes.  The movers
    need not lie in the 2-6 the prompt asks for, nor be an int. *)
Theorem estimate_is_produced_for_a_well_formed_answer
    (json_loads : string -> result pyval) (json_dumps : pyval -> result string)
    (float_repr : float -> string) (generate_content : string -> result string)
    (inventory : pydict) (v : pynum)
    (distance_km : pynum) (origin_floor destination_floor : Z)
    (has_elevator_origin has_elevator_destination : bool)
    (ai : pyval) (movers hours : pynum) (tier : string) (notes : pyval) :
  inference json_loads json_dumps float_repr generate_content inventory distance_km
    origin_floor destination_floor has_elevator_origin has_elevator_destination
    = Ok (Ok ai) ->
  py_getitem ai "recommended_movers" = Ok (PNum movers) ->
  fits movers ->
  py_getitem ai "truck_type" = Ok (PStr tier) ->
  tier = "small" \/ tier = "medium" \/ tier = "large" ->
  py_get ai "complexity_hours_add" (PNum (PyInt 0)) = Ok (PNum hours) ->
  fits hours ->
  py_get ai "special_notes" (PStr EmptyString) = Ok notes ->
  as_num (dict_get inventory "total_volume_cubic_feet" (PNum (PyInt 500))) = Ok v ->
  fits v ->
  fits distance_km ->
  fits (PyInt (stairs_floors_of origin_floor destination_floor
                 has_elevator_origin has_elevator_destination * 25)) ->
  let as_answered grouped :=
    stated_estimate grouped movers tier hours notes v distance_km
      (stairs_floors_of origin_floor destination_floor
         has_elevator_origin has_elevator_destination) in
  (exists est,
      snd (Move.calculate_cost json_loads json_dumps float_repr generate_content
             inventory distance_km origin_floor destination_floor
             has_elevator_origin has_elevator_destination) = Ok est /\
      as_answered false = Ok est) /\
  (exists est,
      snd (Main.calculate_move_cost json_loads json_dumps float_repr generate_content
             inventory distance_km origin_floor destination_floor
             has_elevator_origin has_elevator_destination) = Ok est /\
      as_answered true = Ok est).
Proof.
  intros (response_text & Hp & -> & ->)%inferred Hm Fm Ht Hk Hh Fh Hn Hv Fv Fd Fs
    as_answered.
  subst as_answered. cbv beta.
  exact (answer_as_stated _ _ _ _ _ _ _ _ _ _ _ _ _ _
           Hp Hm Fm Ht Hk Hh Fh Hn Hv Fv Fd Fs).
Qed.

(** An answer asking for two and a half movers and no complexity hours. *)
Lemma estimate_is_produced_for_a_well_formed_answer_witness :
  let answer :=
    Json.dumps (Json.Object [("recommended_movers", Json.Number "2.5");
                             ("truck_type", Json.Str "large")]) in
  exists est,
    snd (Move.calculate_cost Json.loads_py Json.dumps_py repr_float (answering answer)
           (inventory_of [] (PyInt 800) []) (PyInt 45) 3 2 false true) = Ok est /\
    stated_estimate false (PyFloat 2.5) "large" (PyInt 0) (PStr EmptyString)
      (PyInt 800) (PyInt 45) 2 = Ok est.
Proof.
  intros answer.
  refine (proj1 (estimate_is_produced_for_a_well_formed_answer Json.loads_py
                   Json.dumps_py repr_float (answering answer)
                   (inventory_of [] (PyInt 800) []) (PyInt 800) (PyInt 45)
                   3 2 false true
                   (PDict [("recommended_movers", PNum (PyFloat 2.5));
                           ("truck_type", PStr "large")])
                   (PyFloat 2.5) (PyInt 0) "large" (PStr EmptyString)
                   _ _ _ _ _ _ _ _ _ _ _ _)).
  - vm_compute. reflexivity.
  - reflexivity.
  - exact I.
  - reflexivity.
  - right. right. reflexivity.
  - reflexivity.
  - reflexivity.
  - reflexivity.
  - reflexivity.
  - reflexivity.
  - reflexivity.
  - reflexivity.
Defined.

(** ** What the pricing reads of the inventory *)

(** Two inventories priced from the same answer. *)
Lemma price_reads_volume_and_handling
    (json_loads : string -> result pyval) (response_text : result string)
    (inventory inventory' : pydict) (distance_km : pynum)
    (origin_floor destination_floor : Z)
    (has_elevator_origin has_elevator_destination : bool) :
  dict_get inventory "total_volume_cubic_feet" (PNum (PyInt 500))
    = dict_get inventory' "total_volume_cubic_feet" (PNum (PyInt 500)) ->
  (dict_get inventory "needs_special_handling" (PList [])
     = dict_get inventory' "needs_special_handling" (PList []) \/
   exists ai, parsed json_loads response_text = Ok ai) ->
  Move.price json_loads response_text inventory distance_km
    origin_floor destination_floor has_elevator_origin has_elevator_destination
  = Move.price json_loads response_text inventory' distance_km
      origin_floor destination_floor has_elevator_origin has_elevator_destination /\
  Main.price json_loads response_text inventory distance_km
    origin_floor destination_floor has_elevator_origin has_elevator_destination
  = Main.price json_loads response_text inventory' distance_km
      origin_floor destination_floor has_elevator_origin has_elevator_destination.
Proof.
  intros Hv [Hh | [ai Hp]]; unfold Move.price, Main.price.
  - unfold Move.staffing, Main.staffing, Move.fallback, Main.fallback.
    rewrite Hv, Hh. split; reflexivity.
  - rewrite !(move_staffing_parsed _ _ _ _ Hp), ?(main_staffing_parsed _ _ _ _ Hp), Hv.
    split; reflexivity.
Qed.


(** X20.  Past its prompt, the pricing reads the inventory through two
    lookups only.  Take two inventories with the same
    total_volume_cubic_feet (or both without one) whose prompts were built
    and got the same parsed answer, or failed alike: they are priced alike,
    step for step, when they also have the same needs_special_handling or
    when the answer parses, in which case needs_special_handling is not read
    at all.  The items enter the price through the prompt alone, that is,
    through what the service makes of them. *)
Theorem pricing_reads_only_volume_and_handling
    (json_loads : string -> result pyval) (json_dumps : pyval -> result string)
    (float_repr : float -> string)
    (generate_content generate_content' : string -> result string)
    (inventory inventory' : pydict) (distance_km : pynum)
    (origin_floor destination_floor : Z)
    (has_elevator_origin has_elevator_destination : bool) (r : result pyval) :
  inference json_loads json_dumps float_repr generate_content inventory distance_km
    origin_floor destination_floor has_elevator_origin has_elevator_destination
    = Ok r ->
  inference json_loads json_dumps float_repr generate_content' inventory' distance_km
    origin_floor destination_floor has_elevator_origin has_elevator_destination
    = Ok r ->
  dict_get inventory "total_volume_cubic_feet" (PNum (PyInt 500))
    = dict_get inventory' "total_volume_cubic_feet" (PNum (PyInt 500)) ->
  (dict_get inventory "needs_special_handling" (PList [])
     = dict_get inventory' "needs_special_handling" (PList []) \/
   exists ai, r = Ok ai) ->
  Move.calculate_cost json_loads json_dumps float_repr generate_content
    inventory distance_km
    origin_floor destination_floor has_elevator_origin has_elevator_destination
  = Move.calculate_cost json_loads json_dumps float_repr generate_content'
      inventory' distance_km
      origin_floor destination_floor has_elevator_origin has_elevator_destination /\
  Main.calculate_move_cost json_loads json_dumps float_repr generate_content
    inventory distance_km
    origin_floor destination_floor has_elevator_origin has_elevator_destination
  = Main.calculate_move_cost json_loads json_dumps float_repr generate_content'
      inventory' distance_km
      origin_floor destination_floor has_elevator_origin has_elevator_destination.
Proof.
  intros (response_text & Hp & -> & ->)%inferred
         (response_text' & Hp' & -> & ->)%inferred Hv Hh.
  rewrite <- Hp in Hp'.
  destruct (price_reads_the_parse _ _ _ _ inventory' distance_km
              origin_floor destination_floor
              has_elevator_origin has_elevator_destination Hp') as [-> ->].
  apply price_reads_volume_and_handling; [exact Hv|].
  destruct Hh as [Hh | [ai ->]]; [now left | right; eauto].
Qed.

(** An empty flat and a flat with three items, both of 800 cubic feet with a
    piano to handle, while the inference service is down. *)
Lemma pricing_reads_only_volume_and_handling_witness :
  Move.calculate_cost Json.loads_py Json.dumps_py repr_float service_down
    (inventory_of [] (PyInt 800) [PStr "piano"]) (PyInt 45) 3 2 false true
  = Move.calculate_cost Json.loads_py Json.dumps_py repr_float service_down
      (inventory_of [PStr "sofa"; PStr "piano"; PStr "fridge"] (PyInt 800) [PStr "piano"])
      (PyInt 45) 3 2 false true.
Proof.
  refine (proj1 (pricing_reads_only_volume_and_handling Json.loads_py Json.dumps_py
                   repr_float service_down service_down
                   (inventory_of [] (PyInt 800) [PStr "piano"])
                   (inventory_of [PStr "sofa"; PStr "piano"; PStr "fridge"] (PyInt 800)
                      [PStr "piano"])
                   (PyInt 45) 3 2 false true (Raise ServiceError) _ _ _ _)).
  - vm_compute. reflexivity.
  - vm_compute. reflexivity.
  - reflexivity.
  - left. reflexivity.
Defined.

Lemma py_len_nonneg (v : pyval) (n : Z) : py_len v = Ok n -> 0 <= n.
Proof. destruct v; cbn [py_len]; intros [= <-] || discriminate; lia. Qed.

Section FallbackLength.
Variable json_loads : string -> result pyval.
Variable response_text : result string.
Variables (inventory : pydict) (v : pynum) (e : exn).
Hypothesis call_or_parse_fails : parsed json_loads response_text = Raise e.
Hypothesis volume_is_a_number :
  as_num (dict_get inventory "total_volume_cubic_feet" (PNum (PyInt 500))) = Ok v.

Lemma fallback_with_a_length (n : Z) :
  py_len (dict_get inventory "needs_special_handling" (PList [])) = Ok n ->
  n <= sys_maxsize ->
  snd (Move.staffing json_loads response_text inventory)
    = Ok (staffing_of (rule_movers v) (rule_truck v)
            (PyFloat (nearest_float n * 0.5)%float) (PStr EmptyString)) /\
  snd (Main.staffing json_loads response_text inventory)
    = Ok (staffing_of (rule_movers v) (rule_truck v)
            (PyFloat (nearest_float n * 0.5)%float) (PStr EmptyString)).
Proof.
  intros Hlen Hn. pose proof (py_len_nonneg _ _ Hlen) as Hpos.
  rewrite (move_staffing_failed _ _ _ _ call_or_parse_fails),
    (main_staffing_failed _ _ _ _ call_or_parse_fails).
  unfold Move.fallback, Main.fallback. cbn [mbind assign].
  rewrite !(py_lt_num _ _ _ volume_is_a_number), Hlen. cbn [rbind num_mul to_float].
  rewrite float_of_Z_fits
    by (pose proof float_overflow_bound_large; unfold sys_maxsize in Hn; lia).
  unfold rule_movers, rule_truck, staffing_of.
  repeat match goal with
         | |- context [num_ltb ?v (PyInt ?k)] => destruct (num_ltb v (PyInt k))
         end;
    split; reflexivity.
Qed.

Lemma fallback_without_a_length :
  py_len (dict_get inventory "needs_special_handling" (PList [])) = Raise TypeError ->
  snd (Move.staffing json_loads response_text inventory) = Raise TypeError /\
  snd (Main.staffing json_loads response_text inventory) = Raise TypeError.
Proof.
  intros Hlen.
  rewrite (move_staffing_failed _ _ _ _ call_or_parse_fails),
    (main_staffing_failed _ _ _ _ call_or_parse_fails).
  unfold Move.fallback, Main.fallback. cbn [mbind assign].
  rewrite !(py_lt_num _ _ _ volume_is_a_number), Hlen.
  repeat match goal with
         | |- context [num_ltb ?v (PyInt ?k)] => destruct (num_ltb v (PyInt k))
         end;
    split; reflexivity.
Qed.

End FallbackLength.

(** X21.  The fallback takes the length of whatever needs_special_handling holds:
    for a list its items, but also the characters of a string and the keys of
    an object, each counted as half an hour; a value without a length (a
    number, a bool, null) makes the fallback raise TypeError. *)
Theorem fallback_counts_whatever_has_a_length
    (json_loads : string -> result pyval) (response_text : result string)
    (inventory : pydict) (v : pynum) (e : exn) :
  parsed json_loads response_text = Raise e ->
  as_num (dict_get inventory "total_volume_cubic_feet" (PNum (PyInt 500))) = Ok v ->
  (forall n,
      py_len (dict_get inventory "needs_special_handling" (PList [])) = Ok n ->
      n <= sys_maxsize ->
      snd (Move.staffing json_loads response_text inventory)
        = Ok (staffing_of (rule_movers v) (rule_truck v)
                (PyFloat (nearest_float n * 0.5)%float) (PStr EmptyString)) /\
      snd (Main.staffing json_loads response_text inventory)
        = Ok (staffing_of (rule_movers v) (rule_truck v)
                (PyFloat (nearest_float n * 0.5)%float) (PStr EmptyString))) /\
  (py_len (dict_get inventory "needs_special_handling" (PList [])) = Raise TypeError ->
   snd (Move.staffing json_loads response_text inventory) = Raise TypeError /\
   snd (Main.staffing json_loads response_text inventory) = Raise TypeError).
Proof.
  intros Hp Hv. split.
  - intros n Hlen Hn. exact (fallback_with_a_length _ _ _ _ _ Hp Hv n Hlen Hn).
  - intros Hlen. exact (fallback_without_a_length _ _ _ _ _ Hp Hv Hlen).
Qed.

(** needs_special_handling given as the string piano instead of a list: five
    characters, two and a half hours. *)
Lemma fallback_counts_whatever_has_a_length_witness :
  snd (Move.staffing Json.loads_py (Raise ServiceError)
         [("total_volume_cubic_feet", PNum (PyInt 300));
          ("needs_special_handling", PStr "piano")])
    = Ok (staffing_of 2 "small" (PyFloat 2.5) (PStr EmptyString)) /\
  snd (Main.staffing Json.loads_py (Raise ServiceError)
         [("total_volume_cubic_feet", PNum (PyInt 300));
          ("needs_special_handling", PStr "piano")])
    = Ok (staffing_of 2 "small" (PyFloat 2.5) (PStr EmptyString)).
Proof.
  apply (proj1 (fallback_counts_whatever_has_a_length Json.loads_py (Raise ServiceError)
                  [("total_volume_cubic_feet", PNum (PyInt 300));
                   ("needs_special_handling", PStr "piano")]
                  (PyInt 300) ServiceError eq_refl eq_refl) 5).
  - reflexivity.
  - vm_compute. discriminate.
Defined.

(** ** What the unfencing hands to the JSON parser *)

Lemma split_go_nonempty (sep : string) (skip : nat) (cur s : string) :
  exists x l, split_go sep skip cur s = x :: l.
Proof.
  revert skip cur. induction s as [|c s IH]; intros skip cur; cbn [split_go]; [eauto|].
  destruct skip; [|apply IH].
  destruct (String.prefix sep (String c s)); [eauto | apply IH].
Qed.

Lemma lstrip_head (s : string) (c : ascii) (r : string) :
  lstrip s = String c r -> is_space c = false.
Proof.
  induction s as [|c' s IH]; cbn [lstrip]; [discriminate|].
  destruct (is_space c') eqn:Hc; [exact IH|]. now intros [= <- _].
Qed.

Lemma rstrip_cons_nonspace (c : ascii) (s : string) :
  is_space c = false -> rstrip (String c s) = String c (rstrip s).
Proof. intros Hc. cbn [rstrip]. rewrite Hc. now destruct (rstrip s). Qed.

Lemma rstrip_idem (s : string) : rstrip (rstrip s) = rstrip s.
Proof.
  induction s as [|c s IH]; [reflexivity|]. cbn [rstrip].
  destruct (rstrip s) as [|c' r] eqn:Hr.
  - destruct (is_space c) eqn:Hc; [reflexivity|]. cbn [rstrip]. now rewrite Hc.
  - change (rstrip (String c (String c' r)))
      with (match rstrip (String c' r) with
            | EmptyString => if is_space c then EmptyString else String c EmptyString
            | r' => String c r'
            end).
    rewrite IH. reflexivity.
Qed.

Lemma strip_idem (s : string) : strip (strip s) = strip s.
Proof.
  unfold strip. destruct (lstrip s) as [|c r] eqn:Hl; [reflexivity|].
  pose proof (lstrip_head _ _ _ Hl) as Hc.
  rewrite (rstrip_cons_nonspace _ _ Hc). cbn [lstrip]. rewrite Hc.
  rewrite (rstrip_cons_nonspace _ _ Hc). now rewrite rstrip_idem.
Qed.

(** X10.  The unfencing never raises: the subscript [1] of the split cannot be out
    of range, because it is taken only of a text that starts with a fence.
    Its result has no whitespace at either end, and the parse of a model text
    is [json.loads] of that result, so the parse raises only what
    [json.loads] does. *)
Theorem unfence_returns_a_stripped_text
    {V : Type} (json_loads : string -> result V) (text : string) :
  exists s,
    unfence text = Ok s /\
    strip s = s /\
    parse_model_text json_loads text = json_loads s.
Proof.
  unfold parse_model_text, unfence.
  destruct (startswith (strip text) fence_mark) eqn:Hs.
  - unfold split. destruct (strip text) as [|c s]; [discriminate|].
    cbn [split_go]. unfold startswith in Hs. rewrite Hs.
    destruct (split_go_nonempty fence_mark (String.length fence_mark - 1) EmptyString s)
      as (x & l & ->).
    cbn [list_getitem nth_error rbind].
    eexists. split; [reflexivity|]. split; [apply strip_idem | reflexivity].
  - eexists. split; [reflexivity|]. split; [apply strip_idem | reflexivity].
Qed.

Lemma lstrip_spaces (lead s : string) :
  forallb is_space (list_ascii_of_string lead) = true ->
  lstrip (lead ++ s) = lstrip s.
Proof.
  induction lead as [|c lead IH]; [reflexivity|].
  cbn [list_ascii_of_string forallb]. intros [Hc Hl]%andb_prop.
  rewrite append_cons. cbn [lstrip]. rewrite Hc. auto.
Qed.

Lemma rstrip_before_fence (s rest : string) :
  rstrip (s ++ fence_mark ++ rest) = s ++ fence_mark ++ rstrip rest.
Proof.
  induction s as [|c s IH].
  - rewrite !append_nil. unfold fence_mark. rewrite !append_cons, !append_nil.
    now rewrite !rstrip_cons_nonspace by reflexivity.
  - rewrite !append_cons. cbn [rstrip]. rewrite IH.
    destruct s; unfold fence_mark; rewrite ?append_cons, ?append_nil; reflexivity.
Qed.

Lemma split_go_body_then (body cur rest : string) :
  occurs fence_mark body = false ->
  split_go fence_mark 0 cur (body ++ newline ++ fence_mark ++ rest)
  = (cur ++ body ++ newline) :: split_go fence_mark 2 EmptyString ("``" ++ rest).
Proof.
  revert cur. induction body as [|c body IH]; intros cur Hocc.
  - destruct rest; reflexivity.
  - apply occurs_cons in Hocc as [Hpre Hocc].
    rewrite append_cons. cbn [split_go].
    destruct (String.prefix fence_mark (String c (body ++ newline ++ fence_mark ++ rest)))
      eqn:Hp.
    + apply (prefix_before_newline (String c body)) in Hp. congruence.
    + rewrite IH by assumption. now rewrite string_app_assoc.
Qed.

Lemma strip_payload (body : string) :
  strip body = body -> strip (newline ++ body ++ newline) = body.
Proof.
  intros Hstrip. apply strip_fixed in Hstrip as [Hl Hr]. unfold strip.
  change (lstrip (newline ++ body ++ newline)) with (lstrip (body ++ newline)).
  destruct body as [|c body]; [reflexivity|].
  assert (lstrip (String c body ++ newline) = String c body ++ newline) as ->.
  { rewrite append_cons. cbn [lstrip] in *. destruct (is_space c); [|reflexivity].
    pose proof (lstrip_length body) as Hlen. rewrite Hl in Hlen. cbn in Hlen. lia. }
  now rewrite rstrip_app_newline.
Qed.

(** X11.  Whitespace before a json fence and any text after its closing fence are
    ignored: for a payload without surrounding whitespace and without a triple
    backtick, the unfencing of lead + fence(json, payload) + rest is the
    payload, whatever rest is. *)
Theorem text_around_the_fence_is_ignored (lead body rest : string) :
  forallb is_space (list_ascii_of_string lead) = true ->
  strip body = body ->
  occurs fence_mark body = false ->
  unfence (lead ++ fence "json" body ++ rest) = Ok body.
Proof.
  intros Hlead Hstrip Hocc. unfold unfence.
  assert (strip (lead ++ fence "json" body ++ rest)
          = fence_mark ++ "json" ++ newline ++ body ++ newline ++ fence_mark ++ rstrip rest)
    as ->.
  { unfold strip. rewrite (lstrip_spaces _ _ Hlead). unfold fence.
    rewrite !string_app_assoc.
    change (lstrip (fence_mark ++ "json" ++ newline ++ body ++ newline ++ fence_mark ++ rest))
      with (fence_mark ++ "json" ++ newline ++ body ++ newline ++ fence_mark ++ rest).
    replace (fence_mark ++ "json" ++ newline ++ body ++ newline ++ fence_mark ++ rest)
      with ((fence_mark ++ "json" ++ newline ++ body ++ newline) ++ fence_mark ++ rest)
      by now rewrite !string_app_assoc.
    rewrite rstrip_before_fence. now rewrite !string_app_assoc. }
  change (startswith (fence_mark ++ "json" ++ newline ++ body ++ newline
                        ++ fence_mark ++ rstrip rest) fence_mark) with true.
  cbv iota. unfold split.
  change (split_go fence_mark 0 EmptyString
            (fence_mark ++ "json" ++ newline ++ body ++ newline ++ fence_mark ++ rstrip rest))
    with (EmptyString
            :: split_go fence_mark 0 ("json" ++ newline)
                 (body ++ newline ++ fence_mark ++ rstrip rest)).
  rewrite (split_go_body_then body ("json" ++ newline) (rstrip rest) Hocc).
  cbn [list_getitem nth_error rbind].
  rewrite !string_app_assoc.
  change (startswith ("json" ++ newline ++ body ++ newline) "json") with true. cbv iota.
  change (slice_from 4 ("json" ++ newline ++ body ++ newline))
    with (newline ++ body ++ newline).
  now rewrite (strip_payload _ Hstrip).
Qed.

(** The example answer in a fence, after a blank line and before a closing
    remark that itself holds a fence. *)
Lemma text_around_the_fence_is_ignored_witness :
  unfence (newline ++ fence "json" example_answer
             ++ newline ++ "Let me know if ```this``` helps.")
  = Ok example_answer.
Proof.
  apply (text_around_the_fence_is_ignored newline example_answer
           (newline ++ "Let me know if ```this``` helps.")).
  - reflexivity.
  - vm_compute. reflexivity.
  - vm_compute. reflexivity.
Defined.

(** ** The exits of the analyze-video endpoint *)

Section AnalyzeEndpoint.
Variable analyze_youtube_video : string -> string -> Z -> result pyval.
Variable analyze_video_file : string -> string -> Z -> result pyval.
Variable NamedTemporaryFile : result string.
Variable copyfileobj : result unit.
Variable VideoAnalysisResponse : pyval -> result pyval.
Variables (video_file : bool) (youtube_url : option string).
Variables (home_type : string) (room_count : Z) (fs : Endpoint.filesystem).

Lemma endpoint_400 :
  nothing_sent video_file youtube_url = true ->
  Endpoint.analyze_video_endpoint analyze_youtube_video analyze_video_file
    NamedTemporaryFile copyfileobj VideoAnalysisResponse
    video_file youtube_url home_type room_count fs
  = (fs, Raise (HTTPException 400)).
Proof.
  unfold Endpoint.analyze_video_endpoint, nothing_sent.
  destruct video_file, youtube_url as [[|c u]|]; cbn [negb andb]; try discriminate;
    reflexivity.
Qed.

Lemma endpoint_status (e : exn) :
  snd (Endpoint.analyze_video_endpoint analyze_youtube_video analyze_video_file
         NamedTemporaryFile copyfileobj VideoAnalysisResponse
         video_file youtube_url home_type room_count fs) = Raise e ->
  e = HTTPException (if nothing_sent video_file youtube_url then 400 else 500).
Proof.
  destruct (nothing_sent video_file youtube_url) eqn:Hn.
  - rewrite (endpoint_400 Hn). now intros [= <-].
  - unfold Endpoint.analyze_video_endpoint. unfold nothing_sent in Hn.
    replace (negb video_file && negb match youtube_url with
                                     | Some (String _ _) => true
                                     | _ => false
                                     end) with false
      by (destruct video_file, youtube_url as [[|c u]|]; cbn in *; congruence).
    match goal with
    | |- context [let (_, _) := ?p in _] => destruct p as [fs' inventory]
    end.
    destruct (inventory <-! inventory ;; VideoAnalysisResponse inventory);
      cbn [snd]; [discriminate | now intros [= <-]].
Qed.

Lemma endpoint_frame :
  match youtube_url with
  | Some (String _ _) => True
  | _ =>
      video_file = false \/
      (exists e, NamedTemporaryFile = Raise e) \/
      (exists temp_path,
          NamedTemporaryFile = Ok temp_path /\ copyfileobj = Ok tt /\ temp_path ∉ fs)
  end ->
  fst (Endpoint.analyze_video_endpoint analyze_youtube_video analyze_video_file
         NamedTemporaryFile copyfileobj VideoAnalysisResponse
         video_file youtube_url home_type room_count fs) = fs.
Proof.
  intros H.
  destruct (nothing_sent video_file youtube_url) eqn:Hn;
    [now rewrite (endpoint_400 Hn)|].
  unfold nothing_sent in Hn.
  destruct youtube_url as [[|c u]|], video_file; try discriminate Hn.
  2,3: unfold Endpoint.analyze_video_endpoint; cbn [negb andb];
       now destruct (_ <-! analyze_youtube_video _ _ _ ;; _).
  all: destruct H as [H | [[e He] | (p & Hp & Hc & Hfresh)]]; try discriminate H.
  all: try (rewrite Hp, Hc; now apply filesystem_restored_after_analysis).
  all: unfold Endpoint.analyze_video_endpoint, Endpoint.analyze_upload;
       rewrite He; reflexivity.
Qed.

End AnalyzeEndpoint.

(** X12.  Whatever the analyses, the staging and the response model do, the
    analyze-video endpoint raises nothing but an HTTPException: status 400
    when neither an upload nor a non-empty URL came with the request, and then
    without touching the file system, and status 500 in every other case. *)
Theorem analyze_video_endpoint_fails_with_400_or_500
    (analyze_youtube_video analyze_video_file : string -> string -> Z -> result pyval)
    (NamedTemporaryFile : result string) (copyfileobj : result unit)
    (VideoAnalysisResponse : pyval -> result pyval)
    (video_file : bool) (youtube_url : option string)
    (home_type : string) (room_count : Z) (fs : Endpoint.filesystem) :
  let exit :=
    Endpoint.analyze_video_endpoint analyze_youtube_video analyze_video_file
      NamedTemporaryFile copyfileobj VideoAnalysisResponse
      video_file youtube_url home_type room_count fs in
  (forall e,
      snd exit = Raise e ->
      e = HTTPException (if nothing_sent video_file youtube_url then 400 else 500)) /\
  (nothing_sent video_file youtube_url = true ->
   exit = (fs, Raise (HTTPException 400))).
Proof.
  intros exit. subst exit. split.
  - intros e H. exact (endpoint_status _ _ _ _ _ _ _ _ _ _ e H).
  - intros H. exact (endpoint_400 _ _ _ _ _ _ _ _ _ _ H).
Qed.

(** A request with an empty URL and no upload, and an analysis that finds the
    video gone. *)
Lemma analyze_video_endpoint_fails_with_400_or_500_witness :
  Endpoint.analyze_video_endpoint (fun _ _ _ => Raise ServiceError)
    (fun _ _ _ => Raise ServiceError) (Ok "/tmp/tmpab12.mp4") (Ok tt)
    (fun inventory => Ok inventory) false (Some EmptyString) "apartment" 3 ∅
  = (∅, Raise (HTTPException 400)) /\
  snd (Endpoint.analyze_video_endpoint (fun _ _ _ => Raise ServiceError)
         (fun _ _ _ => Raise ServiceError) (Ok "/tmp/tmpab12.mp4") (Ok tt)
         (fun inventory => Ok inventory) false (Some "https://youtu.be/clip")
         "apartment" 3 ∅)
  = Raise (HTTPException 500).
Proof.
  split.
  - apply (proj2 (analyze_video_endpoint_fails_with_400_or_500
                    (fun _ _ _ => Raise ServiceError) (fun _ _ _ => Raise ServiceError)
                    (Ok "/tmp/tmpab12.mp4") (Ok tt) (fun inventory => Ok inventory)
                    false (Some EmptyString) "apartment" 3 ∅)).
    reflexivity.
  - reflexivity.
Defined.

(** X13.  The endpoint leaves the file system as it found it when a non-empty URL
    is given (an upload sent along is never staged), when no upload is given,
    when the temporary file cannot be created, and when the upload is copied
    into a temporary file whose name was free. *)
Theorem analyze_video_endpoint_leaves_the_file_system_as_it_was
    (analyze_youtube_video analyze_video_file : string -> string -> Z -> result pyval)
    (NamedTemporaryFile : result string) (copyfileobj : result unit)
    (VideoAnalysisResponse : pyval -> result pyval)
    (video_file : bool) (youtube_url : option string)
    (home_type : string) (room_count : Z) (fs : Endpoint.filesystem) :
  match youtube_url with
  | Some (String _ _) => True
  | _ =>
      video_file = false \/
      (exists e, NamedTemporaryFile = Raise e) \/
      (exists temp_path,
          NamedTemporaryFile = Ok temp_path /\ copyfileobj = Ok tt /\ temp_path ∉ fs)
  end ->
  fst (Endpoint.analyze_video_endpoint analyze_youtube_video analyze_video_file
         NamedTemporaryFile copyfileobj VideoAnalysisResponse
         video_file youtube_url home_type room_count fs) = fs.
Proof. apply endpoint_frame. Qed.

(** An upload staged under a free name next to another file. *)
Lemma analyze_video_endpoint_leaves_the_file_system_as_it_was_witness :
  fst (Endpoint.analyze_video_endpoint (fun _ _ _ => Raise ServiceError)
         (fun _ _ _ => Raise ServiceError) (Ok "/tmp/tmpab12.mp4") (Ok tt)
         (fun inventory => Ok inventory) true None "apartment" 3
         {["/tmp/other.mp4"]})
  = {["/tmp/other.mp4"]}.
Proof.
  apply (analyze_video_endpoint_leaves_the_file_system_as_it_was
           (fun _ _ _ => Raise ServiceError) (fun _ _ _ => Raise ServiceError)
           (Ok "/tmp/tmpab12.mp4") (Ok tt) (fun inventory => Ok inventory)
           true None "apartment" 3 {["/tmp/other.mp4"]}).
  right. right. exists "/tmp/tmpab12.mp4".
  split; [reflexivity|]. split; [reflexivity|].
  intros [=]%elem_of_singleton.
Defined.

(** ** Stage 1: waiting for an uploaded file *)

Lemma wait_settles (files_get : nat -> string -> result remote_file)
    (polls : nat) (myfile : remote_file) (k : nat) (final : remote_file) :
  settles files_get polls myfile k final ->
  forall fuel,
    wait_while_processing files_get fuel polls myfile
    = if (k <=? fuel)%nat then Some (Finished final) else None.
Proof.
  induction 1 as [polls myfile state Hs Hne | polls myfile next k final Hs Hget _ IH];
    intros fuel.
  - apply String.eqb_neq in Hne.
    destruct fuel; cbn [wait_while_processing]; rewrite Hs; cbn [call of_result obind];
      rewrite Hne; reflexivity.
  - destruct fuel as [|fuel]; cbn [wait_while_processing]; rewrite Hs;
      cbn [call of_result obind]; [reflexivity|].
    rewrite Hget. cbn [call of_result obind]. rewrite IH. reflexivity.
Qed.

Lemma obind_call_parse {A : Type} (r : result string) (k : string -> result A) :
  obind (call r) (fun text => call (k text)) = call (rbind r k).
Proof. now destruct r. Qed.

Lemma obind_call_Ok {A B : Type} (a : A) (k : A -> run B) :
  obind (call (Ok a)) k = k a.
Proof. reflexivity. Qed.

Lemma obind_assoc {A B C : Type} (m : run A) (f : A -> run B) (g : B -> run C) :
  obind (obind m f) g = obind m (fun a => obind (f a) g).
Proof. destruct m as [[a|r]|]; reflexivity. Qed.

Lemma after_the_wait (json_loads : string -> result pyval)
    (generate_content : video_part -> string -> result string)
    (final : remote_file) (prompt : string) :
  (response_text <~
     (state <~ call (state_name final) ;;
      if String.eqb state "FAILED"
      then raise_Exception ("File processing failed: " ++ file_name final)
      else call (generate_content (UploadedFile final) prompt)) ;;
   call (parse_model_text json_loads response_text))
  = Some (analysis_of_processed json_loads generate_content final prompt).
Proof.
  unfold analysis_of_processed, state_name, inventory_from.
  destruct (file_state final) as [state|]; cbn [call of_result obind]; [|reflexivity].
  destruct (String.eqb state "FAILED"); [reflexivity|].
  apply obind_call_parse.
Qed.

Section LargeFile.
Variable json_loads : string -> result pyval.
Variable getsize : string -> result Z.
Variable read_bytes : string -> result string.
Variable files_upload : string -> result remote_file.
Variable files_get : nat -> string -> result remote_file.
Variable generate_content : video_part -> string -> result string.
Variables (video_path home_type : string) (room_count : Z) (prompt : string).
Variables (file_size : Z) (myfile final : remote_file) (k : nat).
Hypothesis prompt_built : video_prompt home_type room_count = Ok prompt.
Hypothesis size_known : getsize video_path = Ok file_size.
Hypothesis large : 20 * 1024 * 1024 <= file_size.
Hypothesis uploaded : files_upload video_path = Ok myfile.
Hypothesis processed : settles files_get 0 myfile k final.

Lemma large_file_body (fuel : nat) :
  (file_size <~ call (getsize video_path) ;;
   response_text <~
     (if file_size <? 20 * 1024 * 1024 then
        video_bytes <~ call (read_bytes video_path) ;;
        call (generate_content (InlineData video_bytes) prompt)
      else
        myfile <~ call (files_upload video_path) ;;
        myfile <~ wait_while_processing files_get fuel 0 myfile ;;
        state <~ call (state_name myfile) ;;
        if String.eqb state "FAILED"
        then raise_Exception ("File processing failed: " ++ file_name myfile)
        else call (generate_content (UploadedFile myfile) prompt)) ;;
   call (parse_model_text json_loads response_text))
  = if (k <=? fuel)%nat
    then Some (analysis_of_processed json_loads generate_content final prompt)
    else None.
Proof.
  rewrite size_known. cbn [call of_result obind].
  destruct (Z.ltb_spec file_size (20 * 1024 * 1024)) as [Hlt|_]; [lia|].
  rewrite uploaded. cbn [call of_result obind].
  rewrite (wait_settles _ _ _ _ _ processed).
  destruct (k <=? fuel)%nat; [|reflexivity]. cbn [obind].
  apply after_the_wait.
Qed.

Lemma move_large_file (fuel : nat) :
  MoveApi.analyze_video_file json_loads getsize read_bytes files_upload files_get
    generate_content fuel video_path home_type room_count
  = if (k <=? fuel)%nat
    then Some (http_500 (analysis_of_processed json_loads generate_content
                           final prompt))
    else None.
Proof.
  unfold MoveApi.analyze_video_file. rewrite prompt_built, large_file_body.
  now destruct (k <=? fuel)%nat.
Qed.

Lemma main_large_file (fuel : nat) :
  startswith video_path "http" = false ->
  MainWorkflow.analyze_video json_loads getsize read_bytes files_upload files_get
    generate_content fuel video_path home_type room_count
  = if (k <=? fuel)%nat
    then Some (analysis_of_processed json_loads generate_content final prompt)
    else None.
Proof.
  intros Hpath. unfold MainWorkflow.analyze_video.
  rewrite Hpath, prompt_built, obind_call_Ok, obind_assoc.
  apply large_file_body.
Qed.

End LargeFile.

(** X14.  A local file of 20 MiB or more is uploaded and polled.  If the File API
    reports it as PROCESSING for k polls and then in another state, the
    analysis is decided exactly when k polls are allowed: with fewer it is
    still waiting, with k or more it is the plain Exception File processing
    failed for the state FAILED and the parsed answer to the request, made of
    the file and the prompt, for any other state.  [analyze_video] of
    src/main.py lets that outcome through; [analyze_video_file] of src/move.py
    turns every failure into an HTTPException 500. *)
Theorem large_file_is_analysed_once_processed
    (json_loads : string -> result pyval)
    (getsize : string -> result Z) (read_bytes : string -> result string)
    (files_upload : string -> result remote_file)
    (files_get : nat -> string -> result remote_file)
    (generate_content : video_part -> string -> result string)
    (video_path home_type : string) (room_count : Z) (prompt : string)
    (file_size : Z) (myfile final : remote_file) (k : nat) :
  video_prompt home_type room_count = Ok prompt ->
  getsize video_path = Ok file_size ->
  20 * 1024 * 1024 <= file_size ->
  files_upload video_path = Ok myfile ->
  settles files_get 0 myfile k final ->
  forall fuel,
    MoveApi.analyze_video_file json_loads getsize read_bytes files_upload files_get
      generate_content fuel video_path home_type room_count
    = (if (k <=? fuel)%nat
       then Some (http_500 (analysis_of_processed json_loads generate_content
                              final prompt))
       else None) /\
    (startswith video_path "http" = false ->
     MainWorkflow.analyze_video json_loads getsize read_bytes files_upload files_get
       generate_content fuel video_path home_type room_count
     = if (k <=? fuel)%nat
       then Some (analysis_of_processed json_loads generate_content final prompt)
       else None).
Proof.
  intros Hprompt Hsize Hlarge Hup Hsettles fuel. split.
  - exact (move_large_file _ _ _ _ _ _ _ _ _ _ _ _ _ _
             Hprompt Hsize Hlarge Hup Hsettles fuel).
  - exact (main_large_file _ _ _ _ _ _ _ _ _ _ _ _ _ _
             Hprompt Hsize Hlarge Hup Hsettles fuel).
Qed.

(** A file of exactly 20 MiB that is ready at the third poll: two polls are
    not enough, three are. *)
Lemma large_file_is_analysed_once_processed_witness :
  MoveApi.analyze_video_file Json.loads_py (fun _ => Ok 20971520)
    (fun _ => Raise OSError) (fun _ => Ok (uploaded_file "PROCESSING"))
    ready_at_the_third_poll (fun _ _ => Ok example_inventory)
    2 "clip.mp4" "apartment" 3
  = None /\
  MoveApi.analyze_video_file Json.loads_py (fun _ => Ok 20971520)
    (fun _ => Raise OSError) (fun _ => Ok (uploaded_file "PROCESSING"))
    ready_at_the_third_poll (fun _ _ => Ok example_inventory)
    3 "clip.mp4" "apartment" 3
  = Some (Ok (PDict (inventory_of [] (PyInt 800) []))).
Proof.
  assert (settles ready_at_the_third_poll 0 (uploaded_file "PROCESSING") 3
            (uploaded_file "ACTIVE")) as Hsettles.
  { do 3 (eapply settles_later; [reflexivity | reflexivity |]).
    eapply settles_now; [reflexivity | discriminate]. }
  pose proof (large_file_is_analysed_once_processed Json.loads_py
                (fun _ => Ok 20971520) (fun _ => Raise OSError)
                (fun _ => Ok (uploaded_file "PROCESSING")) ready_at_the_third_poll
                (fun _ _ => Ok example_inventory) "clip.mp4" "apartment" 3
                (video_prompt_text "apartment" "3")
                20971520 (uploaded_file "PROCESSING") (uploaded_file "ACTIVE") 3
                eq_refl eq_refl ltac:(discriminate) eq_refl Hsettles) as H.
  split.
  - exact (proj1 (H 2%nat)).
  - rewrite (proj1 (H 3%nat)). vm_compute. reflexivity.
Defined.

(** X15.  The two Stage 1 helpers of src/move.py are [analyze_video] of src/main.py
    with every failure of its [try] turned into an HTTPException 500:
    [analyze_video_file] on a path that does not start with http, and
    [analyze_youtube_video] on one that does.  The one failure they let
    through as it is comes from the prompt, which all three build before the
    [try]: a room count beyond the digits limit raises ValueError at each of
    them.  A local path that starts with http is sent to the service as a URI
    by [analyze_video], never opened. *)
Theorem move_helpers_are_analyze_video_behind_http_500
    (json_loads : string -> result pyval)
    (getsize : string -> result Z) (read_bytes : string -> result string)
    (files_upload : string -> result remote_file)
    (files_get : nat -> string -> result remote_file)
    (generate_content : video_part -> string -> result string)
    (fuel : nat) (video_path home_type : string) (room_count : Z) :
  let analysis :=
    MainWorkflow.analyze_video json_loads getsize read_bytes files_upload files_get
      generate_content fuel video_path home_type room_count in
  let behind_http_500 :=
    match video_prompt home_type room_count with
    | Ok _ => option_map http_500 analysis
    | Raise e => Some (Raise e)
    end in
  (startswith video_path "http" = false ->
   MoveApi.analyze_video_file json_loads getsize read_bytes files_upload files_get
     generate_content fuel video_path home_type room_count
   = behind_http_500) /\
  (startswith video_path "http" = true ->
   Some (MoveApi.analyze_youtube_video json_loads generate_content
           video_path home_type room_count)
   = behind_http_500) /\
  (forall e,
      video_prompt home_type room_count = Raise e ->
      analysis = Some (Failed (Builtin e))) /\
  (Z.abs room_count < int_str_bound <->
   exists prompt, video_prompt home_type room_count = Ok prompt).
Proof.
  intros analysis behind_http_500. subst analysis behind_http_500. cbv zeta.
  unfold MoveApi.analyze_video_file, MoveApi.analyze_youtube_video,
    MainWorkflow.analyze_video.
  split; [|split; [|split]].
  - intros ->.
    destruct (video_prompt home_type room_count) as [prompt|e]; [|reflexivity].
    now rewrite obind_call_Ok, obind_assoc.
  - intros ->.
    destruct (video_prompt home_type room_count) as [prompt|e]; [|reflexivity].
    cbn [rbind]. rewrite obind_call_Ok, obind_call_parse. reflexivity.
  - intros e ->. reflexivity.
  - unfold video_prompt, int_str.
    destruct (Z.ltb_spec (Z.abs room_count) int_str_bound) as [Hlt|Hge];
      cbn [rbind]; split.
    + eauto.
    + intros _. exact Hlt.
    + lia.
    + intros [prompt [=]].
Qed.

(** A missing local file: OSError from [analyze_video], 500 from
    [analyze_video_file]. *)
Lemma move_helpers_are_analyze_video_behind_http_500_witness :
  MainWorkflow.analyze_video Json.loads_py (fun _ => Raise OSError)
    (fun _ => Raise OSError) (fun _ => Raise ServiceError)
    (fun _ _ => Raise ServiceError) (fun _ _ => Ok example_inventory)
    0 "clip.mp4" "apartment" 3
  = Some (Failed (Builtin OSError)) /\
  MoveApi.analyze_video_file Json.loads_py (fun _ => Raise OSError)
    (fun _ => Raise OSError) (fun _ => Raise ServiceError)
    (fun _ _ => Raise ServiceError) (fun _ _ => Ok example_inventory)
    0 "clip.mp4" "apartment" 3
  = Some (Raise (HTTPException 500)).
Proof.
  split; [reflexivity|].
  rewrite (proj1 (move_helpers_are_analyze_video_behind_http_500 Json.loads_py
                    (fun _ => Raise OSError) (fun _ => Raise OSError)
                    (fun _ => Raise ServiceError) (fun _ _ => Raise ServiceError)
                    (fun _ _ => Ok example_inventory) 0 "clip.mp4" "apartment" 3)
             eq_refl).
  reflexivity.
Defined.

(** ** The complete workflow of src/main.py *)

Section Workflow.
Variable json_loads : string -> result pyval.
Variable getsize : string -> result Z.
Variable read_bytes : string -> result string.
Variable files_upload : string -> result remote_file.
Variable files_get : nat -> string -> result remote_file.
Variable generate_content : video_part -> string -> result string.
Variable json_dumps : pyval -> result string.
Variable float_repr : float -> string.
Variable container_repr : pyval -> result string.
Variable generate_text : string -> result string.
Variables (fuel : nat) (video_path : string) (distance_km : pynum).
Variables (origin_floor destination_floor : Z).
Variables (has_elevator_origin has_elevator_destination : bool).
Variables (home_type : string) (room_count : Z).
Variable inventory : pyval.
Hypothesis stage1 :
  MainWorkflow.analyze_video json_loads getsize read_bytes files_upload files_get
    generate_content fuel video_path home_type room_count
  = Some (Finished inventory).

Lemma workflow_not_an_object :
  not_an_object inventory ->
  MainWorkflow.estimate_moving_cost json_loads getsize read_bytes files_upload files_get
    generate_content json_dumps float_repr container_repr generate_text
    fuel video_path distance_km
    origin_floor destination_floor has_elevator_origin has_elevator_destination
    home_type room_count
  = Some (Failed (Builtin TypeError)).
Proof.
  intros H. unfold MainWorkflow.estimate_moving_cost.
  rewrite stage1. cbn [obind]. now rewrite (getitem_not_an_object _ _ H).
Qed.

Lemma workflow_without_items (d : pydict) :
  inventory = PDict d ->
  dict_lookup d "items" = None ->
  MainWorkflow.estimate_moving_cost json_loads getsize read_bytes files_upload files_get
    generate_content json_dumps float_repr container_repr generate_text
    fuel video_path distance_km
    origin_floor destination_floor has_elevator_origin has_elevator_destination
    home_type room_count
  = Some (Failed (Builtin (KeyError (PStr "items")))).
Proof.
  intros Hinv H. unfold MainWorkflow.estimate_moving_cost.
  rewrite stage1, Hinv. cbn [obind py_getitem]. now rewrite H.
Qed.

Lemma workflow_without_volume (d : pydict) (items : pyval) (n : Z) :
  inventory = PDict d ->
  dict_lookup d "items" = Some items ->
  py_len items = Ok n ->
  dict_lookup d "total_volume_cubic_feet" = None ->
  MainWorkflow.estimate_moving_cost json_loads getsize read_bytes files_upload files_get
    generate_content json_dumps float_repr container_repr generate_text
    fuel video_path distance_km
    origin_floor destination_floor has_elevator_origin has_elevator_destination
    home_type room_count
  = Some (Failed (Builtin (KeyError (PStr "total_volume_cubic_feet")))).
Proof.
  intros Hinv Hi Hn Hv. unfold MainWorkflow.estimate_moving_cost.
  rewrite stage1, Hinv. cbn [obind py_getitem]. rewrite Hi. cbn [rbind]. rewrite Hn.
  cbn [rbind]. now rewrite Hv.
Qed.

Lemma workflow_returned (result_inventory : pyval) (est : cost_estimate) :
  MainWorkflow.estimate_moving_cost json_loads getsize read_bytes files_upload files_get
    generate_content json_dumps float_repr container_repr generate_text
    fuel video_path distance_km
    origin_floor destination_floor has_elevator_origin has_elevator_destination
    home_type room_count
  = Some (Finished (result_inventory, est)) ->
  result_inventory = inventory /\
  exists d items volume,
    inventory = PDict d /\
    dict_lookup d "items" = Some items /\
    dict_lookup d "total_volume_cubic_feet" = Some volume /\
    snd (Main.calculate_move_cost json_loads json_dumps float_repr generate_text
           d distance_km
           origin_floor destination_floor has_elevator_origin has_elevator_destination)
      = Ok est.
Proof.
  unfold MainWorkflow.estimate_moving_cost.
  rewrite stage1. cbn [obind]. unfold call. intros [= H].
  destruct inventory as [| | | | |d]; try discriminate H.
  cbn [py_getitem] in H.
  destruct (dict_lookup d "items") as [items|] eqn:Hi; [|discriminate H].
  cbn [rbind] in H. destruct (py_len items); [|discriminate H]. cbn [rbind] in H.
  destruct (dict_lookup d "total_volume_cubic_feet") as [volume|] eqn:Hv;
    [|discriminate H].
  cbn [rbind] in H.
  destruct (format_value float_repr container_repr volume); [|discriminate H].
  cbn [rbind MainWorkflow.calculate_move_cost_of] in H.
  destruct (snd (Main.calculate_move_cost _ _ _ _ _ _ _ _ _ _)) as [est'|] eqn:Hest;
    [|discriminate H].
  cbn [rbind] in H.
  destruct (format_num float_repr (total_cost est')); [|discriminate H].
  cbn [rbind of_result] in H. injection H as <- <-.
  split; [reflexivity|]. eauto 8.
Qed.

End Workflow.

(** X16.  Between the stages the workflow subscripts the inventory for its two
    progress lines, so an inventory that Stage 1 returned is priced only if it
    is an object that has both items and total_volume_cubic_feet: a value that
    is not an object raises TypeError, a missing items raises KeyError, and so
    does a missing total_volume_cubic_feet.  The default volume of 500 of
    [calculate_move_cost] is therefore never used by the workflow: whenever it
    returns, the estimate was priced from the volume the inventory holds, and
    the inventory is returned as Stage 1 gave it. *)
Theorem estimate_moving_cost_needs_items_and_volume
    (json_loads : string -> result pyval)
    (getsize : string -> result Z) (read_bytes : string -> result string)
    (files_upload : string -> result remote_file)
    (files_get : nat -> string -> result remote_file)
    (generate_content : video_part -> string -> result string)
    (json_dumps : pyval -> result string) (float_repr : float -> string)
    (container_repr : pyval -> result string)
    (generate_text : string -> result string)
    (fuel : nat) (video_path : string) (distance_km : pynum)
    (origin_floor destination_floor : Z)
    (has_elevator_origin has_elevator_destination : bool)
    (home_type : string) (room_count : Z) (inventory : pyval) :
  MainWorkflow.analyze_video json_loads getsize read_bytes files_upload files_get
    generate_content fuel video_path home_type room_count
  = Some (Finished inventory) ->
  let workflow :=
    MainWorkflow.estimate_moving_cost json_loads getsize read_bytes files_upload
      files_get generate_content json_dumps float_repr container_repr generate_text
      fuel video_path distance_km
      origin_floor destination_floor has_elevator_origin has_elevator_destination
      home_type room_count in
  (not_an_object inventory -> workflow = Some (Failed (Builtin TypeError))) /\
  (forall d,
      inventory = PDict d ->
      dict_lookup d "items" = None ->
      workflow = Some (Failed (Builtin (KeyError (PStr "items"))))) /\
  (forall d items n,
      inventory = PDict d ->
      dict_lookup d "items" = Some items ->
      py_len items = Ok n ->
      dict_lookup d "total_volume_cubic_feet" = None ->
      workflow = Some (Failed (Builtin (KeyError (PStr "total_volume_cubic_feet"))))) /\
  (forall result_inventory est,
      workflow = Some (Finished (result_inventory, est)) ->
      result_inventory = inventory /\
      exists d items volume,
        inventory = PDict d /\
        dict_lookup d "items" = Some items /\
        dict_lookup d "total_volume_cubic_feet" = Some volume /\
        snd (Main.calculate_move_cost json_loads json_dumps float_repr generate_text
               d distance_km origin_floor destination_floor
               has_elevator_origin has_elevator_destination) = Ok est).
Proof.
  intros Hstage1 workflow. subst workflow. split; [|split; [|split]].
  - intros H.
    exact (workflow_not_an_object _ _ _ _ _ _ _ _ _ _ _ _ _ _ _ _ _ _ _ _ Hstage1 H).
  - intros d Hd Hi.
    exact (workflow_without_items _ _ _ _ _ _ _ _ _ _ _ _ _ _ _ _ _ _ _ _ Hstage1
             d Hd Hi).
  - intros d items n Hd Hi Hn Hv.
    exact (workflow_without_volume _ _ _ _ _ _ _ _ _ _ _ _ _ _ _ _ _ _ _ _ Hstage1
             d items n Hd Hi Hn Hv).
  - intros result_inventory est H.
    exact (workflow_returned _ _ _ _ _ _ _ _ _ _ _ _ _ _ _ _ _ _ _ _ Hstage1
             result_inventory est H).
Qed.

(** A video at a URL whose inventory comes back without a volume: the
    workflow raises KeyError although [calculate_move_cost] would have priced
    it at 500 cubic feet. *)
Lemma estimate_moving_cost_needs_items_and_volume_witness :
  let answer := Json.dumps (Json.Object [("items", Json.Array [])]) in
  MainWorkflow.estimate_moving_cost Json.loads_py (fun _ => Raise OSError)
    (fun _ => Raise OSError) (fun _ => Raise ServiceError)
    (fun _ _ => Raise ServiceError) (fun _ _ => Ok answer)
    Json.dumps_py repr_float (fun _ => Ok "[]") service_down
    0 "https://youtu.be/clip" (PyInt 45) 3 2 false true "apartment" 3
  = Some (Failed (Builtin (KeyError (PStr "total_volume_cubic_feet")))).
Proof.
  intros answer.
  refine (proj1 (proj2 (proj2
            (estimate_moving_cost_needs_items_and_volume Json.loads_py
               (fun _ => Raise OSError) (fun _ => Raise OSError)
               (fun _ => Raise ServiceError) (fun _ _ => Raise ServiceError)
               (fun _ _ => Ok answer)
               Json.dumps_py repr_float (fun _ => Ok "[]") service_down
               0 "https://youtu.be/clip" (PyInt 45) 3 2 false true "apartment" 3
               (PDict [("items", PList [])]) _)))
            [("items", PList [])] (PList []) 0 eq_refl eq_refl eq_refl eq_refl).
  vm_compute. reflexivity.
Defined.

(** ** The cost endpoint of src/move.py *)

Section CostEndpoint.
Context {Response : Type}.
Variable json_loads : string -> result pyval.
Variable json_dumps : pyval -> result string.
Variable float_repr : float -> string.
Variable generate_content : string -> result string.
Variable CostEstimationResponse : cost_estimate -> result Response.
Variable request : MoveApi.CostEstimationRequest.

(** Once the prompt is built, the endpoint answers with what the response
    model makes of the pricing of the answer to it. *)
Lemma cost_endpoint_inferred (r : result pyval) :
  request_inference json_loads json_dumps float_repr generate_content request = Ok r ->
  exists response_text,
    parsed json_loads response_text = r /\
    MoveApi.estimate_cost_endpoint json_loads json_dumps float_repr generate_content
      CostEstimationResponse request
    = http_500
        (of_result
           (cost_data <-!
              snd (Move.price json_loads response_text
                     (MoveApi.request_inventory request)
                     (PyFloat (MoveApi.distance_km request))
                     (MoveApi.origin_floor request) (MoveApi.destination_floor request)
                     (MoveApi.has_elevator_origin request)
                     (MoveApi.has_elevator_destination request)) ;;
            CostEstimationResponse cost_data)).
Proof.
  unfold request_inference.
  intros (response_text & Hp & Hmove & _)%inferred.
  exists response_text. split; [exact Hp|].
  unfold MoveApi.estimate_cost_endpoint. cbv zeta. now rewrite Hmove.
Qed.

Lemma cost_endpoint_on_fallback (e : exn) :
  request_inference json_loads json_dumps float_repr generate_content request
    = Ok (Raise e) ->
  Z.of_nat (List.length (MoveApi.needs_special_handling request)) <= sys_maxsize ->
  fits (PyInt (request_stairs request * 25)) ->
  exists est,
    stated_estimate false
      (PyInt (rule_movers (PyFloat (MoveApi.total_volume_cubic_feet request))))
      (rule_truck (PyFloat (MoveApi.total_volume_cubic_feet request)))
      (PyFloat (nearest_float
                  (Z.of_nat (List.length (MoveApi.needs_special_handling request)))
                * 0.5)%float)
      (PStr EmptyString)
      (PyFloat (MoveApi.total_volume_cubic_feet request))
      (PyFloat (MoveApi.distance_km request)) (request_stairs request) = Ok est /\
    MoveApi.estimate_cost_endpoint json_loads json_dumps float_repr generate_content
      CostEstimationResponse request
    = http_500 (of_result (CostEstimationResponse est)).
Proof.
  intros (response_text & Hp & ->)%cost_endpoint_inferred Hn Hs.
  destruct (fallback_as_stated json_loads response_text
              (MoveApi.request_inventory request)
              (PyFloat (MoveApi.total_volume_cubic_feet request))
              (List.map PStr (MoveApi.needs_special_handling request))
              (PyFloat (MoveApi.distance_km request))
              (MoveApi.origin_floor request) (MoveApi.destination_floor request)
              (MoveApi.has_elevator_origin request)
              (MoveApi.has_elevator_destination request) e Hp)
    as [(est & Hest & Hstated) _].
  - reflexivity.
  - exact I.
  - reflexivity.
  - now rewrite length_map.
  - exact I.
  - exact Hs.
  - exists est. rewrite length_map in Hstated. split; [exact Hstated|].
    rewrite Hest. reflexivity.
Qed.

Lemma cost_endpoint_unknown_tier (ai : pyval) (tier : string) :
  request_inference json_loads json_dumps float_repr generate_content request
    = Ok (Ok ai) ->
  py_getitem ai "truck_type" = Ok (PStr tier) ->
  tier <> "small" -> tier <> "medium" -> tier <> "large" ->
  MoveApi.estimate_cost_endpoint json_loads json_dumps float_repr generate_content
    CostEstimationResponse request
  = Raise (HTTPException 500).
Proof.
  intros (response_text & Hp & ->)%cost_endpoint_inferred Ht Hs Hm Hl.
  destruct (unknown_tier_has_no_rate tier Hs Hm Hl) as [Hrate _].
  destruct (move_unknown_tier json_loads response_text
              (MoveApi.request_inventory request)
              (PyFloat (MoveApi.distance_km request))
              (MoveApi.origin_floor request) (MoveApi.destination_floor request)
              (MoveApi.has_elevator_origin request)
              (MoveApi.has_elevator_destination request) ai tier Hp Ht Hrate)
    as (l & e & Hraise & _).
  rewrite Hraise. reflexivity.
Qed.

Lemma cost_endpoint_on_answer (ai : pyval) (movers hours : pynum) (tier : string)
    (notes : pyval) :
  request_inference json_loads json_dumps float_repr generate_content request
    = Ok (Ok ai) ->
  py_getitem ai "recommended_movers" = Ok (PNum movers) ->
  fits movers ->
  py_getitem ai "truck_type" = Ok (PStr tier) ->
  tier = "small" \/ tier = "medium" \/ tier = "large" ->
  py_get ai "complexity_hours_add" (PNum (PyInt 0)) = Ok (PNum hours) ->
  fits hours ->
  py_get ai "special_notes" (PStr EmptyString) = Ok notes ->
  fits (PyInt (request_stairs request * 25)) ->
  exists est,
    stated_estimate false movers tier hours notes
      (PyFloat (MoveApi.total_volume_cubic_feet request))
      (PyFloat (MoveApi.distance_km request)) (request_stairs request) = Ok est /\
    MoveApi.estimate_cost_endpoint json_loads json_dumps float_repr generate_content
      CostEstimationResponse request
    = http_500 (of_result (CostEstimationResponse est)).
Proof.
  intros (response_text & Hp & ->)%cost_endpoint_inferred Hm Fm Ht Hk Hh Fh Hn Fs.
  destruct (answer_as_stated json_loads response_text
              (MoveApi.request_inventory request)
              (PyFloat (MoveApi.total_volume_cubic_feet request))
              (PyFloat (MoveApi.distance_km request))
              (MoveApi.origin_floor request) (MoveApi.destination_floor request)
              (MoveApi.has_elevator_origin request)
              (MoveApi.has_elevator_destination request)
              ai movers hours tier notes Hp Hm Fm Ht Hk Hh Fh Hn)
    as [(est & Hest & Hstated) _].
  - reflexivity.
  - exact I.
  - exact I.
  - exact Fs.
  - exists est. split; [exact Hstated|].
    rewrite Hest. reflexivity.
Qed.

(** Whatever the prompt raises is answered with status 500 as well. *)
Lemma cost_endpoint_unprompted (e : exn) :
  request_inference json_loads json_dumps float_repr generate_content request
    = Raise e ->
  MoveApi.estimate_cost_endpoint json_loads json_dumps float_repr generate_content
    CostEstimationResponse request
  = Raise (HTTPException 500).
Proof.
  unfold request_inference, inference, MoveApi.estimate_cost_endpoint.
  destruct (cost_prompt json_dumps float_repr
              (PDict (MoveApi.request_inventory request))
              (PyFloat (MoveApi.distance_km request))
              (MoveApi.origin_floor request) (MoveApi.destination_floor request)
              (MoveApi.has_elevator_origin request)
              (MoveApi.has_elevator_destination request)) as [prompt|e'] eqn:Hp;
    [discriminate|].
  intros _. cbv zeta.
  rewrite (proj1 (unprompted json_loads _ _ generate_content _ _ _ _ _ _ e' Hp)).
  reflexivity.
Qed.

End CostEndpoint.

(** X17.  For every validated request whose prompt is built and whose floors
    keep the stairs fee within the float range, a failure of the inference
    call or of the parse never makes the cost endpoint fail: the fallback
    staffing for the request's volume is priced as stated, and the endpoint
    answers with whatever the response model makes of that estimate.  The
    request always carries its volume, so the default of 500 is not used. *)
Theorem cost_endpoint_prices_by_the_rule_when_inference_fails
    {Response : Type} (json_loads : string -> result pyval)
    (json_dumps : pyval -> result string) (float_repr : float -> string)
    (generate_content : string -> result string)
    (CostEstimationResponse : cost_estimate -> result Response)
    (request : MoveApi.CostEstimationRequest) (e : exn) :
  request_inference json_loads json_dumps float_repr generate_content request
    = Ok (Raise e) ->
  Z.of_nat (List.length (MoveApi.needs_special_handling request)) <= sys_maxsize ->
  fits (PyInt (request_stairs request * 25)) ->
  exists est,
    stated_estimate false
      (PyInt (rule_movers (PyFloat (MoveApi.total_volume_cubic_feet request))))
      (rule_truck (PyFloat (MoveApi.total_volume_cubic_feet request)))
      (PyFloat (nearest_float
                  (Z.of_nat (List.length (MoveApi.needs_special_handling request)))
                * 0.5)%float)
      (PStr EmptyString)
      (PyFloat (MoveApi.total_volume_cubic_feet request))
      (PyFloat (MoveApi.distance_km request)) (request_stairs request) = Ok est /\
    MoveApi.estimate_cost_endpoint json_loads json_dumps float_repr generate_content
      CostEstimationResponse request
    = http_500 (of_result (CostEstimationResponse est)).
Proof. apply cost_endpoint_on_fallback. Qed.

(** The example request while the inference service is down, with a response
    model that lets an estimate through. *)
Lemma cost_endpoint_prices_by_the_rule_when_inference_fails_witness :
  exists est,
    stated_estimate false (PyInt 4) "medium" (PyFloat 0.5) (PStr EmptyString)
      (PyFloat 800) (PyFloat 45) 2 = Ok est /\
    MoveApi.estimate_cost_endpoint Json.loads_py Json.dumps_py repr_float service_down
      (fun cost_data => Ok cost_data) example_request
    = Ok est.
Proof.
  apply (cost_endpoint_prices_by_the_rule_when_inference_fails Json.loads_py
           Json.dumps_py repr_float service_down (fun cost_data => Ok cost_data)
           example_request ServiceError).
  - vm_compute. reflexivity.
  - vm_compute. discriminate.
  - reflexivity.
Defined.

(** X22.  For every validated request whose prompt is built and whose floors
    keep the stairs fee within the float range, an answer with numeric
    movers, a known truck type and numeric or absent complexity hours is
    priced as stated, and the cost endpoint answers with whatever the
    response model makes of that estimate: the request's volume and distance
    are floats, so they cannot make the pricing raise. *)
Theorem cost_endpoint_prices_a_well_formed_answer
    {Response : Type} (json_loads : string -> result pyval)
    (json_dumps : pyval -> result string) (float_repr : float -> string)
    (generate_content : string -> result string)
    (CostEstimationResponse : cost_estimate -> result Response)
    (request : MoveApi.CostEstimationRequest)
    (ai : pyval) (movers hours : pynum) (tier : string) (notes : pyval) :
  request_inference json_loads json_dumps float_repr generate_content request
    = Ok (Ok ai) ->
  py_getitem ai "recommended_movers" = Ok (PNum movers) ->
  fits movers ->
  py_getitem ai "truck_type" = Ok (PStr tier) ->
  tier = "small" \/ tier = "medium" \/ tier = "large" ->
  py_get ai "complexity_hours_add" (PNum (PyInt 0)) = Ok (PNum hours) ->
  fits hours ->
  py_get ai "special_notes" (PStr EmptyString) = Ok notes ->
  fits (PyInt (request_stairs request * 25)) ->
  exists est,
    stated_estimate false movers tier hours notes
      (PyFloat (MoveApi.total_volume_cubic_feet request))
      (PyFloat (MoveApi.distance_km request)) (request_stairs request) = Ok est /\
    MoveApi.estimate_cost_endpoint json_loads json_dumps float_repr generate_content
      CostEstimationResponse request
    = http_500 (of_result (CostEstimationResponse est)).
Proof. apply cost_endpoint_on_answer. Qed.

(** The example request answered as the prompt's example, with a response
    model that lets an estimate through: the estimate of the worked example,
    with the volume and the distance as floats. *)
Lemma cost_endpoint_prices_a_well_formed_answer_witness :
  exists est,
    stated_estimate false (PyInt 3) "medium" (PyFloat 1.5)
      (PStr "Piano requires extra care and time") (PyFloat 800) (PyFloat 45) 2
      = Ok est /\
    MoveApi.estimate_cost_endpoint Json.loads_py Json.dumps_py repr_float
      (answering example_answer) (fun cost_data => Ok cost_data) example_request
    = Ok est.
Proof.
  apply (cost_endpoint_prices_a_well_formed_answer Json.loads_py Json.dumps_py
           repr_float (answering example_answer) (fun cost_data => Ok cost_data)
           example_request
           (staffing_of 3 "medium" (PyFloat 1.5)
              (PStr "Piano requires extra care and time"))
           (PyInt 3) (PyFloat 1.5) "medium").
  - vm_compute. reflexivity.
  - reflexivity.
  - reflexivity.
  - reflexivity.
  - right. left. reflexivity.
  - reflexivity.
  - exact I.
  - reflexivity.
  - reflexivity.
Defined.

(** X18.  When the answer names a truck type outside small, medium and large, the
    cost endpoint answers with an HTTPException 500 for every request; so it
    does when the prompt cannot be built. *)
Theorem cost_endpoint_answers_500_for_an_unknown_tier
    {Response : Type} (json_loads : string -> result pyval)
    (json_dumps : pyval -> result string) (float_repr : float -> string)
    (generate_content : string -> result string)
    (CostEstimationResponse : cost_estimate -> result Response)
    (request : MoveApi.CostEstimationRequest) :
  (forall ai tier,
      request_inference json_loads json_dumps float_repr generate_content request
        = Ok (Ok ai) ->
      py_getitem ai "truck_type" = Ok (PStr tier) ->
      tier <> "small" -> tier <> "medium" -> tier <> "large" ->
      MoveApi.estimate_cost_endpoint json_loads json_dumps float_repr generate_content
        CostEstimationResponse request
      = Raise (HTTPException 500)) /\
  (forall e,
      request_inference json_loads json_dumps float_repr generate_content request
        = Raise e ->
      MoveApi.estimate_cost_endpoint json_loads json_dumps float_repr generate_content
        CostEstimationResponse request
      = Raise (HTTPException 500)).
Proof.
  split.
  - intros ai tier. apply cost_endpoint_unknown_tier.
  - apply cost_endpoint_unprompted.
Qed.

(** The example request answered with the tier xl. *)
Lemma cost_endpoint_answers_500_for_an_unknown_tier_witness :
  MoveApi.estimate_cost_endpoint Json.loads_py Json.dumps_py repr_float
    (answering xl_answer) (fun cost_data => Ok cost_data) example_request
  = Raise (HTTPException 500).
Proof.
  apply (proj1 (cost_endpoint_answers_500_for_an_unknown_tier Json.loads_py
                  Json.dumps_py repr_float (answering xl_answer)
                  (fun cost_data => Ok cost_data) example_request)
           (staffing_of 3 "xl" (PyFloat 1.5) (PStr EmptyString)) "xl").
  - vm_compute. reflexivity.
  - reflexivity.
  - discriminate.
  - discriminate.
  - discriminate.
Defined.

(** ** The groups of the inventory page *)

Section Grouping.
Context {Item : Type}.
Variable category : Item -> string.

Lemma filter_filter_comm {A : Type} (p q : A -> bool) (l : list A) :
  List.filter p (List.filter q l) = List.filter q (List.filter p l).
Proof.
  induction l as [|x l IH]; [reflexivity|]. cbn [List.filter].
  destruct (p x) eqn:Hp, (q x) eqn:Hq; cbn [List.filter]; rewrite ?Hp, ?Hq; congruence.
Qed.

Lemma first_occurrences_snoc (l : list string) (c : string) :
  first_occurrences (l ++ [c])%list
  = if existsb (String.eqb c) l then first_occurrences l
    else (first_occurrences l ++ [c])%list.
Proof.
  induction l as [|x l IH]; [reflexivity|].
  cbn [app first_occurrences existsb]. rewrite IH.
  destruct (String.eqb_spec c x) as [->|Hne]; cbn [orb].
  - destruct (existsb (String.eqb x) l) eqn:Hex; [reflexivity|].
    rewrite List.filter_app. cbn [List.filter]. rewrite String.eqb_refl. cbn [negb].
    now rewrite app_nil_r.
  - destruct (existsb (String.eqb c) l); [reflexivity|].
    rewrite List.filter_app. cbn [List.filter].
    apply String.eqb_neq in Hne. rewrite Hne. reflexivity.
Qed.

Lemma In_first_occurrences (l : list string) (c : string) :
  List.In c (first_occurrences l) <-> List.In c l.
Proof.
  induction l as [|x l IH]; [reflexivity|]. cbn [first_occurrences List.In].
  rewrite List.filter_In, IH. destruct (String.eqb_spec c x) as [->|Hne].
  - intuition.
  - cbn [negb]. intuition congruence.
Qed.

Lemma NoDup_first_occurrences (l : list string) : List.NoDup (first_occurrences l).
Proof.
  induction l as [|x l IH]; cbn [first_occurrences]; constructor.
  - rewrite List.filter_In, String.eqb_refl. cbn [negb]. intros [_ [=]].
  - now apply List.NoDup_filter.
Qed.

Lemma existsb_eqb_In (c : string) (l : list string) :
  existsb (String.eqb c) l = true <-> List.In c l.
Proof.
  rewrite List.existsb_exists. split.
  - intros (y & Hy & ->%String.eqb_eq). exact Hy.
  - intros H. exists c. now rewrite String.eqb_refl.
Qed.

Lemma existsb_first_occurrences (c : string) (l : list string) :
  existsb (String.eqb c) (first_occurrences l) = existsb (String.eqb c) l.
Proof.
  apply eq_true_iff_eq. now rewrite !existsb_eqb_In, In_first_occurrences.
Qed.

Lemma append_to_map (g : string -> list Item) (cs : list string) (k : string) (x : Item) :
  List.NoDup cs ->
  Streamlit.append_to (List.map (fun c => (c, g c)) cs) k x
  = (List.map (fun c => (c, if String.eqb c k then (g c ++ [x])%list else g c)) cs
       ++ if existsb (String.eqb k) cs then [] else [(k, [x])])%list.
Proof.
  induction 1 as [|c cs Hc Hcs IH]; [reflexivity|].
  cbn [List.map Streamlit.append_to existsb app].
  rewrite (String.eqb_sym k c).
  destruct (String.eqb_spec c k) as [->|Hne]; cbn [orb].
  - rewrite app_nil_r. f_equal. apply List.map_ext_in. intros c' Hc'.
    destruct (String.eqb_spec c' k) as [->|_]; [contradiction | reflexivity].
  - now rewrite IH.
Qed.

Lemma items_of_snoc (c : string) (items : list Item) (x : Item) :
  items_of category c (items ++ [x])%list
  = if String.eqb c (category x) then (items_of category c items ++ [x])%list
    else items_of category c items.
Proof.
  unfold items_of. rewrite List.filter_app. cbn [List.filter].
  rewrite (String.eqb_sym c). destruct (String.eqb (category x) c);
    [reflexivity | apply app_nil_r].
Qed.

Lemma items_of_absent (c : string) (items : list Item) :
  existsb (String.eqb c) (List.map category items) = false ->
  items_of category c items = [].
Proof.
  induction items as [|x items IH]; [reflexivity|].
  cbn [List.map existsb]. intros [Hx Hl]%orb_false_elim.
  unfold items_of. cbn [List.filter]. rewrite String.eqb_sym, Hx. now apply IH.
Qed.

Lemma group_by_category_closed_form (items : list Item) :
  Streamlit.group_by_category category items
  = List.map (fun c => (c, items_of category c items))
      (first_occurrences (List.map category items)).
Proof.
  unfold Streamlit.group_by_category.
  induction items as [|x items IH] using rev_ind; [reflexivity|].
  rewrite fold_left_app. cbn [fold_left]. rewrite IH.
  rewrite (append_to_map (fun c => items_of category c items))
    by apply NoDup_first_occurrences.
  rewrite List.map_app. cbn [List.map].
  rewrite first_occurrences_snoc, existsb_first_occurrences.
  replace (List.map (fun c => (c, if String.eqb c (category x)
                                  then (items_of category c items ++ [x])%list
                                  else items_of category c items))
             (first_occurrences (List.map category items)))
    with (List.map (fun c => (c, items_of category c (items ++ [x])%list))
            (first_occurrences (List.map category items)))
    by (apply List.map_ext; intros c; now rewrite items_of_snoc).
  destruct (existsb (String.eqb (category x)) (List.map category items)) eqn:Hex.
  - apply app_nil_r.
  - rewrite List.map_app. cbn [List.map]. f_equal.
    rewrite items_of_snoc, String.eqb_refl, (items_of_absent _ _ Hex). reflexivity.
Qed.

End Grouping.

(** X19.  The dict the inventory page builds has one key per category, in the
    order in which the categories first occur among the items, and under each
    key exactly the items of that category in their original order: no item
    is dropped, duplicated or moved to another group. *)
Theorem categories_are_the_items_by_first_occurrence
    {Item : Type} (category : Item -> string) (items : list Item) :
  Streamlit.group_by_category category items
  = List.map (fun c => (c, items_of category c items))
      (first_occurrences (List.map category items)).
Proof. apply group_by_category_closed_form. Qed.
